(** * Header field upsert of the auto-timestamps plugin

    A shallow embedding of [hasTimeProperty] and [insertFrontMatter]
    (src/main.ts and src/src/main.ts, which carry the same two methods)
    together with the part of the JavaScript string and RegExp semantics
    these two methods rely on:

    - strings are sequences of UTF-16 code units;
    - [RegExp.prototype.exec] is a backtracking matcher in continuation
      passing style, as in the ECMAScript specification, for the pattern
      constructs the two regular expressions of the program are built from;
    - [new RegExp(source)] reads its source text as a pattern, for pattern
      characters, [.], [^], [$], [|] and the quantifiers [*], [+] and [?];
    - [String.prototype.replace] expands the [$]-patterns of its
      replacement string (GetSubstitution);
    - [String.prototype.trim] strips WhiteSpace and LineTerminator code
      units. *)

From Stdlib Require Import Ascii String.
From Stdlib Require Import NArith ZArith List Bool Lia Permutation.
Import ListNotations.

Local Open Scope N_scope.
Local Open Scope list_scope.

(** ** Strings *)

Abbreviation code_unit := N (only parsing).
Abbreviation jsstring := (list N) (only parsing).

(** [js] reads a literal the way a JavaScript string literal is read, for
    the one escape the program and its documents need: [\n] is the line
    feed.  Every other character stands for its own code. *)
Fixpoint js (s : string) : jsstring :=
  match s with
  | EmptyString => []
  | String c r =>
      match r with
      | String "n"%char r' =>
          if Ascii.eqb c "\"%char then 10 :: js r' else N_of_ascii c :: js r
      | _ => N_of_ascii c :: js r
      end
  end.

Definition isLineTerminator (c : code_unit) : bool :=
  (c =? 10) || (c =? 13) || (c =? 8232) || (c =? 8233).

Definition isWhiteSpace (c : code_unit) : bool :=
  (c =? 9) || (c =? 11) || (c =? 12) || (c =? 32) || (c =? 160)
  || (c =? 5760) || ((8192 <=? c) && (c <=? 8202))
  || (c =? 8239) || (c =? 8287) || (c =? 12288) || (c =? 65279).

(** What [trim] strips, which is also what [\s] matches. *)
Definition isTrimmed (c : code_unit) : bool :=
  isWhiteSpace c || isLineTerminator c.

Fixpoint trimStart (s : jsstring) : jsstring :=
  match s with
  | [] => []
  | c :: s' => if isTrimmed c then trimStart s' else s
  end.

Definition trimEnd (s : jsstring) : jsstring := rev (trimStart (rev s)).

Definition String_trim (s : jsstring) : jsstring := trimEnd (trimStart s).

Definition isEmpty (s : jsstring) : bool :=
  match s with [] => true | _ => false end.

(** ** Regular expressions *)

Inductive class_escape := esc_s | esc_S.

Inductive atom :=
| Chr (c : code_unit)
| Dot
| Class (items : list class_escape).

Inductive regex :=
| Empty
| Atom (a : atom)
| Bol
| Eol
| Seq (r1 r2 : regex)
| Alt (r1 r2 : regex)
| Star (greedy : bool) (a : atom)
| Group (n : nat) (r : regex).

Record RegExp := { source : regex; multiline : bool }.

Definition class_matches (e : class_escape) (c : code_unit) : bool :=
  match e with
  | esc_s => isTrimmed c
  | esc_S => negb (isTrimmed c)
  end.

Definition atom_matches (a : atom) (c : code_unit) : bool :=
  match a with
  | Chr d => c =? d
  | Dot => negb (isLineTerminator c)
  | Class items => existsb (fun e => class_matches e c) items
  end.

(** The matcher state: the code units before the current position (nearest
    first), those from the current position on, and the captures so far. *)
Record mstate := {
  before : jsstring;
  rest : jsstring;
  caps : list (nat * jsstring)
}.

Definition cont := mstate -> option mstate.

Definition orElse (a b : option mstate) : option mstate :=
  match a with Some y => Some y | None => b end.

(** [a*] and [a*?] for a one-code-unit atom: the greedy form tries one more
    code unit before the continuation, the lazy form the continuation
    first. *)
Fixpoint star (greedy : bool) (a : atom) (pre rst : jsstring)
    (cs : list (nat * jsstring)) (c : cont) : option mstate :=
  let stop := c {| before := pre; rest := rst; caps := cs |} in
  let more :=
    match rst with
    | ch :: rst' =>
        if atom_matches a ch then star greedy a (ch :: pre) rst' cs c else None
    | [] => None
    end in
  if greedy then orElse more stop else orElse stop more.

Definition captured (x y : mstate) : jsstring :=
  rev (firstn (length (before y) - length (before x)) (before y)).

Fixpoint matcher (m : bool) (r : regex) (x : mstate) (c : cont)
    : option mstate :=
  match r with
  | Empty => c x
  | Atom a =>
      match rest x with
      | ch :: rst' =>
          if atom_matches a ch
          then c {| before := ch :: before x; rest := rst'; caps := caps x |}
          else None
      | [] => None
      end
  | Bol =>
      match before x with
      | [] => c x
      | p :: _ => if m && isLineTerminator p then c x else None
      end
  | Eol =>
      match rest x with
      | [] => c x
      | n :: _ => if m && isLineTerminator n then c x else None
      end
  | Seq r1 r2 => matcher m r1 x (fun y => matcher m r2 y c)
  | Alt r1 r2 => orElse (matcher m r1 x c) (matcher m r2 x c)
  | Star g a => star g a (before x) (rest x) (caps x) c
  | Group n r' =>
      matcher m r' x
        (fun y => c {| before := before y; rest := rest y;
                       caps := (n, captured x y) :: caps y |})
  end.

Fixpoint nGroups (r : regex) : nat :=
  match r with
  | Seq r1 r2 => nGroups r1 + nGroups r2
  | Alt r1 r2 => nGroups r1 + nGroups r2
  | Group _ r' => S (nGroups r')
  | _ => 0%nat
  end.

Fixpoint lookup (n : nat) (cs : list (nat * jsstring)) : option jsstring :=
  match cs with
  | [] => None
  | (k, v) :: cs' => if Nat.eqb k n then Some v else lookup n cs'
  end.

(** The result of a successful [exec]: the input split around the match, and
    the captures 1, 2, ... ([None] is [undefined]). *)
Record match_result := {
  m_prefix : jsstring;
  m_matched : jsstring;
  m_suffix : jsstring;
  m_captures : list (option jsstring)
}.

Definition result_of (r : regex) (pre rst : jsstring) (y : mstate)
    : match_result :=
  {| m_prefix := rev pre;
     m_matched := firstn (length rst - length (rest y)) rst;
     m_suffix := rest y;
     m_captures := map (fun n => lookup n (caps y)) (seq 1 (nGroups r)) |}.

(** [exec] of a regular expression without the [g] and [y] flags: the
    matcher is tried at index 0, 1, ... up to the length of the input. *)
Fixpoint exec_from (m : bool) (r : regex) (pre rst : jsstring)
    : option match_result :=
  match matcher m r {| before := pre; rest := rst; caps := [] |} Some with
  | Some y => Some (result_of r pre rst y)
  | None =>
      match rst with
      | [] => None
      | ch :: rst' => exec_from m r (ch :: pre) rst'
      end
  end.

Definition RegExp_exec (re : RegExp) (s : jsstring) : option match_result :=
  exec_from (multiline re) (source re) [] s.

Definition RegExp_test (re : RegExp) (s : jsstring) : bool :=
  match RegExp_exec re s with Some _ => true | None => false end.

(** [s.match(re)] for a [re] without the [g] flag is [re.exec(s)]. *)
Definition String_match (s : jsstring) (re : RegExp) : option match_result :=
  RegExp_exec re s.

(** ** GetSubstitution: the [$]-patterns of a replacement string *)

Definition isDigit (c : code_unit) : bool := (48 <=? c) && (c <=? 57).

Definition digit (c : code_unit) : nat := N.to_nat (c - 48).

Definition capture (r : match_result) (index : nat) : jsstring :=
  match nth_error (m_captures r) (index - 1)%nat with
  | Some (Some s) => s
  | _ => []
  end.

Definition DOLLAR : code_unit := 36.

Definition COLON : code_unit := 58.

Fixpoint GetSubstitution (r : match_result) (template : jsstring) : jsstring :=
  match template with
  | [] => []
  | c :: t =>
      if negb (c =? DOLLAR) then c :: GetSubstitution r t
      else
        match t with
        | [] => [c]
        | d :: t' =>
            if d =? DOLLAR then DOLLAR :: GetSubstitution r t'
            else if d =? 96 then m_prefix r ++ GetSubstitution r t'
            else if d =? 38 then m_matched r ++ GetSubstitution r t'
            else if d =? 39 then m_suffix r ++ GetSubstitution r t'
            else if isDigit d then
              let captureLen := length (m_captures r) in
              let one :=
                if Nat.leb 1 (digit d) && Nat.leb (digit d) captureLen
                then capture r (digit d) ++ GetSubstitution r t'
                else c :: d :: GetSubstitution r t' in
              match t' with
              | e :: t'' =>
                  if isDigit e then
                    let index := (10 * digit d + digit e)%nat in
                    if Nat.ltb captureLen index then one
                    else if Nat.leb 1 index
                    then capture r index ++ GetSubstitution r t''
                    else c :: d :: e :: GetSubstitution r t''
                  else one
              | [] => one
              end
            else c :: GetSubstitution r t
        end
  end.

(** [s.replace(re, replacement)] for a [re] without the [g] flag. *)
Definition String_replace (s : jsstring) (re : RegExp) (replacement : jsstring)
    : jsstring :=
  match RegExp_exec re s with
  | None => s
  | Some r => m_prefix r ++ GetSubstitution r replacement ++ m_suffix r
  end.

(** ** The program *)

(** A run of PatternCharacters. *)
Definition literal (s : jsstring) : regex :=
  fold_right (fun c r => Seq (Atom (Chr c)) r) Empty s.

(** [/^---\n([\s\S]*?)\n---/] *)
Definition frontMatterRegex : RegExp :=
  {| source :=
       Seq Bol
         (Seq (literal (js "---\n"))
            (Seq (Group 1 (Star false (Class [esc_s; esc_S])))
               (literal (js "\n---"))));
     multiline := false |}.

(** The SyntaxCharacters of a pattern.  A source text without them is a
    sequence of PatternCharacters, each matching itself. *)
Definition isSyntaxCharacter (c : code_unit) : bool :=
  existsb (N.eqb c) (js "^$\.*+?()[]{}|").

Definition regexLiteral (s : jsstring) : bool :=
  forallb (fun c => negb (isSyntaxCharacter c)) s.

(** ** [new RegExp(source)]

    The constructor reads its source text as a pattern.  The embedding reads
    the patterns made of pattern characters, [.], the assertions [^] and
    [$], the quantifiers [*], [+] and [?], greedy or lazy, on an atom of one
    code unit, and [|].  It gives [None] for a source text that is not a
    pattern, where the constructor throws a SyntaxError (a quantifier with
    nothing to repeat, as in [^*]), and for a source text with a backslash,
    a parenthesis, a bracket or a brace, which it does not read. *)

Definition BAR : code_unit := 124.

(** The Alternatives of a Disjunction: the runs of the source text between
    its [|]. *)
Fixpoint alternatives (s : jsstring) : list jsstring :=
  match s with
  | [] => [[]]
  | c :: s' =>
      if c =? BAR then [] :: alternatives s'
      else match alternatives s' with
           | a :: l => (c :: a) :: l
           | [] => [[c]]
           end
  end.

Definition parseAtom (c : code_unit) : option atom :=
  if c =? 46 then Some Dot
  else if isSyntaxCharacter c then None
  else Some (Chr c).

Definition isQuantifier (c : code_unit) : bool :=
  (c =? 42) || (c =? 43) || (c =? 63).

(** An atom under the quantifier [q]: [a*] repeats, [a+] is [a] and then
    [a*], [a?] is [a] or nothing; the lazy forms try the shorter match
    first. *)
Definition quantified (q : code_unit) (greedy : bool) (a : atom) : regex :=
  if q =? 42 then Star greedy a
  else if q =? 43 then Seq (Atom a) (Star greedy a)
  else if greedy then Alt (Atom a) Empty
  else Alt Empty (Atom a).

Definition andThen (r : regex) (rest : option regex) : option regex :=
  match rest with
  | Some r' => Some (Seq r r')
  | None => None
  end.

(** An Alternative is a sequence of Terms: an assertion, or an atom with at
    most one quantifier, which a [?] after it makes lazy. *)
Fixpoint parseAlternative (s : jsstring) : option regex :=
  match s with
  | [] => Some Empty
  | c :: s1 =>
      if c =? 94 then andThen Bol (parseAlternative s1)
      else if c =? DOLLAR then andThen Eol (parseAlternative s1)
      else
        match parseAtom c with
        | None => None
        | Some a =>
            match s1 with
            | q :: s2 =>
                if isQuantifier q then
                  match s2 with
                  | l :: s3 =>
                      if l =? 63
                      then andThen (quantified q false a) (parseAlternative s3)
                      else andThen (quantified q true a) (parseAlternative s2)
                  | [] => andThen (quantified q true a) (parseAlternative s2)
                  end
                else andThen (Atom a) (parseAlternative s1)
            | [] => andThen (Atom a) (parseAlternative s1)
            end
        end
  end.

Fixpoint disjunction (l : list (option regex)) : option regex :=
  match l with
  | [] => None
  | r :: l' =>
      match l' with
      | [] => r
      | _ :: _ =>
          match r, disjunction l' with
          | Some r1, Some r2 => Some (Alt r1 r2)
          | _, _ => None
          end
      end
  end.

Definition parsePattern (s : jsstring) : option regex :=
  disjunction (map parseAlternative (alternatives s)).

(** [new RegExp(`^${property}:.*$`, 'm')].  The property name is spliced into
    the source text: it is read as a pattern, not as text. *)
Definition propertyRegex (property : jsstring) : option RegExp :=
  match parsePattern (js "^" ++ property ++ js ":.*$") with
  | Some r => Some {| source := r; multiline := true |}
  | None => None
  end.

(** [content.match(frontMatterRegex)?.[1] || ''] *)
Definition frontMatterOf (content : jsstring) : jsstring :=
  match String_match content frontMatterRegex with
  | Some r => capture r 1
  | None => []
  end.

Definition hasTimeProperty (content property : jsstring) : option bool :=
  let frontMatter := frontMatterOf content in
  match propertyRegex property with
  | Some propertyRegex => Some (RegExp_test propertyRegex frontMatter)
  | None => None
  end.

(** The body of the [for (const key in data)] loop. *)
Definition upsertField (frontMatter newFrontMatter key value : jsstring)
    : option jsstring :=
  match propertyRegex key with
  | Some regex =>
      Some (if RegExp_test regex frontMatter
            then String_replace newFrontMatter regex (key ++ js ": " ++ value)
            else newFrontMatter ++ js "\n" ++ key ++ js ": " ++ value)
  | None => None
  end.

(** [data] lists the entries of the record in the order [for ... in] visits
    them. *)
Fixpoint forIn (frontMatter : jsstring) (data : list (jsstring * jsstring))
    (newFrontMatter : jsstring) : option jsstring :=
  match data with
  | [] => Some newFrontMatter
  | (key, value) :: data' =>
      match upsertField frontMatter newFrontMatter key value with
      | Some newFrontMatter' => forIn frontMatter data' newFrontMatter'
      | None => None
      end
  end.

Definition insertFrontMatter (content : jsstring)
    (data : list (jsstring * jsstring)) : option jsstring :=
  let frontMatter := frontMatterOf content in
  match forIn frontMatter data frontMatter with
  | Some newFrontMatter =>
      Some (if negb (isEmpty frontMatter)
            then String_replace content frontMatterRegex
                   (js "---\n" ++ String_trim newFrontMatter ++ js "\n---")
            else js "---\n" ++ String_trim newFrontMatter ++ js "\n---\n\n"
                   ++ content)
  | None => None
  end.

(** ** Text searches the two patterns amount to *)

(** [strip p s] is what follows [p] when [s] starts with [p]. *)
Fixpoint strip (p s : jsstring) : option jsstring :=
  match p, s with
  | [], _ => Some s
  | a :: p', b :: s' => if b =? a then strip p' s' else None
  | _ :: _, [] => None
  end.

(** [find p s] splits [s] around the first occurrence of [p]. *)
Fixpoint find (p s : jsstring) : option (jsstring * jsstring) :=
  match strip p s with
  | Some r => Some ([], r)
  | None =>
      match s with
      | [] => None
      | c :: s' =>
          match find p s' with
          | Some (x, r) => Some (c :: x, r)
          | None => None
          end
      end
  end.

(** A line ends at a LineTerminator or at the end of the text, as [.] and,
    under the [m] flag, [^] and [$] take it. *)
Definition noLT (s : jsstring) : bool :=
  forallb (fun c => negb (isLineTerminator c)) s.

Fixpoint lineHead (s : jsstring) : jsstring :=
  match s with
  | [] => []
  | c :: s' => if isLineTerminator c then [] else c :: lineHead s'
  end.

Fixpoint lineRest (s : jsstring) : jsstring :=
  match s with
  | [] => []
  | c :: s' => if isLineTerminator c then s else lineRest s'
  end.

Definition atLineStart (pre : jsstring) : bool :=
  match pre with
  | [] => true
  | p :: _ => isLineTerminator p
  end.

(** [fieldLine name bol s] looks for the first line start of [s] ([bol] says
    whether [s] itself starts a line) followed by [name:], and splits [s]
    there: what is before, the rest of that line after the colon, and what
    follows the line. *)
Fixpoint fieldLine (name : jsstring) (bol : bool) (s : jsstring)
    : option (jsstring * jsstring * jsstring) :=
  match (if bol then strip (name ++ [COLON]) s else None) with
  | Some tl => Some ([], lineHead tl, lineRest tl)
  | None =>
      match s with
      | [] => None
      | ch :: s' =>
          match fieldLine name (isLineTerminator ch) s' with
          | Some (p, v, q) => Some (ch :: p, v, q)
          | None => None
          end
      end
  end.

Definition fieldTest (name s : jsstring) : bool :=
  match fieldLine name true s with Some _ => true | None => false end.

Definition fieldReplace (name repl s : jsstring) : jsstring :=
  match fieldLine name true s with
  | Some (p, _, q) => p ++ repl ++ q
  | None => s
  end.

Definition fieldResult (name pre : jsstring)
    (f : option (jsstring * jsstring * jsstring)) : option match_result :=
  match f with
  | Some (p, v, q) =>
      Some {| m_prefix := rev pre ++ p;
              m_matched := name ++ [COLON] ++ v;
              m_suffix := q;
              m_captures := [] |}
  | None => None
  end.

(** A run of PatternCharacters followed by a pattern. *)
Definition literalThen (s : jsstring) (r : regex) : regex :=
  fold_right (fun c r => Seq (Atom (Chr c)) r) r s.

(** What [^name:.*$] is read as when the name is a run of
    PatternCharacters. *)
Definition fieldPattern (name : jsstring) : regex :=
  Seq Bol
    (literalThen name
       (Seq (Atom (Chr COLON)) (Seq (Star true Dot) (Seq Eol Empty)))).

(** The header block of a document: the capture and what follows the match. *)
Definition header (content : jsstring) : option (jsstring * jsstring) :=
  match strip (js "---\n") content with
  | Some body => find (js "\n---") body
  | None => None
  end.

Definition noDollar (s : jsstring) : bool :=
  forallb (fun c => negb (c =? DOLLAR)) s.

(** The lines of a text, without their terminators. *)
Fixpoint js_lines (s : jsstring) : list jsstring :=
  match s with
  | [] => [[]]
  | c :: s' =>
      if isLineTerminator c then [] :: js_lines s'
      else match js_lines s' with
           | l :: ls => (c :: l) :: ls
           | [] => [[c]]
           end
  end.

Definition startsWith (p s : jsstring) : bool :=
  match strip p s with Some _ => true | None => false end.

(** A line that starts with [name:]. *)
Definition named (name l : jsstring) : bool := startsWith (name ++ [COLON]) l.

Definition allTrimmed (s : jsstring) : bool := forallb isTrimmed s.

(** Whether a text begins, or ends, with a code unit [trim] strips. *)
Definition startsTrimmed (s : jsstring) : bool :=
  match s with
  | [] => false
  | c :: _ => isTrimmed c
  end.

Definition endsTrimmed (s : jsstring) : bool := startsTrimmed (rev s).

(** A text with a code unit that [trim] keeps. *)
Definition hasText (s : jsstring) : bool := negb (allTrimmed s).

(** What [trim] leaves of a line of a text: the line loses what [trim]
    strips at its start when no line before it has text, and at its end
    when no line after it has. *)
Definition keptLine (before after : bool) (l : jsstring) : jsstring :=
  let l' := if before then l else trimStart l in
  if after then l' else trimEnd l'.

(** The line [upsertField] writes for a field. *)
Definition fieldText (key value : jsstring) : jsstring :=
  key ++ js ": " ++ value.

Definition noColon (s : jsstring) : bool :=
  forallb (fun c => negb (c =? COLON)) s.

(** A field name as the program's own are ([created], [modified]): literal
    as a pattern, on one line, without a colon, not beginning with a code
    unit [trim] strips nor with the marker. *)
Definition bareName (k : jsstring) : bool :=
  regexLiteral k && noLT k && noColon k && negb (startsTrimmed k)
  && negb (startsWith (js "---") k).

(** A value on one line and without [$]. *)
Definition plainValue (v : jsstring) : bool := noLT v && noDollar v.

(** Whether the first code unit of [s] that [trim] keeps stands after a
    WhiteSpace of its own line; [bol] says whether [s] starts a line. *)
Fixpoint indented (bol : bool) (s : jsstring) : bool :=
  match s with
  | [] => false
  | c :: s' =>
      if isLineTerminator c then indented true s'
      else if isTrimmed c then indented false s'
      else negb bol
  end.

(** Whether a line feed followed by [---] occurs in [s]. *)
Fixpoint hasMarker (s : jsstring) : bool :=
  match s with
  | [] => false
  | c :: s' => ((c =? 10) && startsWith (js "---") s') || hasMarker s'
  end.

(** A field is settled in [S] when its first line there is the one the
    mapping asks for: replacing it changes nothing. *)
Definition settled (S : jsstring) (kv : jsstring * jsstring) : Prop :=
  fieldTest (fst kv) S = true /\
  fieldReplace (fst kv) (fieldText (fst kv) (snd kv)) S = S.

Definition wellFormed (kv : jsstring * jsstring) : Prop :=
  bareName (fst kv) = true /\ plainValue (snd kv) = true.

(** The lines the loop appends for fields that are all missing, in the order
    of the mapping. *)
Definition appended (data : list (jsstring * jsstring)) : jsstring :=
  concat (map (fun kv => js "\n" ++ fieldText (fst kv) (snd kv)) data).

(** ** The event handlers

    The three handlers are state transformers on the plugin's fields and
    the vault.  A handler is run to its end before the next event is taken;
    the vault is read and written where the source awaits [vault.read] and
    [vault.modify].  A read of a file the vault does not hold rejects, which
    the handlers catch.  What the handlers take from outside is given to
    them: [momentFormat t] stands for
    [moment(t).format("YYYY-MM-DD HH:mm:ss")], and the events carry the value
    of [Date.now()] and the text of [moment().format(...)].  Numbers are the
    integers the plugin meets: times in milliseconds and an interval in
    seconds.  [insertFrontMatter] gives a result for the two names of the
    program; its [None] stands for a throw, after which the handler's
    [catch] keeps the vault as it is.  [console.error] is left out. *)

Record AutoTimestampsPluginSettings := {
  enableCreatedTime : bool;
  enableModifiedTime : bool;
  modifyInterval : Z
}.

Definition DEFAULT_SETTINGS : AutoTimestampsPluginSettings :=
  {| enableCreatedTime := true; enableModifiedTime := true;
     modifyInterval := 10 |}.

(** A [TFile] object: [ref] is its identity, which [===] compares. *)
Record TFile := {
  ref : nat;
  extension : jsstring;
  ctime : Z;
  mtime : Z
}.

Record AutoTimestampsPlugin := {
  settings : AutoTimestampsPluginSettings;
  lastModifiedTime : Z;
  activeFile : option TFile;
  processingFile : bool;
  isInitializing : bool
}.

(** The contents of the files of the vault, by file. *)
Abbreviation Vault := (nat -> option (list N)) (only parsing).

Definition modify (v : Vault) (file : TFile) (data : jsstring) : Vault :=
  fun r => if Nat.eqb r (ref file) then Some data else v r.

Fixpoint jsstring_eqb (a b : jsstring) : bool :=
  match a, b with
  | [], [] => true
  | c :: a', d :: b' => (c =? d) && jsstring_eqb a' b'
  | _, _ => false
  end.

Definition isMarkdown (file : TFile) : bool :=
  jsstring_eqb (extension file) (js "md").

(** [file === this.activeFile] *)
Definition isActive (p : AutoTimestampsPlugin) (file : TFile) : bool :=
  match activeFile p with
  | Some a => Nat.eqb (ref a) (ref file)
  | None => false
  end.

Definition setProcessing (b : bool) (p : AutoTimestampsPlugin)
    : AutoTimestampsPlugin :=
  {| settings := settings p; lastModifiedTime := lastModifiedTime p;
     activeFile := activeFile p; processingFile := b;
     isInitializing := isInitializing p |}.

Definition setActiveFile (f : TFile) (p : AutoTimestampsPlugin)
    : AutoTimestampsPlugin :=
  {| settings := settings p; lastModifiedTime := lastModifiedTime p;
     activeFile := Some f; processingFile := processingFile p;
     isInitializing := isInitializing p |}.

Definition setLastModifiedTime (t : Z) (p : AutoTimestampsPlugin)
    : AutoTimestampsPlugin :=
  {| settings := settings p; lastModifiedTime := t;
     activeFile := activeFile p; processingFile := processingFile p;
     isInitializing := isInitializing p |}.

(** [!this.hasTimeProperty(content, name)] for the two names of the
    program, which are literal as patterns. *)
Definition lacks (content name : jsstring) : bool :=
  match hasTimeProperty content name with
  | Some b => negb b
  | None => false
  end.

Section Handlers.
Variable momentFormat : Z -> jsstring.

(** The mapping [handleFileOpen] builds: the enabled fields that the
    document lacks, with the times of the file. *)
Definition dataToAdd (s : AutoTimestampsPluginSettings) (file : TFile)
    (content : jsstring) : list (jsstring * jsstring) :=
  (if enableCreatedTime s && lacks content (js "created")
   then [(js "created", momentFormat (ctime file))] else [])
  ++
  (if enableModifiedTime s && lacks content (js "modified")
   then [(js "modified", momentFormat (mtime file))] else []).

Definition handleFileOpen (file : option TFile)
    (pv : AutoTimestampsPlugin * Vault) : AutoTimestampsPlugin * Vault :=
  let (p, v) := pv in
  match file with
  | None => (p, v)
  | Some f =>
      if isInitializing p || negb (isMarkdown f) then (p, v)
      else
        let p := setActiveFile f p in
        let v' :=
          match v (ref f) with
          | Some content =>
              match dataToAdd (settings p) f content with
              | [] => v
              | data =>
                  match insertFrontMatter content data with
                  | Some newContent => modify v f newContent
                  | None => v
                  end
              end
          | None => v
          end in
        (setProcessing false p, v')
  end.

(** The mapping [handleFileCreate] builds: the enabled fields, both with the
    current time. *)
Definition createData (s : AutoTimestampsPluginSettings)
    (currentTime : jsstring) : list (jsstring * jsstring) :=
  (if enableCreatedTime s then [(js "created", currentTime)] else [])
  ++ (if enableModifiedTime s then [(js "modified", currentTime)] else []).

Definition handleFileCreate (file : TFile) (currentTime : jsstring)
    (pv : AutoTimestampsPlugin * Vault) : AutoTimestampsPlugin * Vault :=
  let (p, v) := pv in
  if isInitializing p || negb (isMarkdown file) then (p, v)
  else
    match v (ref file) with
    | Some content =>
        match createData (settings p) currentTime with
        | [] => (setProcessing false p, v)
        | data =>
            match insertFrontMatter content data with
            | Some newContent =>
                let p' :=
                  if isActive p file && enableModifiedTime (settings p)
                  then setLastModifiedTime 0 p else p in
                (setProcessing false p', modify v file newContent)
            | None => (setProcessing false p, v)
            end
        end
    | None => (setProcessing false p, v)
    end.

Definition handleFileModify (file : TFile) (currentTime : Z)
    (modifiedTime : jsstring) (pv : AutoTimestampsPlugin * Vault)
    : AutoTimestampsPlugin * Vault :=
  let (p, v) := pv in
  if isInitializing p || processingFile p || negb (isMarkdown file)
     || negb (isActive p file)
  then (p, v)
  else
    let interval := (modifyInterval (settings p) * 1000)%Z in
    if enableModifiedTime (settings p)
       && (interval <? currentTime - lastModifiedTime p)%Z
    then
      match v (ref file) with
      | Some content =>
          match insertFrontMatter content [(js "modified", modifiedTime)] with
          | Some newContent =>
              (setProcessing false (setLastModifiedTime currentTime p),
               modify v file newContent)
          | None => (setProcessing false p, v)
          end
      | None => (setProcessing false p, v)
      end
    else (p, v).

End Handlers.

(** What the loop does when the presence test finds every field: one
    replacement after the other. *)
Definition replaceAll (data : list (jsstring * jsstring)) (S : jsstring)
    : jsstring :=
  fold_left (fun S kv => fieldReplace (fst kv) (fieldText (fst kv) (snd kv)) S)
    data S.

(** * Properties *)

(** ** Prefixes and first occurrences *)

Lemma strip_Some p : forall s r, strip p s = Some r <-> s = p ++ r.
Proof.
  induction p as [|a p IH]; intros s r; simpl.
  - split; [intros [= ->] | intros ->]; reflexivity.
  - destruct s as [|b s]; [split; discriminate|].
    destruct (N.eqb_spec b a) as [->|Hne].
    + rewrite IH. split; [intros -> | intros [= ->]]; reflexivity.
    + split; [discriminate | intros [= E _]; contradiction].
Qed.

Lemma strip_app p r : strip p (p ++ r) = Some r.
Proof. apply strip_Some. reflexivity. Qed.

Lemma find_Some p : forall s x r, find p s = Some (x, r) -> s = x ++ p ++ r.
Proof.
  induction s as [|c s IH]; intros x r; simpl.
  - destruct (strip p []) eqn:E; [|discriminate].
    intros [= <- <-]. apply strip_Some in E. exact E.
  - destruct (strip p (c :: s)) eqn:E.
    + intros [= <- <-]. apply strip_Some in E. exact E.
    + destruct (find p s) as [[x' r']|] eqn:F; [|discriminate].
      intros [= <- <-]. simpl. f_equal. apply IH. reflexivity.
Qed.

(** The occurrence [find] reports is the nearest one. *)
Lemma find_nearest p : forall s x r x' r',
  find p s = Some (x, r) -> s = x' ++ p ++ r' ->
  (length x <= length x')%nat.
Proof.
  induction s as [|c s IH]; intros x r x' r'; simpl.
  - destruct (strip p []) eqn:E; [|discriminate].
    intros [= <- <-] _. simpl. lia.
  - destruct (strip p (c :: s)) eqn:E.
    + intros [= <- <-] _. simpl. lia.
    + destruct (find p s) as [[y ry]|] eqn:F; [|discriminate].
      intros [= <- <-] Hs. destruct x' as [|c' x'].
      * simpl in Hs. rewrite Hs, strip_app in E. discriminate.
      * simpl in Hs. injection Hs as _ Hs. simpl.
        specialize (IH y ry x' r' eq_refl Hs). lia.
Qed.

Lemma find_None p : forall s x r, find p s = None -> s <> x ++ p ++ r.
Proof.
  induction s as [|c s IH]; intros x r; simpl.
  - destruct (strip p []) eqn:E; [discriminate|]. intros _ Hs.
    destruct x; simpl in Hs.
    + rewrite Hs, strip_app in E. discriminate.
    + discriminate.
  - destruct (strip p (c :: s)) eqn:E; [discriminate|].
    destruct (find p s) as [[y ry]|] eqn:F; [discriminate|].
    intros _ Hs. destruct x as [|c' x]; simpl in Hs.
    + rewrite Hs, strip_app in E. discriminate.
    + injection Hs as _ Hs. exact (IH x r eq_refl Hs).
Qed.

(** ** The matcher on the constructs of the two patterns *)

Lemma matcher_literal m p : forall x c,
  matcher m (literal p) x c =
  match strip p (rest x) with
  | Some r => c {| before := rev p ++ before x; rest := r; caps := caps x |}
  | None => None
  end.
Proof.
  induction p as [|a p IH]; intros [b r cs] c; simpl.
  - reflexivity.
  - destruct r as [|ch r]; [reflexivity|].
    destruct (N.eqb_spec ch a) as [->|_]; [|reflexivity].
    rewrite IH. simpl. rewrite <- app_assoc. reflexivity.
Qed.

Lemma class_any c : atom_matches (Class [esc_s; esc_S]) c = true.
Proof. simpl. destruct (isTrimmed c); reflexivity. Qed.

(** [[\s\S]*?] in front of a continuation that needs [p] next stops at the
    first occurrence of [p]. *)
Lemma star_lazy_any p (G : mstate -> jsstring -> mstate) (c : cont) cs :
  (forall y, c y = match strip p (rest y) with
                   | Some r => Some (G y r)
                   | None => None
                   end) ->
  forall rst pre,
  star false (Class [esc_s; esc_S]) pre rst cs c =
  match find p rst with
  | Some (x, r) =>
      Some (G {| before := rev x ++ pre; rest := p ++ r; caps := cs |} r)
  | None => None
  end.
Proof.
  intros Hc. induction rst as [|ch rst IH]; intros pre.
  - simpl. rewrite Hc. simpl.
    destruct (strip p []) eqn:E; [|reflexivity].
    apply strip_Some in E. rewrite <- E. reflexivity.
  - cbn [star find]. rewrite Hc. cbn [rest before caps].
    destruct (strip p (ch :: rst)) eqn:E.
    + apply strip_Some in E. rewrite <- E. reflexivity.
    + cbn [orElse]. rewrite class_any, IH.
      destruct (find p rst) as [[x r]|]; [|reflexivity].
      simpl. rewrite <- app_assoc. reflexivity.
Qed.

Lemma firstn_length_app {A} (a b : list A) :
  firstn (length (a ++ b) - length b) (a ++ b) = a.
Proof.
  rewrite length_app.
  replace (length a + length b - length b)%nat with (length a + 0)%nat by lia.
  rewrite firstn_app_2. simpl. apply app_nil_r.
Qed.

Lemma exec_frontMatter_later : forall rst ch pre,
  exec_from false (source frontMatterRegex) (ch :: pre) rst = None.
Proof.
  induction rst as [|c rst IH]; intros ch pre; simpl; [reflexivity|].
  apply IH.
Qed.

(** [frontMatterRegex] matches the documents that start with [---\n] and
    have a [\n---] after it; the capture runs to the first such place. *)
Lemma exec_frontMatter s :
  RegExp_exec frontMatterRegex s =
  match strip (js "---\n") s with
  | Some body =>
      match find (js "\n---") body with
      | Some (x, r) =>
          Some {| m_prefix := [];
                  m_matched := js "---\n" ++ x ++ js "\n---";
                  m_suffix := r;
                  m_captures := [Some x] |}
      | None => None
      end
  | None => None
  end.
Proof.
  unfold RegExp_exec. destruct s as [|c0 s].
  - reflexivity.
  - cbn [exec_from frontMatterRegex source multiline].
    cbn [matcher before]. rewrite matcher_literal. cbn [rest].
    destruct (strip (js "---\n") (c0 :: s)) as [body|] eqn:E.
    2:{ apply exec_frontMatter_later. }
    cbn [matcher before rest caps].
    erewrite (star_lazy_any (js "\n---")
                (fun y r => {| before := rev (js "\n---") ++ before y;
                               rest := r;
                               caps := (1%nat, captured
                                  {| before := rev (js "---\n") ++ [];
                                     rest := body; caps := [] |} y)
                                  :: caps y |})).
    2:{ intros y. rewrite matcher_literal. cbn [rest before caps].
        destruct (strip (js "\n---") (rest y)); reflexivity. }
    destruct (find (js "\n---") body) as [[x r]|] eqn:F.
    2:{ apply exec_frontMatter_later. }
    apply strip_Some in E. apply find_Some in F.
    unfold result_of. cbn [rest caps before]. f_equal. f_equal.
    + rewrite E, F.
      replace (js "---\n" ++ x ++ js "\n---" ++ r)
        with ((js "---\n" ++ x ++ js "\n---") ++ r)
        by (rewrite <- !app_assoc; reflexivity).
      apply firstn_length_app.
    + change (nGroups _) with 1%nat. cbn [seq map lookup Nat.eqb].
      unfold captured. cbn [before]. f_equal. f_equal.
      rewrite app_nil_r, firstn_length_app. apply rev_involutive.
Qed.

(** ** Lines *)

Lemma lineHead_rest s : lineHead s ++ lineRest s = s.
Proof.
  induction s as [|c s IH]; simpl; [reflexivity|].
  destruct (isLineTerminator c); simpl; [reflexivity|]. f_equal. exact IH.
Qed.

Lemma noLT_lineHead s : noLT (lineHead s) = true.
Proof.
  induction s as [|c s IH]; simpl; [reflexivity|].
  destruct (isLineTerminator c) eqn:E; simpl; [reflexivity|].
  rewrite E. exact IH.
Qed.

Lemma lineRest_start s :
  lineRest s = [] \/ exists t q, lineRest s = t :: q /\ isLineTerminator t = true.
Proof.
  induction s as [|c s IH]; simpl; [left; reflexivity|].
  destruct (isLineTerminator c) eqn:E; [|exact IH].
  right. exists c, s. split; [reflexivity | exact E].
Qed.

Lemma lineHead_line l : noLT l = true -> forall q,
  (q = [] \/ exists t q', q = t :: q' /\ isLineTerminator t = true) ->
  lineHead (l ++ q) = l /\ lineRest (l ++ q) = q.
Proof.
  intros Hl q Hq. induction l as [|c l IH]; simpl in *.
  - destruct Hq as [->|(t & q' & -> & Ht)]; simpl; [auto|].
    rewrite Ht. auto.
  - apply andb_true_iff in Hl as [Hc Hl].
    destruct (isLineTerminator c); [discriminate|].
    destruct (IH Hl) as [-> ->]. auto.
Qed.

Lemma strip_split p q s :
  strip (p ++ q) s =
  match strip p s with Some r => strip q r | None => None end.
Proof.
  revert s. induction p as [|a p IH]; intros s; simpl; [reflexivity|].
  destruct s as [|b s]; [reflexivity|].
  destruct (b =? a); [apply IH | reflexivity].
Qed.

Lemma star_greedy_dot cs : forall rst pre,
  star true Dot pre rst cs (fun y => matcher true Eol y Some) =
  Some {| before := rev (lineHead rst) ++ pre; rest := lineRest rst;
          caps := cs |}.
Proof.
  induction rst as [|ch rst IH]; intros pre.
  - reflexivity.
  - cbn [star atom_matches lineHead lineRest].
    destruct (isLineTerminator ch) eqn:E; cbn [negb].
    + simpl. rewrite E. reflexivity.
    + rewrite IH. simpl. rewrite <- app_assoc. reflexivity.
Qed.

(** *** Names that are literal as patterns *)

Lemma matcher_literalThen m r p : forall x c,
  matcher m (literalThen p r) x c =
  match strip p (rest x) with
  | Some s => matcher m r {| before := rev p ++ before x; rest := s;
                             caps := caps x |} c
  | None => None
  end.
Proof.
  induction p as [|a p IH]; intros [b s cs] c; simpl.
  - reflexivity.
  - destruct s as [|ch s]; [reflexivity|].
    destruct (N.eqb_spec ch a) as [->|_]; [|reflexivity].
    rewrite IH. simpl. rewrite <- app_assoc. reflexivity.
Qed.

Lemma nGroups_literalThen p r : nGroups (literalThen p r) = nGroups r.
Proof. induction p as [|a p IH]; simpl; [reflexivity | exact IH]. Qed.

Lemma literal_facts c :
  negb (isSyntaxCharacter c) = true ->
  (c =? 94) = false /\ (c =? DOLLAR) = false /\ (c =? BAR) = false /\
  parseAtom c = Some (Chr c) /\ isQuantifier c = false.
Proof.
  unfold isSyntaxCharacter, parseAtom, isQuantifier. cbn [js existsb N_of_ascii].
  intros H. apply negb_true_iff in H.
  repeat (apply orb_false_iff in H; destruct H as [? H]).
  unfold DOLLAR, BAR.
  repeat match goal with
         | E : (c =? ?n) = false |- _ =>
             change (N_of_ascii _) with n in E
         end.
  vm_compute N_of_digits in *.
  repeat match goal with E : (c =? _) = false |- _ => revert E end.
  cbn. intros.
  repeat match goal with E : (c =? _) = false |- _ => rewrite E end.
  cbn. repeat split; reflexivity.
Qed.

Lemma alternatives_literal s :
  forallb (fun c => negb (c =? BAR)) s = true -> alternatives s = [s].
Proof.
  induction s as [|c s IH]; [reflexivity|]. cbn [forallb alternatives].
  intros H. apply andb_true_iff in H as [Hc Hs]. apply negb_true_iff in Hc.
  rewrite Hc, (IH Hs). reflexivity.
Qed.

Lemma parseAlternative_literal tl r :
  parseAlternative tl = Some r ->
  match tl with q :: _ => isQuantifier q = false | [] => True end ->
  forall p, regexLiteral p = true ->
  parseAlternative (p ++ tl) = Some (literalThen p r).
Proof.
  intros Htl Hq. induction p as [|c p IH]; intros Hp; [exact Htl|].
  cbn [regexLiteral forallb] in Hp. apply andb_true_iff in Hp as [Hc Hp].
  destruct (literal_facts c Hc) as (H1 & H2 & _ & H4 & _).
  cbn [app parseAlternative literalThen fold_right]. rewrite H1, H2, H4.
  assert (Hnext : match p ++ tl with
                  | q :: _ => isQuantifier q = false
                  | [] => True
                  end).
  { destruct p as [|d p]; [exact Hq|]. cbn [app].
    cbn [regexLiteral forallb] in Hp. apply andb_true_iff in Hp as [Hd _].
    exact (proj2 (proj2 (proj2 (proj2 (literal_facts d Hd))))). }
  specialize (IH Hp). fold (literalThen p r).
  destruct (p ++ tl) as [|q s2]; [rewrite IH; reflexivity|].
  rewrite Hnext, IH. reflexivity.
Qed.

Lemma propertyRegex_literal name :
  regexLiteral name = true ->
  propertyRegex name =
  Some {| source := fieldPattern name; multiline := true |}.
Proof.
  intros Hn. unfold propertyRegex, parsePattern.
  rewrite alternatives_literal.
  - cbn [map disjunction]. change (js "^" ++ name ++ js ":.*$")
      with (94 :: name ++ js ":.*$").
    cbn [parseAlternative]. change (94 =? 94) with true. cbv iota.
    rewrite (parseAlternative_literal (js ":.*$")
               (Seq (Atom (Chr COLON)) (Seq (Star true Dot) (Seq Eol Empty))));
      [reflexivity | reflexivity | reflexivity | exact Hn].
  - change (js "^" ++ name ++ js ":.*$") with ([94] ++ name ++ js ":.*$").
    rewrite !forallb_app. apply andb_true_iff. split; [reflexivity|].
    apply andb_true_iff. split; [|reflexivity].
    apply forallb_forall. intros c Hc.
    apply (proj1 (forallb_forall _ _) Hn) in Hc.
    destruct (literal_facts c Hc) as (_ & _ & -> & _). reflexivity.
Qed.

(** [^name:.*$] under the [m] flag finds the first line that starts with
    [name:] and matches it to its end. *)
Lemma exec_fieldPattern name :
  forall rst pre,
    exec_from true (fieldPattern name) pre rst =
    fieldResult name pre (fieldLine name (atLineStart pre) rst).
Proof.
  set (src := fieldPattern name).
  assert (Hm : forall rst pre,
    matcher true src {| before := pre; rest := rst; caps := [] |} Some =
    match (if atLineStart pre then strip (name ++ [COLON]) rst else None) with
    | Some tl => Some {| before := rev (lineHead tl) ++ COLON :: rev name ++ pre;
                         rest := lineRest tl; caps := [] |}
    | None => None
    end).
  { intros rst pre. subst src. unfold fieldPattern. cbn [matcher before].
    assert (Hgo :
      matcher true
        (literalThen name
           (Seq (Atom (Chr COLON)) (Seq (Star true Dot) (Seq Eol Empty))))
        {| before := pre; rest := rst; caps := [] |} Some =
      match strip (name ++ [COLON]) rst with
      | Some tl => Some {| before := rev (lineHead tl) ++ COLON :: rev name ++ pre;
                           rest := lineRest tl; caps := [] |}
      | None => None
      end).
    { rewrite matcher_literalThen, strip_split. cbn [rest before caps].
      destruct (strip name rst) as [r|]; [|reflexivity].
      cbn [matcher rest before caps atom_matches strip].
      destruct r as [|ch r]; [reflexivity|].
      unfold COLON. destruct (N.eqb_spec ch 58) as [->|_]; [|reflexivity].
      apply star_greedy_dot. }
    destruct pre as [|p pre]; cbn [atLineStart andb]; [exact Hgo|].
    destruct (isLineTerminator p); [exact Hgo | reflexivity]. }
  induction rst as [|ch rst IH]; intros pre.
  - cbn [exec_from fieldLine]. rewrite Hm.
    destruct (if atLineStart pre then strip (name ++ [COLON]) [] else None)
      as [tl|] eqn:E; [|reflexivity].
    destruct (atLineStart pre); [|discriminate].
    apply strip_Some in E. destruct name; discriminate.
  - cbn [exec_from fieldLine]. rewrite Hm.
    destruct (if atLineStart pre then strip (name ++ [COLON]) (ch :: rst)
              else None) as [tl|] eqn:E.
    + destruct (atLineStart pre); [|discriminate].
      apply strip_Some in E. unfold result_of, fieldResult. cbn [rest caps].
      assert (Hmatched :
        firstn (Datatypes.length (ch :: rst) - Datatypes.length (lineRest tl))
          (ch :: rst) = name ++ [COLON] ++ lineHead tl).
      { pose proof (lineHead_rest tl) as Htl.
        set (hd := lineHead tl) in *. set (rs := lineRest tl) in *.
        rewrite E, <- Htl.
        replace ((name ++ [COLON]) ++ hd ++ rs)
          with ((name ++ [COLON] ++ hd) ++ rs)
          by (rewrite <- !app_assoc; reflexivity).
        apply firstn_length_app. }
      rewrite Hmatched, app_nil_r. subst src. unfold fieldPattern.
      cbn [nGroups]. rewrite nGroups_literalThen. reflexivity.
    + rewrite IH. cbn [atLineStart].
      destruct (fieldLine name (isLineTerminator ch) rst) as [[[p v] q]|];
        [|reflexivity].
      unfold fieldResult. f_equal. f_equal. simpl. rewrite <- app_assoc.
      reflexivity.
Qed.

Lemma exec_property name re :
  regexLiteral name = true -> propertyRegex name = Some re ->
  multiline re = true /\
  forall rst pre,
    exec_from true (source re) pre rst =
    fieldResult name pre (fieldLine name (atLineStart pre) rst).
Proof.
  intros Hn. rewrite (propertyRegex_literal name Hn). intros [= <-].
  split; [reflexivity|]. exact (exec_fieldPattern name).
Qed.

(** ** The two regular expressions as text searches *)

Lemma match_header content :
  String_match content frontMatterRegex =
  match header content with
  | Some (x, r) =>
      Some {| m_prefix := [];
              m_matched := js "---\n" ++ x ++ js "\n---";
              m_suffix := r;
              m_captures := [Some x] |}
  | None => None
  end.
Proof.
  unfold String_match, header. rewrite exec_frontMatter.
  destruct (strip (js "---\n") content); reflexivity.
Qed.

Lemma header_Some content x r :
  header content = Some (x, r) -> content = js "---\n" ++ x ++ js "\n---" ++ r.
Proof.
  unfold header. destruct (strip (js "---\n") content) as [body|] eqn:E;
    [|discriminate].
  intros F. apply strip_Some in E. apply find_Some in F. subst. reflexivity.
Qed.

Lemma frontMatterOf_header content :
  frontMatterOf content =
  match header content with Some (x, _) => x | None => [] end.
Proof.
  unfold frontMatterOf. rewrite match_header.
  destruct (header content) as [[x r]|]; reflexivity.
Qed.

Lemma test_property name re s :
  regexLiteral name = true ->
  propertyRegex name = Some re -> RegExp_test re s = fieldTest name s.
Proof.
  intros Hn H. destruct (exec_property name re Hn H) as [Hm Hx].
  unfold RegExp_test, RegExp_exec, fieldTest. rewrite Hm, Hx. cbn [atLineStart].
  destruct (fieldLine name true s) as [[[p v] q]|]; reflexivity.
Qed.

Lemma GetSubstitution_noDollar r : forall t,
  noDollar t = true -> GetSubstitution r t = t.
Proof.
  induction t as [|c t IH]; [reflexivity|]. simpl.
  intros H. apply andb_true_iff in H as [Hc Ht]. rewrite Hc.
  f_equal. apply IH. exact Ht.
Qed.

Lemma noDollar_app a b : noDollar (a ++ b) = noDollar a && noDollar b.
Proof. apply forallb_app. Qed.

Lemma replace_property name re s t :
  regexLiteral name = true ->
  propertyRegex name = Some re -> noDollar t = true ->
  String_replace s re t = fieldReplace name t s.
Proof.
  intros Hn H Ht. destruct (exec_property name re Hn H) as [Hm Hx].
  unfold String_replace, RegExp_exec, fieldReplace. rewrite Hm, Hx.
  cbn [atLineStart].
  destruct (fieldLine name true s) as [[[p v] q]|]; [|reflexivity].
  cbn [fieldResult m_prefix m_suffix rev app].
  rewrite GetSubstitution_noDollar by exact Ht. reflexivity.
Qed.

Lemma replace_header content x r t :
  header content = Some (x, r) -> noDollar t = true ->
  String_replace content frontMatterRegex t = t ++ r.
Proof.
  intros H Ht. unfold String_replace.
  change (RegExp_exec frontMatterRegex content)
    with (String_match content frontMatterRegex).
  rewrite match_header, H. cbn [m_prefix m_suffix app].
  rewrite GetSubstitution_noDollar by exact Ht. reflexivity.
Qed.

(** ** Reassembly *)

Lemma insert_absent content data new :
  frontMatterOf content = [] -> forIn [] data [] = Some new ->
  insertFrontMatter content data =
  Some (js "---\n" ++ String_trim new ++ js "\n---\n\n" ++ content).
Proof.
  intros H F. unfold insertFrontMatter. rewrite H, F. reflexivity.
Qed.

Lemma insert_present content data x r new :
  header content = Some (x, r) -> x <> [] -> forIn x data x = Some new ->
  noDollar (String_trim new) = true ->
  insertFrontMatter content data =
  Some (js "---\n" ++ String_trim new ++ js "\n---" ++ r).
Proof.
  intros H Hx F Hd. unfold insertFrontMatter.
  rewrite frontMatterOf_header, H, F.
  destruct x as [|c x]; [contradiction|]. cbn [isEmpty negb].
  rewrite (replace_header _ _ _ _ H).
  - rewrite <- !app_assoc. reflexivity.
  - rewrite !noDollar_app, Hd. reflexivity.
Qed.

(** ** Fields, line by line *)

Lemma noLT_app a b : noLT (a ++ b) = noLT a && noLT b.
Proof. apply forallb_app. Qed.

Lemma fieldLine_eq name bol s :
  fieldLine name bol s =
  match (if bol then strip (name ++ [COLON]) s else None) with
  | Some tl => Some ([], lineHead tl, lineRest tl)
  | None =>
      match s with
      | [] => None
      | ch :: s' =>
          match fieldLine name (isLineTerminator ch) s' with
          | Some (p, v, q) => Some (ch :: p, v, q)
          | None => None
          end
      end
  end.
Proof. destruct s; reflexivity. Qed.

(** No match starts in the middle of a line. *)
Lemma fieldLine_mid name : forall l, noLT l = true ->
  fieldLine name false l = None /\
  forall t s, isLineTerminator t = true ->
    fieldLine name false (l ++ t :: s) =
    match fieldLine name true s with
    | Some (p, v, q) => Some (l ++ t :: p, v, q)
    | None => None
    end.
Proof.
  induction l as [|c l IH]; intros Hl.
  - split; [reflexivity|]. intros t s Ht. cbn [app fieldLine]. rewrite Ht.
    reflexivity.
  - cbn [noLT forallb] in Hl. apply andb_true_iff in Hl as [Hc Hl].
    apply negb_true_iff in Hc. destruct (IH Hl) as [IH1 IH2]. split.
    + cbn [fieldLine]. rewrite Hc, IH1. reflexivity.
    + intros t s Ht. cbn [app fieldLine]. rewrite Hc, (IH2 t s Ht).
      destruct (fieldLine name true s) as [[[p v] q]|]; reflexivity.
Qed.

Lemma strip_in_line p : forall l t s,
  noLT p = true -> isLineTerminator t = true ->
  strip p (l ++ t :: s) =
  match strip p l with Some v => Some (v ++ t :: s) | None => None end.
Proof.
  induction p as [|a p IH]; intros l t s Hp Ht; [reflexivity|].
  cbn [noLT forallb] in Hp. apply andb_true_iff in Hp as [Ha Hp].
  apply negb_true_iff in Ha. destruct l as [|b l]; cbn [app strip].
  - destruct (N.eqb_spec t a) as [->|_]; [congruence | reflexivity].
  - destruct (b =? a); [apply IH; assumption | reflexivity].
Qed.

Lemma noLT_name_colon name : noLT name = true -> noLT (name ++ [COLON]) = true.
Proof. intros H. rewrite noLT_app, H. reflexivity. Qed.

Lemma fieldLine_line name l :
  noLT name = true -> noLT l = true ->
  fieldLine name true l =
  match strip (name ++ [COLON]) l with
  | Some v => Some ([], v, [])
  | None => None
  end.
Proof.
  intros Hn Hl. rewrite fieldLine_eq.
  destruct (strip (name ++ [COLON]) l) as [v|] eqn:E.
  - apply strip_Some in E. rewrite E, noLT_app in Hl.
    apply andb_true_iff in Hl as [_ Hv].
    destruct (lineHead_line v Hv [] (or_introl eq_refl)) as [H1 H2].
    rewrite app_nil_r in H1, H2. rewrite H1, H2. reflexivity.
  - destruct l as [|c l]; [reflexivity|].
    cbn [noLT forallb] in Hl. apply andb_true_iff in Hl as [Hc Hl].
    apply negb_true_iff in Hc. rewrite Hc.
    destruct (fieldLine_mid name l Hl) as [-> _]. reflexivity.
Qed.

Lemma fieldLine_cons name l t s :
  noLT name = true -> noLT l = true -> isLineTerminator t = true ->
  fieldLine name true (l ++ t :: s) =
  match strip (name ++ [COLON]) l with
  | Some v => Some ([], v, t :: s)
  | None =>
      match fieldLine name true s with
      | Some (p, v, q) => Some (l ++ t :: p, v, q)
      | None => None
      end
  end.
Proof.
  intros Hn Hl Ht. rewrite fieldLine_eq.
  rewrite (strip_in_line _ l t s (noLT_name_colon _ Hn) Ht).
  destruct (strip (name ++ [COLON]) l) as [v|] eqn:E.
  - apply strip_Some in E. rewrite E, noLT_app in Hl.
    apply andb_true_iff in Hl as [_ Hv].
    destruct (lineHead_line v Hv (t :: s)) as [H1 H2].
    { right. exists t, s. auto. }
    rewrite H1, H2. reflexivity.
  - destruct l as [|c l]; cbn [app].
    + rewrite Ht. reflexivity.
    + cbn [noLT forallb] in Hl. apply andb_true_iff in Hl as [Hc Hl].
      apply negb_true_iff in Hc. rewrite Hc.
      destruct (fieldLine_mid name l Hl) as [_ ->]; [|exact Ht].
      destruct (fieldLine name true s) as [[[p v] q]|]; reflexivity.
Qed.

Lemma test_line name l :
  noLT name = true -> noLT l = true -> fieldTest name l = named name l.
Proof.
  intros Hn Hl. unfold fieldTest, named, startsWith.
  rewrite fieldLine_line by assumption.
  destruct (strip (name ++ [COLON]) l); reflexivity.
Qed.

Lemma test_cons name l t s :
  noLT name = true -> noLT l = true -> isLineTerminator t = true ->
  fieldTest name (l ++ t :: s) = named name l || fieldTest name s.
Proof.
  intros Hn Hl Ht. unfold fieldTest, named, startsWith.
  rewrite fieldLine_cons by assumption.
  destruct (strip (name ++ [COLON]) l); [reflexivity|].
  destruct (fieldLine name true s) as [[[p v] q]|]; reflexivity.
Qed.

Lemma replace_line name r l :
  noLT name = true -> noLT l = true ->
  fieldReplace name r l = if named name l then r else l.
Proof.
  intros Hn Hl. unfold fieldReplace, named, startsWith.
  rewrite fieldLine_line by assumption.
  destruct (strip (name ++ [COLON]) l); [|reflexivity].
  cbn [app]. apply app_nil_r.
Qed.

Lemma replace_cons name r l t s :
  noLT name = true -> noLT l = true -> isLineTerminator t = true ->
  fieldReplace name r (l ++ t :: s) =
  if named name l then r ++ t :: s else l ++ t :: fieldReplace name r s.
Proof.
  intros Hn Hl Ht. unfold fieldReplace, named, startsWith.
  rewrite fieldLine_cons by assumption.
  destruct (strip (name ++ [COLON]) l); [reflexivity|].
  destruct (fieldLine name true s) as [[[p v] q]|]; [|reflexivity].
  rewrite <- app_assoc. reflexivity.
Qed.

(** Every text is a line, or a line, a terminator and a text. *)
Lemma lines_ind (P : jsstring -> Prop) :
  (forall l, noLT l = true -> P l) ->
  (forall l t s, noLT l = true -> isLineTerminator t = true ->
     P s -> P (l ++ t :: s)) ->
  forall s, P s.
Proof.
  intros Hline Hcons s.
  induction s as [s IH] using (well_founded_induction
    (Wf_nat.well_founded_ltof _ (@length code_unit))).
  pose proof (lineHead_rest s) as Hs. pose proof (noLT_lineHead s) as Hh.
  destruct (lineRest_start s) as [E|(t & q & E & Ht)]; rewrite E in Hs;
    rewrite <- Hs.
  - rewrite app_nil_r. apply Hline, Hh.
  - apply Hcons; [exact Hh | exact Ht |].
    apply IH. unfold Wf_nat.ltof.
    apply (f_equal (@length code_unit)) in Hs.
    rewrite length_app in Hs. simpl in Hs. lia.
Qed.

Lemma js_lines_line l : noLT l = true -> js_lines l = [l].
Proof.
  induction l as [|c l IH]; [reflexivity|]. cbn [noLT forallb js_lines].
  intros H. apply andb_true_iff in H as [Hc Hl]. apply negb_true_iff in Hc.
  rewrite Hc, (IH Hl). reflexivity.
Qed.

Lemma js_lines_cons l t s :
  noLT l = true -> isLineTerminator t = true ->
  js_lines (l ++ t :: s) = l :: js_lines s.
Proof.
  intros Hl Ht. induction l as [|c l IH]; cbn [app js_lines].
  - rewrite Ht. reflexivity.
  - cbn [noLT forallb] in Hl. apply andb_true_iff in Hl as [Hc Hl].
    apply negb_true_iff in Hc. rewrite Hc, (IH Hl). reflexivity.
Qed.

(** The presence test looks at the start of each line. *)
Lemma test_lines name : noLT name = true -> forall s,
  fieldTest name s = existsb (named name) (js_lines s).
Proof.
  intros Hn. apply lines_ind.
  - intros l Hl. rewrite test_line, js_lines_line by assumption.
    cbn [existsb]. rewrite orb_false_r. reflexivity.
  - intros l t s Hl Ht IH.
    rewrite test_cons, js_lines_cons by assumption.
    cbn [existsb]. rewrite IH. reflexivity.
Qed.

(** ** Trimming *)

Lemma trimStart_all w s : allTrimmed w = true -> trimStart (w ++ s) = trimStart s.
Proof.
  induction w as [|c w IH]; [reflexivity|]. cbn [allTrimmed forallb app trimStart].
  intros H. apply andb_true_iff in H as [-> Hw]. exact (IH Hw).
Qed.

Lemma trimStart_tight s : startsTrimmed s = false -> trimStart s = s.
Proof. destruct s as [|c s]; simpl; [reflexivity|]. intros ->. reflexivity. Qed.

Lemma trimStart_split s :
  exists a, s = a ++ trimStart s /\ allTrimmed a = true /\
            startsTrimmed (trimStart s) = false.
Proof.
  induction s as [|c s (a & E & Ha & Hs)].
  - exists []. auto.
  - cbn [trimStart]. destruct (isTrimmed c) eqn:Hc.
    + exists (c :: a). cbn [app allTrimmed forallb]. rewrite Hc.
      split; [f_equal; exact E | auto].
    + exists []. cbn [startsTrimmed]. auto.
Qed.

Lemma allTrimmed_rev w : allTrimmed (rev w) = allTrimmed w.
Proof.
  unfold allTrimmed. induction w as [|c w IH]; [reflexivity|].
  cbn [rev forallb]. rewrite forallb_app, IH. cbn [forallb].
  rewrite andb_true_r. apply andb_comm.
Qed.

Lemma allTrimmed_app a b : allTrimmed (a ++ b) = allTrimmed a && allTrimmed b.
Proof. apply forallb_app. Qed.

Lemma trimEnd_all s w : allTrimmed w = true -> trimEnd (s ++ w) = trimEnd s.
Proof.
  intros H. unfold trimEnd. rewrite rev_app_distr, trimStart_all; [reflexivity|].
  rewrite allTrimmed_rev. exact H.
Qed.

Lemma trimEnd_tight s : endsTrimmed s = false -> trimEnd s = s.
Proof.
  intros H. unfold trimEnd. rewrite trimStart_tight by exact H.
  apply rev_involutive.
Qed.

Lemma trimEnd_split s :
  exists b, s = trimEnd s ++ b /\ allTrimmed b = true /\
            endsTrimmed (trimEnd s) = false.
Proof.
  destruct (trimStart_split (rev s)) as (a & E & Ha & Hs).
  exists (rev a). unfold trimEnd, endsTrimmed. rewrite rev_involutive.
  split; [|split; [rewrite allTrimmed_rev; exact Ha | exact Hs]].
  rewrite <- rev_app_distr, <- E. symmetry. apply rev_involutive.
Qed.

Lemma startsTrimmed_prefix h b :
  startsTrimmed (h ++ b) = false -> startsTrimmed h = false.
Proof. destruct h; [reflexivity | exact (fun H => H)]. Qed.

(** [trim] removes a run of stripped code units at each end, and what it
    leaves neither begins nor ends with one. *)
Lemma trim_split s :
  exists a b, s = a ++ String_trim s ++ b /\
    allTrimmed a = true /\ allTrimmed b = true /\
    startsTrimmed (String_trim s) = false /\
    endsTrimmed (String_trim s) = false.
Proof.
  destruct (trimStart_split s) as (a & Ea & Ha & Hs).
  destruct (trimEnd_split (trimStart s)) as (b & Eb & Hb & He).
  exists a, b. unfold String_trim.
  split; [rewrite <- Eb; exact Ea|]. split; [exact Ha|]. split; [exact Hb|].
  split; [|exact He]. rewrite Eb in Hs. exact (startsTrimmed_prefix _ _ Hs).
Qed.

Lemma trim_unique a h b :
  allTrimmed a = true -> allTrimmed b = true ->
  startsTrimmed h = false -> endsTrimmed h = false ->
  String_trim (a ++ h ++ b) = h.
Proof.
  intros Ha Hb Hs He. unfold String_trim. rewrite trimStart_all by exact Ha.
  destruct h as [|c h].
  - cbn [app].
    assert (Hn : trimStart b = []).
    { clear -Hb. induction b as [|c b IH]; [reflexivity|].
      cbn [allTrimmed forallb] in Hb. apply andb_true_iff in Hb as [Hc Hb].
      cbn [trimStart]. rewrite Hc. exact (IH Hb). }
    rewrite Hn. reflexivity.
  - rewrite trimStart_tight by exact Hs.
    rewrite trimEnd_all by exact Hb. apply trimEnd_tight. exact He.
Qed.

Lemma match_header_Some content m :
  String_match content frontMatterRegex = Some m ->
  header content = Some (capture m 1, m_suffix m).
Proof.
  rewrite match_header. destruct (header content) as [[x r]|]; [|discriminate].
  intros [= <-]. reflexivity.
Qed.

Lemma match_header_None content :
  String_match content frontMatterRegex = None -> frontMatterOf content = [].
Proof. unfold frontMatterOf. intros ->. reflexivity. Qed.

(** ** The loop body as a line edit *)

Lemma fieldLine_split name : forall s bol p v q,
  fieldLine name bol s = Some (p, v, q) ->
  s = p ++ name ++ [COLON] ++ v ++ q.
Proof.
  induction s as [|c s IH]; intros bol p v q; rewrite fieldLine_eq.
  - destruct (if bol then strip (name ++ [COLON]) [] else None) as [tl|] eqn:E;
      [|discriminate].
    destruct bol; [|discriminate]. apply strip_Some in E.
    destruct name; discriminate.
  - destruct (if bol then strip (name ++ [COLON]) (c :: s) else None)
      as [tl|] eqn:E.
    + destruct bol; [|discriminate]. apply strip_Some in E.
      intros [= <- <- <-]. rewrite lineHead_rest, E, <- app_assoc. reflexivity.
    + destruct (fieldLine name (isLineTerminator c) s) as [[[p' v'] q']|] eqn:F;
        [|discriminate].
      intros [= <- <- <-]. cbn [app]. f_equal. exact (IH _ _ _ _ F).
Qed.

Lemma regexLiteral_noDollar k : regexLiteral k = true -> noDollar k = true.
Proof.
  unfold regexLiteral, noDollar. intros H.
  apply forallb_forall. intros c Hc.
  apply (proj1 (forallb_forall _ _) H) in Hc.
  destruct (N.eqb_spec c DOLLAR) as [->|_]; [discriminate Hc | reflexivity].
Qed.

Lemma noDollar_fieldText k v :
  regexLiteral k = true -> noDollar v = true -> noDollar (fieldText k v) = true.
Proof.
  intros Hk Hv. unfold fieldText.
  rewrite !noDollar_app, (regexLiteral_noDollar k Hk), Hv. reflexivity.
Qed.

Lemma upsertField_edit X S k v :
  regexLiteral k = true -> noDollar v = true ->
  upsertField X S k v =
  Some (if fieldTest k X then fieldReplace k (fieldText k v) S
        else S ++ js "\n" ++ fieldText k v).
Proof.
  intros Hk Hv. unfold upsertField.
  change (k ++ js ": " ++ v) with (fieldText k v).
  destruct (propertyRegex k) as [re|] eqn:E.
  - rewrite (test_property k re X Hk E).
    rewrite (replace_property k re S _ Hk E (noDollar_fieldText k v Hk Hv)).
    reflexivity.
  - rewrite (propertyRegex_literal k Hk) in E. discriminate.
Qed.

Lemma noDollar_replace k r s :
  noDollar s = true -> noDollar r = true ->
  noDollar (fieldReplace k r s) = true.
Proof.
  intros Hs Hr. unfold fieldReplace.
  destruct (fieldLine k true s) as [[[p v] q]|] eqn:E; [|exact Hs].
  apply fieldLine_split in E. rewrite E in Hs.
  rewrite !noDollar_app in Hs. rewrite !noDollar_app, Hr.
  apply andb_true_iff in Hs as [-> Hs]. apply andb_true_iff in Hs as [_ Hs].
  apply andb_true_iff in Hs as [_ Hs]. apply andb_true_iff in Hs as [_ ->].
  reflexivity.
Qed.

Lemma noDollar_append k v s :
  regexLiteral k = true -> noDollar v = true -> noDollar s = true ->
  noDollar (s ++ js "\n" ++ fieldText k v) = true.
Proof.
  intros Hk Hv Hs.
  rewrite !noDollar_app, Hs, (noDollar_fieldText k v Hk Hv). reflexivity.
Qed.

(** The loop runs to its end on names that are literal as patterns, and
    keeps whatever both of its edits keep. *)
Lemma forIn_invariant (Inv : jsstring -> Prop) X : forall data,
  Forall (fun kv => regexLiteral (fst kv) = true /\ noDollar (snd kv) = true)
    data ->
  (forall k v S, In (k, v) data -> Inv S ->
     Inv (fieldReplace k (fieldText k v) S)) ->
  (forall k v S, In (k, v) data -> Inv S ->
     Inv (S ++ js "\n" ++ fieldText k v)) ->
  forall S, Inv S -> exists new, forIn X data S = Some new /\ Inv new.
Proof.
  induction data as [|[k v] data IH]; intros Hd Hrep Happ S HS.
  - exists S. split; [reflexivity | exact HS].
  - inversion Hd as [|? ? [Hk Hv] Hd']; subst. cbn [fst snd] in Hk, Hv.
    cbn [forIn]. rewrite (upsertField_edit X S k v Hk Hv).
    apply IH.
    + exact Hd'.
    + intros k' v' S' Hin. apply Hrep. right. exact Hin.
    + intros k' v' S' Hin. apply Happ. right. exact Hin.
    + destruct (fieldTest k X).
      * apply Hrep; [left; reflexivity | exact HS].
      * apply Happ; [left; reflexivity | exact HS].
Qed.

(** ** Lines that an edit leaves alone *)

Lemma lines_allTrimmed l : forall b,
  allTrimmed b = true -> In l (js_lines b) -> allTrimmed l = true.
Proof.
  intros b. revert l. induction b as [|c b IH]; intros l Hb.
  - intros [<-|[]]. reflexivity.
  - cbn [allTrimmed forallb] in Hb. apply andb_true_iff in Hb as [Hc Hb].
    cbn [js_lines]. destruct (isLineTerminator c).
    + intros [<-|Hin]; [reflexivity | exact (IH l Hb Hin)].
    + destruct (js_lines b) as [|x ls] eqn:E.
      * intros [<-|[]]. cbn [allTrimmed forallb]. rewrite Hc. reflexivity.
      * intros [<-|Hin].
        -- cbn [allTrimmed forallb]. rewrite Hc.
           exact (IH x Hb (or_introl eq_refl)).
        -- exact (IH l Hb (or_intror Hin)).
Qed.

Lemma In_lines_trimStart l s : forall a,
  allTrimmed a = true -> l <> [] -> startsTrimmed l = false ->
  In l (js_lines (a ++ s)) -> In l (js_lines s).
Proof.
  induction a as [|c a IH]; intros Ha Hn Hl; [exact (fun H => H)|].
  cbn [allTrimmed forallb] in Ha. apply andb_true_iff in Ha as [Hc Ha].
  cbn [app js_lines]. destruct (isLineTerminator c).
  - intros [E|Hin]; [symmetry in E; contradiction | exact (IH Ha Hn Hl Hin)].
  - destruct (js_lines (a ++ s)) as [|x ls] eqn:E.
    + intros [<-|[]]. cbn in Hl. congruence.
    + intros [<-|Hin]; [cbn in Hl; congruence|].
      apply (IH Ha Hn Hl). right. exact Hin.
Qed.

Lemma allTrimmed_ends l :
  allTrimmed l = true -> l <> [] -> endsTrimmed l = true.
Proof.
  intros Hl Hn. unfold endsTrimmed. rewrite <- allTrimmed_rev in Hl.
  destruct (rev l) as [|c r] eqn:E.
  - apply (f_equal (@rev code_unit)) in E. rewrite rev_involutive in E.
    contradiction.
  - cbn [allTrimmed forallb] in Hl. apply andb_true_iff in Hl as [Hc _].
    exact Hc.
Qed.

Lemma endsTrimmed_app x w :
  allTrimmed w = true -> endsTrimmed (x ++ w) = false -> w = [].
Proof.
  intros Hw. destruct w as [|c w]; [reflexivity|]. intros He. exfalso.
  unfold endsTrimmed in He. rewrite rev_app_distr in He.
  rewrite <- allTrimmed_rev in Hw.
  destruct (rev (c :: w)) as [|d r] eqn:E.
  - apply (f_equal (@rev code_unit)) in E. rewrite rev_involutive in E.
    discriminate.
  - cbn [allTrimmed forallb] in Hw. apply andb_true_iff in Hw as [Hd _].
    cbn in He. congruence.
Qed.

Lemma In_lines_trimEnd l b :
  allTrimmed b = true -> l <> [] -> endsTrimmed l = false ->
  forall s, In l (js_lines (s ++ b)) -> In l (js_lines s).
Proof.
  intros Hb Hn Hl s. pattern s. apply lines_ind.
  - intros l0 Hl0. rewrite (js_lines_line l0 Hl0).
    pose proof (lineHead_rest b) as Eb. pose proof (noLT_lineHead b) as Hh.
    assert (Hline : noLT (l0 ++ lineHead b) = true)
      by (rewrite noLT_app, Hl0, Hh; reflexivity).
    assert (Hbh : allTrimmed (lineHead b) = true /\
                  allTrimmed (lineRest b) = true).
    { rewrite <- Eb, allTrimmed_app in Hb. apply andb_true_iff. exact Hb. }
    destruct Hbh as [Hbh Hbr].
    assert (Hfirst : l = l0 ++ lineHead b -> In l [l0]).
    { intros ->. apply endsTrimmed_app in Hl; [|exact Hbh].
      rewrite Hl, app_nil_r. left. reflexivity. }
    rewrite <- Eb, app_assoc.
    destruct (lineRest_start b) as [E|(t & q & E & Ht)]; rewrite E in *.
    + rewrite app_nil_r, js_lines_line by exact Hline.
      intros [<-|[]]. apply Hfirst. reflexivity.
    + rewrite js_lines_cons by assumption.
      intros [<-|Hin]; [apply Hfirst; reflexivity|]. exfalso.
      cbn [allTrimmed forallb] in Hbr. apply andb_true_iff in Hbr as [_ Hq].
      pose proof (lines_allTrimmed l q Hq Hin) as Hall.
      rewrite (allTrimmed_ends l Hall Hn) in Hl. discriminate.
  - intros l0 t s' Hl0 Ht IH. rewrite <- app_assoc. cbn [app].
    rewrite !js_lines_cons by assumption.
    intros [<-|Hin]; [left; reflexivity | right; exact (IH Hin)].
Qed.

Lemma In_lines_trim l s :
  l <> [] -> startsTrimmed l = false -> endsTrimmed l = false ->
  In l (js_lines s) -> In l (js_lines (String_trim s)).
Proof.
  intros Hn Hs He Hin.
  destruct (trim_split s) as (a & b & E & Ha & Hb & _).
  rewrite E in Hin. apply In_lines_trimStart in Hin; try assumption.
  apply In_lines_trimEnd in Hin; assumption.
Qed.

Lemma noDollar_trim s : noDollar s = true -> noDollar (String_trim s) = true.
Proof.
  intros H. destruct (trim_split s) as (a & b & E & _).
  rewrite E, !noDollar_app in H.
  apply andb_true_iff in H as [_ H]. apply andb_true_iff in H as [H _].
  exact H.
Qed.

(** ** Lines named by a field *)

Lemma strip_mono p : forall s r w,
  strip p s = Some r -> strip p (s ++ w) = Some (r ++ w).
Proof.
  intros s r w H. apply strip_Some in H. subst s.
  rewrite <- app_assoc. apply strip_app.
Qed.

Lemma named_fieldText k v : named k (fieldText k v) = true.
Proof.
  unfold named, startsWith, fieldText.
  change (k ++ js ": " ++ v) with (k ++ [COLON] ++ (32 :: v)).
  rewrite app_assoc, strip_app. reflexivity.
Qed.

Lemma colon_split : forall a b x y,
  noColon a = true -> noColon b = true ->
  a ++ COLON :: x = b ++ COLON :: y -> a = b.
Proof.
  induction a as [|c a IH]; intros [|d b] x y Ha Hb E; cbn in E.
  - reflexivity.
  - injection E as E _. cbn in Hb. rewrite <- E in Hb. discriminate.
  - injection E as E _. cbn in Ha. rewrite E in Ha. discriminate.
  - injection E as -> E. f_equal.
    cbn [noColon forallb] in Ha, Hb.
    apply andb_true_iff in Ha as [_ Ha]. apply andb_true_iff in Hb as [_ Hb].
    exact (IH b x y Ha Hb E).
Qed.

(** Two different colon-free names never name the same line. *)
Lemma named_other k k' l :
  noColon k = true -> noColon k' = true -> k <> k' ->
  named k l = true -> named k' l = false.
Proof.
  intros Hk Hk' Hne. unfold named, startsWith.
  destruct (strip (k ++ [COLON]) l) as [x|] eqn:E; [|discriminate].
  destruct (strip (k' ++ [COLON]) l) as [y|] eqn:E'; [|reflexivity].
  apply strip_Some in E, E'. rewrite E in E'. rewrite <- !app_assoc in E'.
  cbn [app] in E'. apply colon_split in E'; [contradiction | assumption..].
Qed.

Lemma noLT_fieldText k v :
  noLT k = true -> noLT v = true -> noLT (fieldText k v) = true.
Proof.
  intros Hk Hv. unfold fieldText. rewrite !noLT_app, Hk, Hv. reflexivity.
Qed.

(** ** How the two edits act on the presence test and on each other *)

Ltac side := solve [assumption | reflexivity].

Section Edits.
Variables k r : jsstring.
Hypothesis Hk : noLT k = true.
Hypothesis Hr : noLT r = true.

Lemma test_append s0 : forall s,
  fieldTest k (s ++ 10 :: s0) = fieldTest k s || fieldTest k s0.
Proof.
  intros s. pattern s. apply lines_ind.
  - intros l Hl. rewrite test_cons, (test_line k l) by side. reflexivity.
  - intros l t s' Hl Ht IH. rewrite <- app_assoc. cbn [app].
    rewrite (test_cons k l t (s' ++ 10 :: s0)) by side.
    rewrite (test_cons k l t s') by side.
    rewrite <- orb_assoc. f_equal. exact IH.
Qed.

Lemma replace_append x s0 : forall s,
  fieldReplace k x (s ++ 10 :: s0) =
  if fieldTest k s then fieldReplace k x s ++ 10 :: s0
  else s ++ 10 :: fieldReplace k x s0.
Proof.
  intros s. pattern s. apply lines_ind.
  - intros l Hl.
    rewrite replace_cons, (test_line k l), (replace_line k x l) by side.
    destruct (named k l); reflexivity.
  - intros l t s' Hl Ht IH. rewrite <- app_assoc. cbn [app].
    rewrite (replace_cons k x l t (s' ++ 10 :: s0)) by side.
    rewrite (replace_cons k x l t s') by side.
    rewrite (test_cons k l t s') by side.
    destruct (named k l); cbn [orb]; [rewrite <- app_assoc; reflexivity|].
    etransitivity; [apply f_equal, f_equal; exact IH|].
    destruct (fieldTest k s'); rewrite <- app_assoc; reflexivity.
Qed.

Hypothesis Hkr : named k r = true.

Lemma test_replace : forall s,
  fieldTest k (fieldReplace k r s) = fieldTest k s.
Proof.
  apply lines_ind.
  - intros l Hl. rewrite replace_line by side.
    destruct (named k l) eqn:E; [|reflexivity].
    rewrite !test_line, Hkr, E by side. reflexivity.
  - intros l t s Hl Ht IH. rewrite replace_cons by side.
    destruct (named k l) eqn:E.
    + rewrite !test_cons, Hkr, E by side. reflexivity.
    + rewrite !test_cons, IH by side. reflexivity.
Qed.

Lemma replace_replace : forall s,
  fieldReplace k r (fieldReplace k r s) = fieldReplace k r s.
Proof.
  apply lines_ind.
  - intros l Hl. cbv beta. rewrite (replace_line k r l) by side.
    destruct (named k l) eqn:E; rewrite replace_line by side.
    + rewrite Hkr. reflexivity.
    + rewrite E. reflexivity.
  - intros l t s Hl Ht IH. cbv beta. rewrite (replace_cons k r l) by side.
    destruct (named k l) eqn:E; rewrite replace_cons by side.
    + rewrite Hkr. reflexivity.
    + rewrite E, IH. reflexivity.
Qed.

Variables k' r' : jsstring.
Hypothesis Hk' : noLT k' = true.
Hypothesis Hr' : noLT r' = true.
Hypothesis Hk'r : named k' r = false.
Hypothesis Hother : forall l, named k l = true -> named k' l = false.

Lemma test_replace_other : forall s,
  fieldTest k' (fieldReplace k r s) = fieldTest k' s.
Proof.
  apply lines_ind.
  - intros l Hl. rewrite replace_line by side.
    destruct (named k l) eqn:E; [|reflexivity].
    rewrite !test_line, Hk'r, (Hother l E) by side. reflexivity.
  - intros l t s Hl Ht IH. rewrite replace_cons by side.
    destruct (named k l) eqn:E.
    + rewrite !test_cons, Hk'r, (Hother l E) by side. reflexivity.
    + rewrite !test_cons, IH by side. reflexivity.
Qed.

(** A field that is already as the mapping wants it stays so when another
    field is replaced. *)
Lemma replace_keeps_other : forall s,
  fieldReplace k' r' s = s ->
  fieldReplace k' r' (fieldReplace k r s) = fieldReplace k r s.
Proof.
  intros s0. pattern s0. apply lines_ind; clear s0.
  - intros l Hl. cbv beta. rewrite (replace_line k r l) by side.
    destruct (named k l) eqn:E; [|exact (fun H => H)].
    intros _. rewrite replace_line, Hk'r by side. reflexivity.
  - intros l t s Hl Ht IH. cbv beta. rewrite (replace_cons k r l) by side.
    rewrite (replace_cons k' r' l) by side.
    destruct (named k l) eqn:E.
    + rewrite (Hother l E). intros H. apply app_inv_head in H.
      injection H as H. rewrite replace_cons, Hk'r, H by side. reflexivity.
    + rewrite replace_cons by side. destruct (named k' l) eqn:E'.
      * intros H.
        assert (Hl' : r' = l).
        { apply (app_inv_tail (t :: s)). exact H. }
        rewrite Hl'. reflexivity.
      * intros H. apply app_inv_head in H. injection H as H.
        rewrite (IH H). reflexivity.
Qed.
End Edits.

(** ** The closing marker *)

Lemma startsWith_in_line p l t s :
  noLT p = true -> isLineTerminator t = true ->
  startsWith p (l ++ t :: s) = startsWith p l.
Proof.
  intros Hp Ht. unfold startsWith. rewrite strip_in_line by assumption.
  destruct (strip p l); reflexivity.
Qed.

Lemma hasMarker_line l : noLT l = true -> hasMarker l = false.
Proof.
  induction l as [|c l IH]; [reflexivity|]. cbn [noLT forallb hasMarker].
  intros H. apply andb_true_iff in H as [Hc Hl]. rewrite (IH Hl).
  destruct (N.eqb_spec c 10) as [->|_]; [discriminate Hc | reflexivity].
Qed.

Lemma hasMarker_cons l t s :
  noLT l = true ->
  hasMarker (l ++ t :: s) =
  ((t =? 10) && startsWith (js "---") s) || hasMarker s.
Proof.
  induction l as [|c l IH]; [reflexivity|]. cbn [noLT forallb app hasMarker].
  intros H. apply andb_true_iff in H as [Hc Hl]. rewrite (IH Hl).
  destruct (N.eqb_spec c 10) as [->|_]; [discriminate Hc | reflexivity].
Qed.

Lemma find_hasMarker : forall s,
  hasMarker s = false -> find (js "\n---") s = None.
Proof.
  induction s as [|c s IH]; [reflexivity|]. cbn [hasMarker].
  intros H. apply orb_false_iff in H as [H1 H2].
  change (js "\n---") with (10 :: js "---"). cbn [find strip].
  change (10 :: js "---") with (js "\n---"). rewrite (IH H2).
  destruct (c =? 10); [|reflexivity]. unfold startsWith in H1. cbn [andb] in H1.
  destruct (strip (js "---") s); [discriminate | reflexivity].
Qed.

Lemma hasMarker_find : forall s,
  find (js "\n---") s = None -> hasMarker s = false.
Proof.
  induction s as [|c s IH]; [reflexivity|].
  change (js "\n---") with (10 :: js "---"). cbn [find strip hasMarker].
  change (10 :: js "---") with (js "\n---"). unfold startsWith.
  destruct (c =? 10); cbn [andb orb].
  - destruct (strip (js "---") s); [discriminate|].
    destruct (find (js "\n---") s) as [[x r]|]; [discriminate|].
    intros _. apply IH. reflexivity.
  - destruct (find (js "\n---") s) as [[x r]|]; [discriminate|].
    intros _. apply IH. reflexivity.
Qed.

(** The capture holds no closing marker. *)
Lemma header_hasMarker content x r :
  header content = Some (x, r) -> hasMarker x = false.
Proof.
  unfold header. destruct (strip (js "---\n") content) as [body|]; [|discriminate].
  intros F. apply hasMarker_find.
  destruct (find (js "\n---") x) as [[y ry]|] eqn:E; [|reflexivity].
  exfalso. apply find_Some in E. pose proof (find_Some _ _ _ _ F) as Eb.
  assert (Hlen : (length x <= length y)%nat).
  { apply (find_nearest _ _ _ _ y (ry ++ js "\n---" ++ r) F).
    rewrite Eb, E, <- !app_assoc. reflexivity. }
  rewrite E, !length_app in Hlen. cbn in Hlen. lia.
Qed.

Lemma hasMarker_sub a h b : hasMarker (a ++ h ++ b) = false -> hasMarker h = false.
Proof.
  intros H. apply hasMarker_find.
  destruct (find (js "\n---") h) as [[x r]|] eqn:E; [|reflexivity].
  exfalso. apply find_Some in E. apply find_hasMarker in H.
  apply (find_None _ _ (a ++ x) (r ++ b) H).
  rewrite E, <- !app_assoc. reflexivity.
Qed.

(** After contents without a marker, the closing marker is the first. *)
Lemma find_at_end r : forall h,
  hasMarker h = false ->
  find (js "\n---") (h ++ js "\n---" ++ r) = Some (h, r).
Proof.
  induction h as [|c h IH]; intros H.
  - reflexivity.
  - cbn [hasMarker] in H. apply orb_false_iff in H as [H1 H2].
    cbn [app]. change (js "\n---") with (10 :: js "---") at 1.
    cbn [find strip]. change (10 :: js "---") with (js "\n---").
    rewrite (IH H2).
    destruct (c =? 10); [|reflexivity]. cbn [andb] in H1.
    assert (E : strip (js "---") (h ++ js "\n---" ++ r) =
                match strip (js "---") h with
                | Some v => Some (v ++ 10 :: js "---" ++ r)
                | None => None
                end)
      by exact (strip_in_line (js "---") h 10 (js "---" ++ r) eq_refl eq_refl).
    rewrite E. unfold startsWith in H1.
    destruct (strip (js "---") h); [discriminate | reflexivity].
Qed.

Lemma header_at_end h r :
  hasMarker h = false ->
  header (js "---\n" ++ h ++ js "\n---" ++ r) = Some (h, r).
Proof. intros H. unfold header. rewrite strip_app. apply find_at_end, H. Qed.

Lemma dashes_replace p k r :
  noLT p = true -> noLT k = true -> startsWith p r = false ->
  forall s, startsWith p s = false -> startsWith p (fieldReplace k r s) = false.
Proof.
  intros Hp Hk Hr s. pattern s. apply lines_ind; clear s.
  - intros l Hl H. rewrite replace_line by side.
    destruct (named k l); assumption.
  - intros l t s Hl Ht _ H. rewrite replace_cons by side.
    rewrite startsWith_in_line in H by side.
    destruct (named k l); rewrite startsWith_in_line by side; assumption.
Qed.

Lemma hasMarker_replace k r :
  noLT k = true -> noLT r = true -> startsWith (js "---") r = false ->
  forall s, hasMarker s = false -> hasMarker (fieldReplace k r s) = false.
Proof.
  intros Hk Hr Hd s. pattern s. apply lines_ind; clear s.
  - intros l Hl _. rewrite replace_line by side.
    destruct (named k l); apply hasMarker_line; assumption.
  - intros l t s Hl Ht IH H. rewrite hasMarker_cons in H by side.
    apply orb_false_iff in H as [H1 H2]. rewrite replace_cons by side.
    destruct (named k l); rewrite hasMarker_cons by side.
    + rewrite H1, H2. reflexivity.
    + rewrite (IH H2), orb_false_r.
      destruct (t =? 10); [|reflexivity]. cbn [andb] in *.
      apply dashes_replace; solve [assumption | reflexivity].
Qed.

Lemma hasMarker_append r :
  noLT r = true -> startsWith (js "---") r = false ->
  forall s, hasMarker s = false -> hasMarker (s ++ 10 :: r) = false.
Proof.
  intros Hr Hd. induction s as [|c s IH]; cbn [app hasMarker]; intros H.
  - rewrite Hd, (hasMarker_line r Hr). reflexivity.
  - apply orb_false_iff in H as [H1 H2]. rewrite (IH H2), orb_false_r.
    rewrite (startsWith_in_line (js "---") s 10 r eq_refl eq_refl). exact H1.
Qed.

(** ** Indentation *)

Lemma indented_mid : forall l, noLT l = true ->
  indented false l = negb (allTrimmed l) /\
  forall t s, isLineTerminator t = true ->
    indented false (l ++ t :: s) = if allTrimmed l then indented true s else true.
Proof.
  induction l as [|c l IH]; intros Hl.
  - split; [reflexivity|]. intros t s Ht. cbn [app indented]. rewrite Ht.
    reflexivity.
  - cbn [noLT forallb] in Hl. apply andb_true_iff in Hl as [Hc Hl].
    apply negb_true_iff in Hc. destruct (IH Hl) as [IH1 IH2].
    cbn [app indented].
    change (allTrimmed (c :: l)) with (isTrimmed c && allTrimmed l). rewrite Hc.
    destruct (isTrimmed c); cbn [andb negb]; split; auto.
Qed.

Lemma indented_line l :
  noLT l = true ->
  indented true l = if allTrimmed l then false else startsTrimmed l.
Proof.
  destruct l as [|c l]; [reflexivity|]. cbn [noLT forallb].
  intros H. apply andb_true_iff in H as [Hc Hl]. apply negb_true_iff in Hc.
  cbn [indented startsTrimmed].
  change (allTrimmed (c :: l)) with (isTrimmed c && allTrimmed l). rewrite Hc.
  destruct (isTrimmed c); cbn [andb negb]; [|reflexivity].
  rewrite (proj1 (indented_mid l Hl)). destruct (allTrimmed l); reflexivity.
Qed.

Lemma indented_cons l t s :
  noLT l = true -> isLineTerminator t = true ->
  indented true (l ++ t :: s) =
  if allTrimmed l then indented true s else startsTrimmed l.
Proof.
  intros Hl Ht. destruct l as [|c l].
  - cbn [app indented]. rewrite Ht. reflexivity.
  - cbn [noLT forallb] in Hl. apply andb_true_iff in Hl as [Hc Hl].
    apply negb_true_iff in Hc.
    cbn [app indented startsTrimmed].
    change (allTrimmed (c :: l)) with (isTrimmed c && allTrimmed l). rewrite Hc.
    destruct (isTrimmed c); cbn [andb negb]; [|reflexivity].
    rewrite (proj2 (indented_mid l Hl) t s Ht).
    destruct (allTrimmed l); reflexivity.
Qed.

Lemma allTrimmed_starts r :
  r <> [] -> startsTrimmed r = false -> allTrimmed r = false.
Proof.
  destruct r as [|c r]; [contradiction|]. cbn. intros _ ->. reflexivity.
Qed.

Lemma indented_replace k r :
  noLT k = true -> noLT r = true -> r <> [] -> startsTrimmed r = false ->
  forall s, indented true s = false ->
  indented true (fieldReplace k r s) = false.
Proof.
  intros Hk Hr Hn Hs s. pattern s. apply lines_ind; clear s.
  - intros l Hl H. rewrite replace_line by side.
    destruct (named k l); [|exact H].
    rewrite indented_line, (allTrimmed_starts r Hn Hs) by side. exact Hs.
  - intros l t s Hl Ht IH H. rewrite replace_cons by side.
    rewrite indented_cons in H by side.
    destruct (named k l); rewrite indented_cons by side.
    + rewrite (allTrimmed_starts r Hn Hs). exact Hs.
    + destruct (allTrimmed l); [exact (IH H) | exact H].
Qed.

Lemma indented_append r :
  noLT r = true -> r <> [] -> startsTrimmed r = false ->
  forall s, indented true s = false -> indented true (s ++ 10 :: r) = false.
Proof.
  intros Hr Hn Hs s. pattern s. apply lines_ind; clear s.
  - intros l Hl H. rewrite indented_cons by side.
    rewrite indented_line in H by side.
    destruct (allTrimmed l); [|exact H].
    rewrite indented_line, (allTrimmed_starts r Hn Hs) by side. exact Hs.
  - intros l t s Hl Ht IH H. rewrite <- app_assoc. cbn [app].
    rewrite indented_cons by side. rewrite indented_cons in H by side.
    destruct (allTrimmed l); [exact (IH H) | exact H].
Qed.

(** ** Fields and trimming *)

Lemma strip_trimmed_head p c s :
  p <> [] -> startsTrimmed p = false -> isTrimmed c = true ->
  strip p (c :: s) = None.
Proof.
  destruct p as [|a p]; [contradiction|]. intros _ Ha Hc. cbn in *.
  destruct (N.eqb_spec c a) as [->|_]; [congruence | reflexivity].
Qed.

Lemma name_colon_nonempty (k : jsstring) : k ++ [COLON] <> [].
Proof. destruct k; discriminate. Qed.

Lemma startsTrimmed_name_colon k :
  startsTrimmed k = false -> startsTrimmed (k ++ [COLON]) = false.
Proof. destruct k; [reflexivity | exact (fun H => H)]. Qed.

Lemma fieldLine_empty k bol : fieldLine k bol [] = None.
Proof.
  cbn [fieldLine]. destruct bol; [|reflexivity].
  destruct (strip (k ++ [COLON]) []) eqn:E; [|reflexivity].
  apply strip_Some in E. destruct k; discriminate.
Qed.

(** Leading blank lines hold no field, and a first line that is not
    indented starts a line after them as it does without them. *)
Lemma fieldLine_flush k T :
  startsTrimmed k = false -> startsTrimmed T = false ->
  forall a bol, allTrimmed a = true -> indented bol (a ++ T) = false ->
  fieldLine k bol (a ++ T) =
  match fieldLine k true T with
  | Some (p, v, q) => Some (a ++ p, v, q)
  | None => None
  end.
Proof.
  intros Hk HT. induction a as [|c a IH]; intros bol Ha Hi.
  - cbn [app] in *. destruct T as [|c T].
    + rewrite !fieldLine_empty. reflexivity.
    + cbn [startsTrimmed] in HT. cbn [indented] in Hi.
      assert (Hlt : isLineTerminator c = false).
      { unfold isTrimmed in HT. apply orb_false_iff in HT as [_ HT]. exact HT. }
      rewrite Hlt, HT in Hi. apply negb_false_iff in Hi. subst bol.
      destruct (fieldLine k true (c :: T)) as [[[p v] q]|]; reflexivity.
  - cbn [allTrimmed forallb] in Ha. apply andb_true_iff in Ha as [Hc Ha].
    cbn [app]. rewrite fieldLine_eq.
    rewrite (strip_trimmed_head _ c (a ++ T) (name_colon_nonempty k)
               (startsTrimmed_name_colon k Hk) Hc).
    assert (Hi' : indented (isLineTerminator c) (a ++ T) = false).
    { cbn [app indented] in Hi. rewrite Hc in Hi.
      destruct (isLineTerminator c); exact Hi. }
    destruct bol; rewrite (IH _ Ha Hi');
      destruct (fieldLine k true T) as [[[p v] q]|]; reflexivity.
Qed.

Lemma test_flush k s :
  startsTrimmed k = false -> indented true s = false ->
  fieldTest k (trimStart s) = fieldTest k s.
Proof.
  intros Hk Hi. destruct (trimStart_split s) as (a & E & Ha & Hs).
  unfold fieldTest. rewrite E at 2. rewrite E in Hi.
  rewrite (fieldLine_flush k _ Hk Hs a true Ha Hi).
  destruct (fieldLine k true (trimStart s)) as [[[p v] q]|]; reflexivity.
Qed.

Lemma replace_flush k r s :
  startsTrimmed k = false -> indented true s = false ->
  fieldReplace k r s = s -> fieldReplace k r (trimStart s) = trimStart s.
Proof.
  intros Hk Hi. destruct (trimStart_split s) as (a & E & Ha & Hs).
  unfold fieldReplace. rewrite E at 1 2. rewrite E in Hi.
  rewrite (fieldLine_flush k _ Hk Hs a true Ha Hi).
  destruct (fieldLine k true (trimStart s)) as [[[p v] q]|]; [|reflexivity].
  rewrite <- app_assoc. intros H. apply app_inv_head in H. exact H.
Qed.

Lemma named_allTrimmed k l : allTrimmed l = true -> named k l = false.
Proof.
  intros Hl. unfold named, startsWith.
  destruct (strip (k ++ [COLON]) l) as [x|] eqn:E; [|reflexivity].
  apply strip_Some in E. rewrite E, <- app_assoc, !allTrimmed_app in Hl.
  apply andb_true_iff in Hl as [_ Hl]. apply andb_true_iff in Hl as [Hl _].
  discriminate Hl.
Qed.

Lemma test_allTrimmed k : noLT k = true -> forall w,
  allTrimmed w = true -> fieldTest k w = false.
Proof.
  intros Hk w. pattern w. apply lines_ind; clear w.
  - intros l Hl Hw. rewrite test_line by side. apply named_allTrimmed, Hw.
  - intros l t s Hl Ht IH Hw. rewrite allTrimmed_app in Hw.
    apply andb_true_iff in Hw as [Hw1 Hw2].
    cbn [allTrimmed forallb] in Hw2. apply andb_true_iff in Hw2 as [_ Hw2].
    rewrite test_cons, (named_allTrimmed k l Hw1), (IH Hw2) by side.
    reflexivity.
Qed.

Lemma named_mono k l w : named k l = true -> named k (l ++ w) = true.
Proof.
  unfold named, startsWith.
  destruct (strip (k ++ [COLON]) l) as [x|] eqn:E; [|discriminate].
  rewrite (strip_mono _ _ _ w E). reflexivity.
Qed.

Lemma colon_not_trimmed (k x : jsstring) :
  allTrimmed ((k ++ [COLON]) ++ x) = true -> False.
Proof.
  rewrite <- app_assoc, !allTrimmed_app. intros H.
  apply andb_true_iff in H as [_ H]. apply andb_true_iff in H as [H _].
  discriminate H.
Qed.

(** A name followed by its colon does not reach into trailing blanks. *)
Lemma strip_colon_tail w x : allTrimmed w = true -> forall k l,
  strip (k ++ [COLON]) (l ++ w) = Some x -> strip (k ++ [COLON]) l <> None.
Proof.
  intros Hw. induction k as [|a k IH]; intros l E.
  - destruct l as [|b l].
    + apply strip_Some in E. cbn [app] in E. rewrite E in Hw.
      exfalso. exact (colon_not_trimmed [] x Hw).
    + cbn [app strip] in *. destruct (b =? COLON); [discriminate | discriminate E].
  - destruct l as [|b l].
    + apply strip_Some in E. cbn [app] in E. rewrite E in Hw.
      cbn [allTrimmed forallb] in Hw. apply andb_true_iff in Hw as [_ Hw].
      exfalso. exact (colon_not_trimmed k x Hw).
    + cbn [app strip] in *. destruct (b =? a); [exact (IH l E) | discriminate E].
Qed.

Lemma named_trimmed_tail k l w :
  allTrimmed w = true -> named k (l ++ w) = true -> named k l = true.
Proof.
  intros Hw. unfold named, startsWith.
  destruct (strip (k ++ [COLON]) (l ++ w)) as [x|] eqn:E; [|discriminate].
  intros _. pose proof (strip_colon_tail w x Hw k l E) as H.
  destruct (strip (k ++ [COLON]) l); [reflexivity | contradiction].
Qed.

Lemma line_split (b : jsstring) :
  exists bh br, b = bh ++ br /\ noLT bh = true /\
    (br = [] \/ exists t q, br = t :: q /\ isLineTerminator t = true).
Proof.
  exists (lineHead b), (lineRest b).
  split; [symmetry; apply lineHead_rest|].
  split; [apply noLT_lineHead | apply lineRest_start].
Qed.

(** A field found before trailing blanks is found without them. *)
Lemma test_trimmed_tail k b :
  noLT k = true -> allTrimmed b = true ->
  forall h, fieldTest k (h ++ b) = true -> fieldTest k h = true.
Proof.
  intros Hk Hb h. pattern h. apply lines_ind; clear h.
  - intros l Hl. rewrite (test_line k l) by side.
    destruct (line_split b) as (bh & br & E & Hbh & Hbr). subst b.
    rewrite allTrimmed_app in Hb. apply andb_true_iff in Hb as [Hb1 Hb2].
    assert (Hline : noLT (l ++ bh) = true)
      by (rewrite noLT_app, Hl, Hbh; reflexivity).
    rewrite app_assoc. destruct Hbr as [->|(t & q & -> & Ht)].
    + rewrite app_nil_r, test_line by side. apply named_trimmed_tail, Hb1.
    + rewrite test_cons by side.
      cbn [allTrimmed forallb] in Hb2. apply andb_true_iff in Hb2 as [_ Hq].
      rewrite (test_allTrimmed k Hk q Hq), orb_false_r.
      apply named_trimmed_tail, Hb1.
  - intros l t s Hl Ht IH. rewrite <- app_assoc. cbn [app].
    rewrite !test_cons by side.
    destruct (named k l); [reflexivity | exact IH].
Qed.

Lemma fieldLine_mono k w : forall s bol,
  fieldLine k bol s <> None -> fieldLine k bol (s ++ w) <> None.
Proof.
  induction s as [|c s IH]; intros bol H.
  - rewrite fieldLine_empty in H. contradiction.
  - rewrite fieldLine_eq in H. cbn [app]. rewrite fieldLine_eq.
    destruct bol.
    + destruct (strip (k ++ [COLON]) (c :: s)) as [tl|] eqn:E.
      * change (c :: s ++ w) with ((c :: s) ++ w).
        rewrite (strip_mono _ _ _ w E). discriminate.
      * destruct (strip (k ++ [COLON]) (c :: s ++ w)); [discriminate|].
        specialize (IH (isLineTerminator c)).
        destruct (fieldLine k (isLineTerminator c) s) as [[[p v] q]|];
          [|contradiction].
        destruct (fieldLine k (isLineTerminator c) (s ++ w)) as [[[p' v'] q']|];
          [discriminate | exfalso; apply IH; [discriminate | reflexivity]].
    + specialize (IH (isLineTerminator c)).
      destruct (fieldLine k (isLineTerminator c) s) as [[[p v] q]|];
        [|contradiction].
      destruct (fieldLine k (isLineTerminator c) (s ++ w)) as [[[p' v'] q']|];
        [discriminate | exfalso; apply IH; [discriminate | reflexivity]].
Qed.

Lemma test_mono k s w : fieldTest k s = true -> fieldTest k (s ++ w) = true.
Proof.
  unfold fieldTest. intros H.
  pose proof (fieldLine_mono k w s true) as M.
  destruct (fieldLine k true s); [|discriminate].
  destruct (fieldLine k true (s ++ w)); [reflexivity|].
  exfalso. apply M; [discriminate | reflexivity].
Qed.

(** Replacing a field that is as the mapping wants it in the text with its
    trailing blanks gives back, on the text without them, that text and some
    of the blanks. *)
Lemma replace_prefix k r w :
  noLT k = true -> allTrimmed w = true ->
  forall s, fieldReplace k r (s ++ w) = s ++ w -> fieldTest k s = true ->
  exists w1 w2, w = w1 ++ w2 /\ fieldReplace k r s = s ++ w1.
Proof.
  intros Hk Hw s. pattern s. apply lines_ind; clear s.
  - intros l Hl. rewrite (test_line k l), (replace_line k r l) by side.
    intros H Hn. rewrite Hn.
    destruct (line_split w) as (wh & wr & E & Hwh & Hwr). subst w.
    assert (Hline : noLT (l ++ wh) = true)
      by (rewrite noLT_app, Hl, Hwh; reflexivity).
    pose proof (named_mono k l wh Hn) as Hn'.
    exists wh, wr. split; [reflexivity|]. rewrite app_assoc in H.
    destruct Hwr as [->|(t & q & -> & Ht)].
    + rewrite app_nil_r, replace_line, Hn' in H by side. exact H.
    + rewrite replace_cons, Hn' in H by side.
      apply (app_inv_tail (t :: q)). exact H.
  - intros l t s Hl Ht IH. rewrite <- app_assoc. cbn [app].
    rewrite (test_cons k l t s) by side.
    rewrite (replace_cons k r l t s), (replace_cons k r l t (s ++ w)) by side.
    destruct (named k l) eqn:E; cbn [orb].
    + intros H _. exists [], w. split; [reflexivity|].
      rewrite app_nil_r.
      assert (Hl' : r = l) by (apply (app_inv_tail (t :: s ++ w)); exact H).
      rewrite Hl'. reflexivity.
    + intros H Hs. apply app_inv_head in H. injection H as H.
      destruct (IH H Hs) as (w1 & w2 & Ew & ER).
      exists w1, w2. split; [exact Ew|]. rewrite ER, <- app_assoc.
      reflexivity.
Qed.

(** ** Bare names and plain values *)

Lemma bareName_facts k :
  bareName k = true ->
  regexLiteral k = true /\ noLT k = true /\ noColon k = true /\
  startsTrimmed k = false /\ startsWith (js "---") k = false.
Proof.
  unfold bareName. intros H.
  apply andb_true_iff in H as [H H5]. apply andb_true_iff in H as [H H4].
  apply andb_true_iff in H as [H H3]. apply andb_true_iff in H as [H1 H2].
  apply negb_true_iff in H4, H5. auto.
Qed.

Lemma plainValue_facts v :
  plainValue v = true -> noLT v = true /\ noDollar v = true.
Proof. unfold plainValue. intros H. apply andb_true_iff in H. exact H. Qed.

Lemma fieldText_nonempty k v : fieldText k v <> [].
Proof. unfold fieldText. destruct k; discriminate. Qed.

Lemma startsTrimmed_fieldText k v :
  startsTrimmed k = false -> startsTrimmed (fieldText k v) = false.
Proof. unfold fieldText. destruct k; [reflexivity | exact (fun H => H)]. Qed.

Lemma dashes_fieldText k v :
  startsWith (js "---") k = false -> startsWith (js "---") (fieldText k v) = false.
Proof.
  unfold fieldText, startsWith. change (js "---") with [45; 45; 45].
  change (js ": ") with [58; 32].
  destruct k as [|a [|b [|c k]]]; cbn [app strip]; intros H.
  - reflexivity.
  - destruct (a =? 45); reflexivity.
  - destruct (a =? 45); [|reflexivity]. destruct (b =? 45); reflexivity.
  - destruct (a =? 45); [|reflexivity]. destruct (b =? 45); [|reflexivity].
    destruct (c =? 45); [discriminate H | reflexivity].
Qed.

Lemma named_fieldText_other k k' v :
  noColon k = true -> noColon k' = true -> k <> k' ->
  named k' (fieldText k v) = false.
Proof.
  intros Hk Hk' Hne.
  exact (named_other k k' _ Hk Hk' Hne (named_fieldText k v)).
Qed.

Lemma test_empty k : fieldTest k [] = false.
Proof. unfold fieldTest. rewrite fieldLine_empty. reflexivity. Qed.

(** ** The first pass settles every field of the mapping *)

Lemma settled_after_replace S k v k0 v0 :
  wellFormed (k, v) -> wellFormed (k0, v0) -> k0 <> k ->
  settled S (k0, v0) -> settled (fieldReplace k (fieldText k v) S) (k0, v0).
Proof.
  intros [Hk Hv] [Hk0 Hv0] Hne [Ht Hr0]. cbn [fst snd] in *.
  apply bareName_facts in Hk as (_ & Hk1 & Hk2 & _).
  apply bareName_facts in Hk0 as (_ & Hk01 & Hk02 & _).
  apply plainValue_facts in Hv as [Hv _].
  pose proof (noLT_fieldText k v Hk1 Hv) as Hr.
  assert (Hother : forall l, named k l = true -> named k0 l = false).
  { intros l. apply named_other; auto. }
  assert (Hn : named k0 (fieldText k v) = false)
    by (apply named_fieldText_other; auto).
  split; cbn [fst snd].
  - rewrite (test_replace_other k _ Hk1 Hr k0 Hk01 Hn Hother). exact Ht.
  - exact (replace_keeps_other k _ Hk1 Hr k0 (fieldText k0 v0) Hk01 Hn Hother
             S Hr0).
Qed.

Lemma settled_after_append S k v k0 v0 :
  wellFormed (k, v) -> wellFormed (k0, v0) ->
  settled S (k0, v0) -> settled (S ++ js "\n" ++ fieldText k v) (k0, v0).
Proof.
  intros [Hk Hv] [Hk0 Hv0] [Ht Hr]. cbn [fst snd] in *.
  apply bareName_facts in Hk0 as (_ & Hk01 & _).
  change (js "\n" ++ fieldText k v) with (10 :: fieldText k v).
  split; cbn [fst snd].
  - rewrite (test_append k0 Hk01), Ht. reflexivity.
  - rewrite (replace_append k0 Hk01), Ht, Hr. reflexivity.
Qed.

Lemma settled_by_replace S k v :
  wellFormed (k, v) -> fieldTest k S = true ->
  settled (fieldReplace k (fieldText k v) S) (k, v).
Proof.
  intros [Hk Hv] Ht. cbn [fst snd] in *.
  apply bareName_facts in Hk as (_ & Hk1 & _).
  apply plainValue_facts in Hv as [Hv _].
  pose proof (noLT_fieldText k v Hk1 Hv) as Hr.
  split; cbn [fst snd].
  - rewrite (test_replace k _ Hk1 Hr (named_fieldText k v)). exact Ht.
  - apply (replace_replace k _ Hk1 Hr (named_fieldText k v)).
Qed.

Lemma settled_by_append S k v :
  wellFormed (k, v) -> fieldTest k S = false ->
  settled (S ++ js "\n" ++ fieldText k v) (k, v).
Proof.
  intros [Hk Hv] Ht. cbn [fst snd] in *.
  apply bareName_facts in Hk as (_ & Hk1 & _).
  apply plainValue_facts in Hv as [Hv _].
  pose proof (noLT_fieldText k v Hk1 Hv) as Hr.
  change (js "\n" ++ fieldText k v) with (10 :: fieldText k v).
  split; cbn [fst snd].
  - rewrite (test_append k Hk1), (test_line k _ Hk1 Hr), named_fieldText.
    apply orb_true_r.
  - rewrite (replace_append k Hk1), Ht, (replace_line k _ _ Hk1 Hr),
      named_fieldText. reflexivity.
Qed.

Lemma test_after_edit X S k v k' :
  wellFormed (k, v) -> bareName k' = true -> k' <> k ->
  fieldTest k' (if fieldTest k X then fieldReplace k (fieldText k v) S
                else S ++ js "\n" ++ fieldText k v) = fieldTest k' S.
Proof.
  intros [Hk Hv] Hk' Hne. cbn [fst snd] in *.
  apply bareName_facts in Hk as (_ & Hk1 & Hk2 & _).
  apply bareName_facts in Hk' as (_ & Hk'1 & Hk'2 & _).
  apply plainValue_facts in Hv as [Hv _].
  pose proof (noLT_fieldText k v Hk1 Hv) as Hr.
  assert (Hn : named k' (fieldText k v) = false)
    by (apply named_fieldText_other; auto).
  destruct (fieldTest k X).
  - apply (test_replace_other k _ Hk1 Hr k' Hk'1 Hn).
    intros l. apply named_other; auto.
  - change (js "\n" ++ fieldText k v) with (10 :: fieldText k v).
    rewrite (test_append k' Hk'1), (test_line k' _ Hk'1 Hr), Hn.
    apply orb_false_r.
Qed.

Lemma forIn_settles X : forall data S done,
  NoDup (map fst data) -> Forall wellFormed data ->
  (forall kv, In kv data -> fieldTest (fst kv) S = fieldTest (fst kv) X) ->
  (forall kv, In kv done ->
     wellFormed kv /\ settled S kv /\ ~ In (fst kv) (map fst data)) ->
  exists new, forIn X data S = Some new /\
    forall kv, In kv (done ++ data) -> settled new kv.
Proof.
  induction data as [|[k v] data IH]; intros S done Hnd Hwf Htest Hdone.
  - exists S. split; [reflexivity|]. intros kv Hin.
    rewrite app_nil_r in Hin. exact (proj1 (proj2 (Hdone kv Hin))).
  - inversion Hnd as [|? ? Hk_new Hnd']; subst.
    inversion Hwf as [|? ? Hkv Hwf']; subst.
    pose proof Hkv as [Hk Hv]. cbn [fst snd] in Hk, Hv.
    pose proof (bareName_facts k Hk) as (Hlit & _).
    pose proof (plainValue_facts v Hv) as (_ & Hdol).
    cbn [forIn]. rewrite (upsertField_edit X S k v Hlit Hdol).
    set (S' := if fieldTest k X then _ else _).
    destruct (IH S' (done ++ [(k, v)]) Hnd' Hwf') as (new & F & Hall).
    + intros [k' v'] Hin. cbn [fst].
      assert (Hne : k' <> k).
      { intros ->. apply Hk_new. apply (in_map fst) in Hin. exact Hin. }
      pose proof (proj1 (Forall_forall _ _) Hwf' _ Hin) as [Hk' _].
      subst S'. rewrite (test_after_edit X S k v k' Hkv Hk' Hne).
      apply (Htest (k', v')). right. exact Hin.
    + intros [k0 v0] Hin. apply in_app_or in Hin as [Hin|[[= <- <-]|[]]].
      * destruct (Hdone _ Hin) as (Hwf0 & Hs0 & Hnot). cbn [fst] in Hnot.
        assert (Hne : k0 <> k) by (intros ->; apply Hnot; left; reflexivity).
        split; [exact Hwf0|]. split.
        -- subst S'. destruct (fieldTest k X).
           ++ apply settled_after_replace; assumption.
           ++ apply settled_after_append; assumption.
        -- cbn [fst]. intros Hin'. apply Hnot. right. exact Hin'.
      * split; [exact Hkv|]. split; [|exact Hk_new].
        pose proof (Htest (k, v) (or_introl eq_refl)) as Ht. cbn [fst] in Ht.
        subst S'. destruct (fieldTest k X).
        -- apply settled_by_replace; assumption.
        -- apply settled_by_append; assumption.
    + exists new. split; [exact F|]. intros kv Hin. apply Hall.
      rewrite <- app_assoc. exact Hin.
Qed.

(** What else the first pass keeps: no [$], no indentation of the first
    line, no marker. *)
Lemma forIn_keeps X data S :
  Forall wellFormed data ->
  noDollar S = true -> indented true S = false -> hasMarker S = false ->
  exists new, forIn X data S = Some new /\
    noDollar new = true /\ indented true new = false /\ hasMarker new = false.
Proof.
  intros Hwf H1 H2 H3.
  apply (forIn_invariant
           (fun S => noDollar S = true /\ indented true S = false /\
                     hasMarker S = false) X data).
  - eapply Forall_impl; [|exact Hwf]. intros [k v] [Hk Hv]. cbn [fst snd] in *.
    apply bareName_facts in Hk as (Hk & _).
    apply plainValue_facts in Hv as (_ & Hv). auto.
  - intros k v S0 Hin (I1 & I2 & I3).
    pose proof (proj1 (Forall_forall _ _) Hwf _ Hin) as [Hk Hv].
    cbn [fst snd] in Hk, Hv.
    apply bareName_facts in Hk as (Hk1 & Hk2 & Hk3 & Hk4 & Hk5).
    apply plainValue_facts in Hv as (Hv1 & Hv2).
    split; [|split].
    + apply noDollar_replace; [exact I1 | apply noDollar_fieldText; assumption].
    + apply indented_replace; try assumption.
      * apply noLT_fieldText; assumption.
      * apply fieldText_nonempty.
      * apply startsTrimmed_fieldText; assumption.
    + apply hasMarker_replace; try assumption.
      * apply noLT_fieldText; assumption.
      * apply dashes_fieldText; assumption.
  - intros k v S0 Hin (I1 & I2 & I3).
    pose proof (proj1 (Forall_forall _ _) Hwf _ Hin) as [Hk Hv].
    cbn [fst snd] in Hk, Hv.
    apply bareName_facts in Hk as (Hk1 & Hk2 & Hk3 & Hk4 & Hk5).
    apply plainValue_facts in Hv as (Hv1 & Hv2).
    change (js "\n" ++ fieldText k v) with (10 :: fieldText k v).
    split; [|split].
    + apply (noDollar_append k v S0); assumption.
    + apply indented_append; try assumption.
      * apply noLT_fieldText; assumption.
      * apply fieldText_nonempty.
      * apply startsTrimmed_fieldText; assumption.
    + apply hasMarker_append; try assumption.
      * apply noLT_fieldText; assumption.
      * apply dashes_fieldText; assumption.
  - auto.
Qed.

(** ** The second pass finds everything settled *)

Lemma forIn_again H B : forall data,
  Forall wellFormed data -> allTrimmed B = true ->
  (forall kv, In kv data -> settled (H ++ B) kv /\ fieldTest (fst kv) H = true) ->
  forall w1 w2, B = w1 ++ w2 ->
  exists w1' w2', B = w1' ++ w2' /\ forIn H data (H ++ w1) = Some (H ++ w1').
Proof.
  induction data as [|[k v] data IH]; intros Hwf HB Hall w1 w2 EB.
  - exists w1, w2. split; [exact EB | reflexivity].
  - inversion Hwf as [|? ? Hkv Hwf']; subst.
    pose proof Hkv as [Hk Hv]. cbn [fst snd] in Hk, Hv.
    pose proof (bareName_facts k Hk) as (Hlit & Hk1 & _).
    pose proof (plainValue_facts v Hv) as (_ & Hdol).
    destruct (Hall (k, v) (or_introl eq_refl)) as [[_ Hrep] Htest].
    cbn [fst snd] in Hrep, Htest.
    cbn [forIn]. rewrite (upsertField_edit H (H ++ w1) k v Hlit Hdol), Htest.
    assert (Hw2 : allTrimmed w2 = true).
    { rewrite allTrimmed_app in HB. apply andb_true_iff in HB. exact (proj2 HB). }
    destruct (replace_prefix k (fieldText k v) w2 Hk1 Hw2 (H ++ w1))
      as (u1 & u2 & Eu & ER).
    + rewrite <- app_assoc. exact Hrep.
    + apply test_mono. exact Htest.
    + rewrite ER, <- app_assoc.
      apply (IH Hwf' HB) with (w2 := u2).
      * intros kv Hin. apply Hall. right. exact Hin.
      * rewrite <- app_assoc, <- Eu. reflexivity.
Qed.

(** ** Upsert on its own result *)

(** Both ways of reassembly put the trimmed contents between the markers. *)
Lemma insert_shape d data new :
  forIn (frontMatterOf d) data (frontMatterOf d) = Some new ->
  noDollar new = true ->
  exists tail,
    insertFrontMatter d data =
    Some (js "---\n" ++ String_trim new ++ js "\n---" ++ tail).
Proof.
  intros F Hd. destruct (header d) as [[x r]|] eqn:H.
  - destruct x as [|c x].
    + exists (js "\n\n" ++ d).
      assert (E : frontMatterOf d = []) by (rewrite frontMatterOf_header, H; reflexivity).
      rewrite E in F. exact (insert_absent d data new E F).
    + exists r. rewrite frontMatterOf_header, H in F.
      apply (insert_present d data (c :: x) r new H); [discriminate | exact F |].
      apply noDollar_trim, Hd.
  - exists (js "\n\n" ++ d).
    assert (E : frontMatterOf d = []) by (rewrite frontMatterOf_header, H; reflexivity).
    rewrite E in F. exact (insert_absent d data new E F).
Qed.

Lemma frontMatterOf_hasMarker d : hasMarker (frontMatterOf d) = false.
Proof.
  rewrite frontMatterOf_header. destruct (header d) as [[x r]|] eqn:H;
    [exact (header_hasMarker d x r H) | reflexivity].
Qed.

(** A document whose trimmed contents have every field of the mapping
    settled is a fixed point of upsert. *)
Lemma insert_fixed H B tail data :
  data <> [] -> Forall wellFormed data ->
  allTrimmed B = true ->
  startsTrimmed H = false -> endsTrimmed H = false ->
  noDollar H = true -> hasMarker H = false ->
  (forall kv, In kv data -> settled (H ++ B) kv /\ fieldTest (fst kv) H = true) ->
  insertFrontMatter (js "---\n" ++ H ++ js "\n---" ++ tail) data =
  Some (js "---\n" ++ H ++ js "\n---" ++ tail).
Proof.
  intros Hne Hwf HB Hs He Hdol Hm Hall.
  pose proof (header_at_end H tail Hm) as Hh.
  assert (Hnonempty : H <> []).
  { destruct data as [|kv data]; [contradiction|].
    destruct (Hall kv (or_introl eq_refl)) as [_ Ht].
    intros ->. rewrite test_empty in Ht. discriminate. }
  destruct (forIn_again H B data Hwf HB Hall [] B eq_refl)
    as (w1 & w2 & EB & F).
  rewrite app_nil_r in F.
  assert (Hw1 : allTrimmed w1 = true).
  { rewrite EB, allTrimmed_app in HB. apply andb_true_iff in HB. exact (proj1 HB). }
  assert (Ht : String_trim (H ++ w1) = H).
  { exact (trim_unique [] H w1 eq_refl Hw1 Hs He). }
  rewrite (insert_present _ data H tail (H ++ w1) Hh Hnonempty F).
  - rewrite Ht. reflexivity.
  - rewrite Ht. exact Hdol.
Qed.

(** ** The shape of every result *)

Lemma GetSubstitution_marker_open r x :
  GetSubstitution r (js "---\n" ++ x) = js "---\n" ++ GetSubstitution r x.
Proof. reflexivity. Qed.

(** Whatever [$]-patterns a replacement holds, the closing marker at its end
    is written as it is. *)
Lemma GetSubstitution_marker_close r : forall n t,
  (length t <= n)%nat ->
  exists g, GetSubstitution r (t ++ js "\n---") = g ++ js "\n---".
Proof.
  induction n as [|n IH]; intros t Hn.
  - destruct t; [|simpl in Hn; lia]. exists []. reflexivity.
  - destruct t as [|c t]; [exists []; reflexivity|].
    cbn [length] in Hn. cbn [app GetSubstitution].
    destruct (negb (c =? DOLLAR)).
    { destruct (IH t ltac:(lia)) as (g & ->). exists (c :: g). reflexivity. }
    destruct t as [|d t].
    { exists [c]. reflexivity. }
    cbn [length] in Hn. cbn [app].
    assert (Hone : forall pre, exists g,
              pre ++ GetSubstitution r (t ++ js "\n---") = g ++ js "\n---").
    { intros pre. destruct (IH t ltac:(lia)) as (g & ->).
      exists (pre ++ g). apply app_assoc. }
    destruct (d =? DOLLAR); [exact (Hone [DOLLAR])|].
    destruct (d =? 96); [exact (Hone (m_prefix r))|].
    destruct (d =? 38); [exact (Hone (m_matched r))|].
    destruct (d =? 39); [exact (Hone (m_suffix r))|].
    destruct (isDigit d).
    2:{ destruct (IH (d :: t) ltac:(cbn [length]; lia)) as (g & E).
        cbn [app] in E. rewrite E. exists (c :: g). reflexivity. }
    assert (Hd : exists g,
      (if Nat.leb 1 (digit d) && Nat.leb (digit d) (length (m_captures r))
       then capture r (digit d) ++ GetSubstitution r (t ++ js "\n---")
       else c :: d :: GetSubstitution r (t ++ js "\n---")) = g ++ js "\n---").
    { destruct (Nat.leb 1 (digit d) && Nat.leb (digit d) (length (m_captures r))).
      - exact (Hone (capture r (digit d))).
      - exact (Hone [c; d]). }
    destruct t as [|e t]; [exact Hd|].
    cbn [length] in Hn. cbn [app] in *.
    destruct (isDigit e); [|exact Hd].
    destruct (Nat.ltb (length (m_captures r)) (10 * digit d + digit e));
      [exact Hd|].
    destruct (IH t ltac:(lia)) as (g & ->).
    destruct (Nat.leb 1 (10 * digit d + digit e)).
    + exists (capture r (10 * digit d + digit e) ++ g). apply app_assoc.
    + exists (c :: d :: e :: g). reflexivity.
Qed.

Lemma match_of_shape x r :
  exists m, String_match (js "---\n" ++ x ++ js "\n---" ++ r) frontMatterRegex
            = Some m.
Proof.
  rewrite match_header. unfold header. rewrite strip_app.
  destruct (find (js "\n---") (x ++ js "\n---" ++ r)) as [[y ry]|] eqn:F.
  - eexists. reflexivity.
  - exfalso. exact (find_None _ _ x r F eq_refl).
Qed.

(** ** Missing fields, present fields *)

Lemma hasTimeProperty_literal d k :
  regexLiteral k = true ->
  hasTimeProperty d k = Some (fieldTest k (frontMatterOf d)).
Proof.
  intros Hk. unfold hasTimeProperty.
  destruct (propertyRegex k) as [re|] eqn:E.
  - rewrite (test_property k re _ Hk E). reflexivity.
  - rewrite (propertyRegex_literal k Hk) in E. discriminate.
Qed.

Lemma hasTimeProperty_test d k b :
  regexLiteral k = true ->
  hasTimeProperty d k = Some b <-> fieldTest k (frontMatterOf d) = b.
Proof.
  intros Hk. rewrite (hasTimeProperty_literal d k Hk). split.
  - intros [= <-]. reflexivity.
  - intros <-. reflexivity.
Qed.

(** A field the presence test does not find is appended, whatever pattern
    its name is read as. *)
Lemma upsertField_absent d S k v :
  hasTimeProperty d k = Some false ->
  upsertField (frontMatterOf d) S k v = Some (S ++ js "\n" ++ fieldText k v).
Proof.
  unfold hasTimeProperty, upsertField.
  destruct (propertyRegex k) as [re|]; [|discriminate].
  intros [= ->]. reflexivity.
Qed.

Lemma forIn_absent d : forall data S,
  (forall kv, In kv data -> hasTimeProperty d (fst kv) = Some false) ->
  forIn (frontMatterOf d) data S = Some (S ++ appended data).
Proof.
  induction data as [|[k v] data IH]; intros S H.
  - cbn. rewrite app_nil_r. reflexivity.
  - pose proof (H (k, v) (or_introl eq_refl)) as Hk. cbn [fst] in Hk.
    cbn [forIn]. rewrite (upsertField_absent d S k v Hk).
    rewrite IH by (intros kv Hin; apply H; right; exact Hin).
    unfold appended. cbn [map concat fst snd]. rewrite <- !app_assoc.
    reflexivity.
Qed.

Lemma upsertField_missing X S k v :
  regexLiteral k = true -> fieldTest k X = false ->
  upsertField X S k v = Some (S ++ js "\n" ++ fieldText k v).
Proof.
  intros Hk Ht. unfold upsertField.
  destruct (propertyRegex k) as [re|] eqn:E.
  - rewrite (test_property k re X Hk E), Ht. reflexivity.
  - rewrite (propertyRegex_literal k Hk) in E. discriminate.
Qed.

Lemma forIn_missing X : forall data S,
  (forall kv, In kv data ->
     regexLiteral (fst kv) = true /\ fieldTest (fst kv) X = false) ->
  forIn X data S = Some (S ++ appended data).
Proof.
  induction data as [|[k v] data IH]; intros S H.
  - cbn. rewrite app_nil_r. reflexivity.
  - destruct (H (k, v) (or_introl eq_refl)) as [Hk Ht]. cbn [fst] in Hk, Ht.
    cbn [forIn]. rewrite (upsertField_missing X S k v Hk Ht).
    rewrite IH by (intros kv Hin; apply H; right; exact Hin).
    unfold appended. cbn [map concat fst snd]. rewrite <- !app_assoc.
    reflexivity.
Qed.

(** A field found in a text is found in the text trimmed, when its name
    does not begin with a code unit [trim] strips. *)
Lemma fieldLine_bol k s : fieldLine k false s <> None -> fieldLine k true s <> None.
Proof.
  rewrite (fieldLine_eq k true s), (fieldLine_eq k false s).
  destruct (strip (k ++ [COLON]) s); [discriminate | exact (fun H => H)].
Qed.

Lemma fieldLine_trimStart k T : startsTrimmed k = false -> forall a bol,
  allTrimmed a = true ->
  fieldLine k bol (a ++ T) <> None -> fieldLine k true T <> None.
Proof.
  intros Hk. induction a as [|c a IH]; intros bol Ha H.
  - destruct bol; [exact H | exact (fieldLine_bol k T H)].
  - cbn [allTrimmed forallb] in Ha. apply andb_true_iff in Ha as [Hc Ha].
    cbn [app] in H. rewrite fieldLine_eq in H.
    rewrite (strip_trimmed_head _ c (a ++ T) (name_colon_nonempty k)
               (startsTrimmed_name_colon k Hk) Hc) in H.
    apply (IH (isLineTerminator c) Ha).
    destruct bol; destruct (fieldLine k (isLineTerminator c) (a ++ T));
      solve [discriminate | contradiction].
Qed.

Lemma test_trim k s :
  noLT k = true -> startsTrimmed k = false ->
  fieldTest k s = true -> fieldTest k (String_trim s) = true.
Proof.
  intros Hk1 Hk2 Ht.
  destruct (trimStart_split s) as (a & Ea & Ha & _).
  destruct (trimEnd_split (trimStart s)) as (b & Eb & Hb & _).
  fold (String_trim s) in Eb.
  apply (test_trimmed_tail k b Hk1 Hb). rewrite <- Eb.
  unfold fieldTest in *.
  pose proof (fieldLine_trimStart k (trimStart s) Hk2 a true Ha) as M.
  rewrite <- Ea in M.
  destruct (fieldLine k true s); [|discriminate].
  destruct (fieldLine k true (trimStart s)); [reflexivity|].
  exfalso. apply M; [discriminate | reflexivity].
Qed.

(** The line of a settled field is a line of the text. *)
Lemma settled_line k r :
  noLT k = true -> forall s,
  fieldTest k s = true -> fieldReplace k r s = s -> In r (js_lines s).
Proof.
  intros Hk s. pattern s. apply lines_ind; clear s.
  - intros l Hl. rewrite test_line, replace_line, js_lines_line by side.
    intros ->. intros ->. left. reflexivity.
  - intros l t s Hl Ht IH.
    rewrite test_cons, replace_cons, js_lines_cons by side.
    destruct (named k l); cbn [orb].
    + intros _ H. left. symmetry. apply (app_inv_tail (t :: s)). exact H.
    + intros H1 H2. right. apply IH; [exact H1|].
      apply app_inv_head in H2. injection H2 as H2. exact H2.
Qed.

(** Where the first line of a field is. *)
Lemma fieldLine_found k p v q :
  noLT k = true -> atLineStart (rev p) = true ->
  existsb (named k) (js_lines p) = false ->
  noLT v = true -> atLineStart q = true ->
  fieldLine k true (p ++ k ++ [COLON] ++ v ++ q) = Some (p, v, q).
Proof.
  intros Hk Hp Hnone Hv Hq.
  assert (Hbase : fieldLine k true (k ++ [COLON] ++ v ++ q) = Some ([], v, q)).
  { rewrite fieldLine_eq, app_assoc, strip_app.
    assert (Hq' : q = [] \/ exists t q', q = t :: q' /\ isLineTerminator t = true).
    { destruct q as [|t q']; [left; reflexivity|].
      right. exists t, q'. split; [reflexivity | exact Hq]. }
    destruct (lineHead_line v Hv q Hq') as [-> ->]. reflexivity. }
  remember (k ++ [COLON] ++ v ++ q) as R eqn:ER. clear ER.
  destruct (rev p) as [|t rp] eqn:Erev.
  - apply (f_equal (@rev N)) in Erev. rewrite rev_involutive in Erev.
    subst p. exact Hbase.
  - apply (f_equal (@rev N)) in Erev. rewrite rev_involutive in Erev.
    cbn [rev] in Erev. cbn [atLineStart] in Hp. subst p.
    set (p0 := rev rp) in *. clearbody p0. clear rp.
    rewrite <- app_assoc. cbn [app]. revert Hnone.
    pattern p0. apply lines_ind; clear p0.
    + intros l Hl. rewrite js_lines_cons by side. cbn [existsb].
      intros H. apply orb_false_iff in H as [H _].
      rewrite fieldLine_cons by side. unfold named, startsWith in H.
      destruct (strip (k ++ [COLON]) l); [discriminate|].
      rewrite Hbase. reflexivity.
    + intros l t0 s Hl Ht0 IH. rewrite <- !app_assoc. cbn [app].
      rewrite js_lines_cons by side. cbn [existsb].
      intros H. apply orb_false_iff in H as [H1 H2].
      rewrite fieldLine_cons by side. unfold named, startsWith in H1.
      destruct (strip (k ++ [COLON]) l); [discriminate|].
      rewrite (IH H2). reflexivity.
Qed.

Lemma forIn_keeps_marker X data S :
  Forall wellFormed data ->
  noDollar S = true -> hasMarker S = false ->
  exists new, forIn X data S = Some new /\
    noDollar new = true /\ hasMarker new = false.
Proof.
  intros Hwf H1 H3.
  apply (forIn_invariant
           (fun S => noDollar S = true /\ hasMarker S = false) X data).
  - eapply Forall_impl; [|exact Hwf]. intros [k v] [Hk Hv]. cbn [fst snd] in *.
    apply bareName_facts in Hk as (Hk & _).
    apply plainValue_facts in Hv as (_ & Hv). auto.
  - intros k v S0 Hin (I1 & I3).
    pose proof (proj1 (Forall_forall _ _) Hwf _ Hin) as [Hk Hv].
    cbn [fst snd] in Hk, Hv.
    apply bareName_facts in Hk as (Hk1 & Hk2 & Hk3 & Hk4 & Hk5).
    apply plainValue_facts in Hv as (Hv1 & Hv2). split.
    + apply noDollar_replace; [exact I1 | apply noDollar_fieldText; assumption].
    + apply hasMarker_replace; try assumption.
      * apply noLT_fieldText; assumption.
      * apply dashes_fieldText; assumption.
  - intros k v S0 Hin (I1 & I3).
    pose proof (proj1 (Forall_forall _ _) Hwf _ Hin) as [Hk Hv].
    cbn [fst snd] in Hk, Hv.
    apply bareName_facts in Hk as (Hk1 & Hk2 & Hk3 & Hk4 & Hk5).
    apply plainValue_facts in Hv as (Hv1 & Hv2).
    change (js "\n" ++ fieldText k v) with (10 :: fieldText k v). split.
    + apply (noDollar_append k v S0); assumption.
    + apply hasMarker_append; try assumption.
      * apply noLT_fieldText; assumption.
      * apply dashes_fieldText; assumption.
  - auto.
Qed.

Lemma frontMatterOf_shape h tail :
  hasMarker h = false ->
  frontMatterOf (js "---\n" ++ h ++ js "\n---" ++ tail) = h.
Proof.
  intros H. rewrite frontMatterOf_header, (header_at_end h tail H). reflexivity.
Qed.

(** ** What an upsert leaves in the header *)

Lemma upsert_result d data :
  NoDup (map fst data) -> Forall wellFormed data ->
  noDollar (frontMatterOf d) = true ->
  exists new tail,
    insertFrontMatter d data =
      Some (js "---\n" ++ String_trim new ++ js "\n---" ++ tail) /\
    frontMatterOf (js "---\n" ++ String_trim new ++ js "\n---" ++ tail) =
      String_trim new /\
    forall kv, In kv data -> settled new kv.
Proof.
  intros Hnd Hwf Hdol. set (X := frontMatterOf d) in *.
  destruct (forIn_settles X data X [] Hnd Hwf (fun _ _ => eq_refl))
    as (new & F & Hset); [intros kv []|].
  destruct (forIn_keeps_marker X data X Hwf Hdol (frontMatterOf_hasMarker d))
    as (new' & F' & Hnew_dol & Hnew_m).
  rewrite F in F'. injection F' as <-.
  destruct (insert_shape d data new F Hnew_dol) as (tail & Hout).
  exists new, tail. split; [exact Hout|]. split; [|exact Hset].
  apply frontMatterOf_shape.
  destruct (trim_split new) as (a & b & E & _).
  apply (hasMarker_sub a (String_trim new) b). rewrite <- E. exact Hnew_m.
Qed.

(** A settled field is found after trimming, and its line is kept when it
    does not end with a code unit [trim] strips. *)
Lemma settled_trim new k v :
  bareName k = true -> settled new (k, v) ->
  fieldTest k (String_trim new) = true /\
  (endsTrimmed (fieldText k v) = false ->
   In (fieldText k v) (js_lines (String_trim new))).
Proof.
  intros Hk [Ht Hr]. cbn [fst snd] in Ht, Hr.
  apply bareName_facts in Hk as (_ & Hk1 & _ & Hk4 & _). split.
  - apply test_trim; assumption.
  - intros He. apply In_lines_trim.
    + apply fieldText_nonempty.
    + apply startsTrimmed_fieldText. exact Hk4.
    + exact He.
    + apply (settled_line k _ Hk1 new Ht Hr).
Qed.

(** ** Appended lines *)

Lemma appended_cons k v data :
  appended ((k, v) :: data) = 10 :: fieldText k v ++ appended data.
Proof. reflexivity. Qed.

Lemma noDollar_appended data :
  Forall wellFormed data -> noDollar (appended data) = true.
Proof.
  induction 1 as [|[k v] data [Hk Hv] _ IH]; [reflexivity|].
  cbn [fst snd] in Hk, Hv. rewrite appended_cons.
  apply bareName_facts in Hk as (Hk & _).
  apply plainValue_facts in Hv as (_ & Hv).
  change (10 :: fieldText k v ++ appended data)
    with ([10] ++ fieldText k v ++ appended data).
  rewrite !noDollar_app, (noDollar_fieldText k v Hk Hv), IH. reflexivity.
Qed.

Lemma hasMarker_appended data :
  Forall wellFormed data -> forall S,
  hasMarker S = false -> hasMarker (S ++ appended data) = false.
Proof.
  induction 1 as [|[k v] data [Hk Hv] _ IH]; intros S HS.
  - cbn. rewrite app_nil_r. exact HS.
  - cbn [fst snd] in Hk, Hv. rewrite appended_cons.
    apply bareName_facts in Hk as (_ & Hk1 & _ & _ & Hk5).
    apply plainValue_facts in Hv as (Hv & _).
    change (S ++ 10 :: fieldText k v ++ appended data)
      with (S ++ (10 :: fieldText k v) ++ appended data).
    rewrite app_assoc. apply IH. apply hasMarker_append; try assumption.
    + apply noLT_fieldText; assumption.
    + apply dashes_fieldText; assumption.
Qed.

Lemma test_fieldText k v s : fieldTest k (fieldText k v ++ s) = true.
Proof.
  unfold fieldTest. rewrite fieldLine_eq. unfold fieldText.
  change (k ++ js ": " ++ v) with (k ++ [COLON] ++ (32 :: v)).
  rewrite app_assoc, <- app_assoc, strip_app. reflexivity.
Qed.

Lemma test_appended k : noLT k = true -> forall data S,
  In k (map fst data) -> fieldTest k (S ++ appended data) = true.
Proof.
  intros Hk. induction data as [|[k' v'] data IH]; intros S Hin;
    [destruct Hin|]. destruct Hin as [E|Hin].
  - cbn [fst] in E. subst k'. rewrite appended_cons.
    rewrite (test_append k Hk), test_fieldText. apply orb_true_r.
  - rewrite appended_cons.
    change (S ++ 10 :: fieldText k' v' ++ appended data)
      with (S ++ (10 :: fieldText k' v') ++ appended data).
    rewrite app_assoc. apply IH. exact Hin.
Qed.

(** After fields that were all missing are appended, the presence test finds
    them, and those it found before. *)
Lemma present_after_append d data :
  Forall wellFormed data ->
  (forall kv, In kv data -> fieldTest (fst kv) (frontMatterOf d) = false) ->
  noDollar (frontMatterOf d) = true ->
  exists out,
    insertFrontMatter d data = Some out /\
    forall k, bareName k = true ->
      fieldTest k (frontMatterOf d) = true \/ In k (map fst data) ->
      hasTimeProperty out k = Some true.
Proof.
  intros Hwf Hmiss Hdol. set (X := frontMatterOf d) in *.
  assert (F : forIn X data X = Some (X ++ appended data)).
  { apply forIn_missing. intros kv Hin. split; [|exact (Hmiss kv Hin)].
    destruct (proj1 (Forall_forall _ _) Hwf kv Hin) as [Hk _].
    apply bareName_facts in Hk. exact (proj1 Hk). }
  assert (Hnew_dol : noDollar (X ++ appended data) = true)
    by (rewrite noDollar_app, Hdol, (noDollar_appended data Hwf); reflexivity).
  destruct (insert_shape d data _ F Hnew_dol) as (tail & Hout).
  eexists. split; [exact Hout|]. intros k Hk Hhas.
  apply bareName_facts in Hk as (Hk0 & Hk1 & _ & Hk4 & _).
  apply (hasTimeProperty_test _ _ _ Hk0).
  rewrite frontMatterOf_shape.
  - apply test_trim; try assumption.
    destruct Hhas as [Hx|Hin]; [apply test_mono; exact Hx|].
    apply test_appended; assumption.
  - destruct (trim_split (X ++ appended data)) as (a & b & E & _).
    apply (hasMarker_sub a _ b). rewrite <- E.
    apply hasMarker_appended; [exact Hwf | apply frontMatterOf_hasMarker].
Qed.

(** ** The handlers *)

Lemma lacks_true content k :
  lacks content k = true -> hasTimeProperty content k = Some false.
Proof.
  unfold lacks. destruct (hasTimeProperty content k) as [[|]|];
    solve [discriminate | reflexivity].
Qed.

Lemma lacks_false content k :
  regexLiteral k = true -> lacks content k = false ->
  hasTimeProperty content k = Some true.
Proof.
  intros Hk. unfold lacks.
  destruct (hasTimeProperty content k) as [[|]|] eqn:E;
    try solve [discriminate | reflexivity].
  intros _. rewrite (hasTimeProperty_literal _ _ Hk) in E. discriminate.
Qed.

Lemma lacks_after content k :
  hasTimeProperty content k = Some true -> lacks content k = false.
Proof. unfold lacks. intros ->. reflexivity. Qed.

Lemma insert_total d : forall data,
  Forall (fun kv => regexLiteral (fst kv) = true) data ->
  exists out, insertFrontMatter d data = Some out.
Proof.
  intros data Hd. unfold insertFrontMatter.
  assert (F : forall S, exists new, forIn (frontMatterOf d) data S = Some new).
  { induction Hd as [|[k v] data Hk _ IH]; intros S; [eexists; reflexivity|].
    cbn [fst] in Hk. cbn [forIn]. unfold upsertField.
    rewrite (propertyRegex_literal k Hk). apply IH. }
  destruct (F (frontMatterOf d)) as (new & ->). eexists. reflexivity.
Qed.

Lemma endsTrimmed_fieldText k s :
  s <> [] -> endsTrimmed s = false -> endsTrimmed (fieldText k s) = false.
Proof.
  intros Hn He. unfold endsTrimmed, fieldText in *.
  rewrite !rev_app_distr. destruct (rev s) as [|c r] eqn:E.
  - apply (f_equal (@rev N)) in E. rewrite rev_involutive in E. contradiction.
  - exact He.
Qed.

Lemma dataToAdd_wellFormed format s f content :
  (forall t, plainValue (format t) = true) ->
  Forall wellFormed (dataToAdd format s f content).
Proof.
  intros Hf. unfold dataToAdd. apply Forall_app. split.
  - destruct (enableCreatedTime s && lacks content (js "created"));
      repeat constructor. apply Hf.
  - destruct (enableModifiedTime s && lacks content (js "modified"));
      repeat constructor. apply Hf.
Qed.

Lemma dataToAdd_missing format s f content kv :
  In kv (dataToAdd format s f content) ->
  fieldTest (fst kv) (frontMatterOf content) = false /\
  lacks content (fst kv) = true.
Proof.
  unfold dataToAdd. intros Hin. apply in_app_or in Hin as [Hin|Hin].
  - destruct (enableCreatedTime s); [|destruct Hin].
    destruct (lacks content (js "created")) eqn:L; [|destruct Hin].
    destruct Hin as [<-|[]]. cbn [fst]. split; [|exact L].
    apply lacks_true in L.
    apply (hasTimeProperty_test _ (js "created") _ eq_refl) in L. exact L.
  - destruct (enableModifiedTime s); [|destruct Hin].
    destruct (lacks content (js "modified")) eqn:L; [|destruct Hin].
    destruct Hin as [<-|[]]. cbn [fst]. split; [|exact L].
    apply lacks_true in L.
    apply (hasTimeProperty_test _ (js "modified") _ eq_refl) in L. exact L.
Qed.

(** Once [handleFileOpen] has written a document, the document lacks no
    enabled field. *)
Lemma dataToAdd_after format s f content out :
  (forall t, plainValue (format t) = true) ->
  noDollar (frontMatterOf content) = true ->
  insertFrontMatter content (dataToAdd format s f content) = Some out ->
  dataToAdd format s f out = [].
Proof.
  intros Hf Hdol Hout.
  destruct (present_after_append content (dataToAdd format s f content))
    as (out' & Hout' & Hhas).
  - apply dataToAdd_wellFormed, Hf.
  - intros kv Hin. exact (proj1 (dataToAdd_missing _ _ _ _ _ Hin)).
  - exact Hdol.
  - rewrite Hout in Hout'. injection Hout' as <-.
    assert (Hkey : forall k v (e : bool),
      bareName k = true ->
      (e && lacks content k = true ->
       In (k, v) (dataToAdd format s f content)) ->
      e && lacks out k = false).
    { intros k v e Hk Hin. destruct e; [|reflexivity]. cbn [andb] in *.
      apply lacks_after. apply Hhas; [exact Hk|].
      destruct (lacks content k) eqn:L.
      - right. apply (in_map fst) in Hin; [exact Hin | reflexivity].
      - left. apply bareName_facts in Hk as (Hk & _).
        apply (lacks_false _ _ Hk) in L.
        apply (hasTimeProperty_test _ _ _ Hk) in L. exact L. }
    unfold dataToAdd.
    rewrite (Hkey (js "created") (format (ctime f)) (enableCreatedTime s) eq_refl).
    + rewrite (Hkey (js "modified") (format (mtime f)) (enableModifiedTime s)
                 eq_refl); [reflexivity|].
      intros E. unfold dataToAdd. rewrite E. apply in_or_app. right.
      left. reflexivity.
    + intros E. unfold dataToAdd. rewrite E. apply in_or_app. left.
      left. reflexivity.
Qed.

Lemma handleFileOpen_run format f p v :
  isInitializing p || negb (isMarkdown f) = false ->
  handleFileOpen format (Some f) (p, v) =
  (setProcessing false (setActiveFile f p),
   match v (ref f) with
   | Some content =>
       match dataToAdd format (settings p) f content with
       | [] => v
       | data =>
           match insertFrontMatter content data with
           | Some newContent => modify v f newContent
           | None => v
           end
       end
   | None => v
   end).
Proof. intros G. unfold handleFileOpen. rewrite G. reflexivity. Qed.

Lemma modify_same v f c : modify v f c (ref f) = Some c.
Proof. unfold modify. rewrite Nat.eqb_refl. reflexivity. Qed.

Lemma createData_wellFormed s t :
  plainValue t = true -> Forall wellFormed (createData s t).
Proof.
  intros Ht. unfold createData. apply Forall_app. split.
  - destruct (enableCreatedTime s); repeat constructor. exact Ht.
  - destruct (enableModifiedTime s); repeat constructor. exact Ht.
Qed.

Lemma createData_NoDup s t : NoDup (map fst (createData s t)).
Proof.
  unfold createData.
  destruct (enableCreatedTime s), (enableModifiedTime s); cbn.
  - constructor; [intros [H|[]]; discriminate H|].
    constructor; [intros []|constructor].
  - constructor; [intros []|constructor].
  - constructor; [intros []|constructor].
  - constructor.
Qed.

Lemma createData_value s t k v : In (k, v) (createData s t) -> v = t.
Proof.
  unfold createData. intros Hin. apply in_app_or in Hin as [Hin|Hin].
  - destruct (enableCreatedTime s); [|destruct Hin].
    destruct Hin as [[= _ <-]|[]]. reflexivity.
  - destruct (enableModifiedTime s); [|destruct Hin].
    destruct Hin as [[= _ <-]|[]]. reflexivity.
Qed.

Lemma createData_literal s t :
  Forall (fun kv => regexLiteral (fst kv) = true) (createData s t).
Proof.
  unfold createData. apply Forall_app. split.
  - destruct (enableCreatedTime s); repeat constructor.
  - destruct (enableModifiedTime s); repeat constructor.
Qed.

Lemma modified_total content t :
  exists out, insertFrontMatter content [(js "modified", t)] = Some out.
Proof. apply insert_total. repeat constructor. Qed.

(** ** Replacements of different fields commute *)

Lemma replace_comm k r k' r' :
  noLT k = true -> noLT r = true -> noLT k' = true -> noLT r' = true ->
  named k' r = false -> named k r' = false ->
  (forall l, named k l = true -> named k' l = false) ->
  forall s,
  fieldReplace k r (fieldReplace k' r' s) =
  fieldReplace k' r' (fieldReplace k r s).
Proof.
  intros Hk Hr Hk' Hr' Hn Hn' Hother s. pattern s. apply lines_ind; clear s.
  - intros l Hl. rewrite (replace_line k' r' l), (replace_line k r l) by side.
    destruct (named k l) eqn:E.
    + rewrite (Hother l E). rewrite (replace_line k r l), E by side.
      rewrite replace_line, Hn by side. reflexivity.
    + destruct (named k' l) eqn:E'.
      * rewrite replace_line, Hn' by side.
        rewrite replace_line, E' by side. reflexivity.
      * rewrite replace_line, E by side.
        rewrite replace_line, E' by side. reflexivity.
  - intros l t s Hl Ht IH.
    rewrite (replace_cons k' r' l), (replace_cons k r l) by side.
    destruct (named k l) eqn:E.
    + rewrite (Hother l E). rewrite (replace_cons k r l), E by side.
      rewrite replace_cons, Hn by side. reflexivity.
    + destruct (named k' l) eqn:E'.
      * rewrite replace_cons, Hn' by side.
        rewrite replace_cons, E' by side. reflexivity.
      * rewrite replace_cons, E by side.
        rewrite replace_cons, E' by side. rewrite IH. reflexivity.
Qed.

Lemma replace_comm_fields k v k' v' s :
  wellFormed (k, v) -> wellFormed (k', v') -> k <> k' ->
  fieldReplace k (fieldText k v) (fieldReplace k' (fieldText k' v') s) =
  fieldReplace k' (fieldText k' v') (fieldReplace k (fieldText k v) s).
Proof.
  intros [Hk Hv] [Hk' Hv'] Hne. cbn [fst snd] in *.
  apply bareName_facts in Hk as (_ & Hk1 & Hk2 & _).
  apply bareName_facts in Hk' as (_ & Hk'1 & Hk'2 & _).
  apply plainValue_facts in Hv as [Hv _].
  apply plainValue_facts in Hv' as [Hv' _].
  apply replace_comm; try assumption.
  - apply noLT_fieldText; assumption.
  - apply noLT_fieldText; assumption.
  - apply named_fieldText_other; auto.
  - apply named_fieldText_other; auto.
  - intros l. apply named_other; auto.
Qed.

Lemma forIn_present X : forall data S,
  Forall wellFormed data ->
  (forall kv, In kv data -> fieldTest (fst kv) X = true) ->
  forIn X data S = Some (replaceAll data S).
Proof.
  induction data as [|[k v] data IH]; intros S Hwf Hall; [reflexivity|].
  inversion Hwf as [|? ? [Hk Hv] Hwf']; subst. cbn [fst snd] in Hk, Hv.
  apply bareName_facts in Hk as (Hk & _).
  apply plainValue_facts in Hv as (_ & Hv).
  cbn [forIn]. rewrite (upsertField_edit X S k v Hk Hv).
  pose proof (Hall (k, v) (or_introl eq_refl)) as Ht. cbn [fst] in Ht.
  rewrite Ht.
  apply IH; [exact Hwf'|]. intros kv Hin. apply Hall. right. exact Hin.
Qed.

Lemma replaceAll_perm data data' :
  Permutation data data' ->
  NoDup (map fst data) -> Forall wellFormed data ->
  forall S, replaceAll data S = replaceAll data' S.
Proof.
  induction 1 as [|kv l l' HP IH|kv kv' l|l l' l'' HP1 IH1 HP2 IH2];
    intros Hnd Hwf S.
  - reflexivity.
  - inversion Hnd; inversion Hwf; subst. cbn [replaceAll fold_left].
    apply IH; assumption.
  - cbn [replaceAll fold_left]. f_equal.
    destruct kv as [k v], kv' as [k' v']. cbn [fst snd].
    inversion Hwf as [|? ? W' Hwf']; subst.
    inversion Hwf' as [|? ? W _]; subst.
    apply replace_comm_fields; try assumption.
    cbn [map fst] in Hnd. inversion Hnd as [|? ? Hnot _]; subst.
    intros ->. apply Hnot. left. reflexivity.
  - rewrite IH1 by assumption. apply IH2.
    + apply (Permutation_NoDup (Permutation_map fst HP1)). exact Hnd.
    + apply (Permutation_Forall HP1). exact Hwf.
Qed.

(** ** What [trim] leaves of each line *)

Lemma hasText_app a b : hasText (a ++ b) = hasText a || hasText b.
Proof. unfold hasText. rewrite allTrimmed_app. apply negb_andb. Qed.

Lemma hasText_rev s : hasText (rev s) = hasText s.
Proof. unfold hasText. rewrite allTrimmed_rev. reflexivity. Qed.

Lemma trimStart_app a b :
  trimStart (a ++ b) = if hasText a then trimStart a ++ b else trimStart b.
Proof.
  unfold hasText. induction a as [|c a IH]; [reflexivity|].
  cbn [app trimStart allTrimmed forallb].
  destruct (isTrimmed c); [exact IH | reflexivity].
Qed.

Lemma trimEnd_app a b :
  trimEnd (a ++ b) = if hasText b then a ++ trimEnd b else trimEnd a.
Proof.
  unfold trimEnd. rewrite rev_app_distr, trimStart_app, hasText_rev.
  destruct (hasText b); [|reflexivity].
  rewrite rev_app_distr, rev_involutive. reflexivity.
Qed.

Lemma hasText_trimStart s : hasText (trimStart s) = hasText s.
Proof.
  unfold hasText. induction s as [|c s IH]; [reflexivity|].
  cbn [trimStart allTrimmed forallb].
  destruct (isTrimmed c) eqn:E; [exact IH|].
  cbn [allTrimmed forallb]. rewrite E. reflexivity.
Qed.

Lemma hasText_cons_lt t s :
  isLineTerminator t = true -> hasText (t :: s) = hasText s.
Proof.
  intros Ht. unfold hasText, isTrimmed. cbn [allTrimmed forallb].
  unfold isTrimmed. rewrite Ht, orb_true_r. reflexivity.
Qed.

Lemma hasText_lines : forall s, existsb hasText (js_lines s) = hasText s.
Proof.
  apply lines_ind.
  - intros l Hl. rewrite js_lines_line by exact Hl. cbn [existsb].
    apply orb_false_r.
  - intros l t s Hl Ht IH. rewrite js_lines_cons by assumption.
    cbn [existsb]. rewrite IH, hasText_app, (hasText_cons_lt t s Ht).
    reflexivity.
Qed.

Lemma noLT_trimStart l : noLT l = true -> noLT (trimStart l) = true.
Proof.
  intros H. destruct (trimStart_split l) as (a & E & _).
  rewrite E, noLT_app in H. apply andb_true_iff in H. exact (proj2 H).
Qed.

Lemma noLT_trimEnd l : noLT l = true -> noLT (trimEnd l) = true.
Proof.
  intros H. destruct (trimEnd_split l) as (b & E & _).
  rewrite E, noLT_app in H. apply andb_true_iff in H. exact (proj1 H).
Qed.

(** The lines of a text from its first line with text on. *)
Lemma lines_trimStart l : forall s A B,
  js_lines s = A ++ l :: B ->
  existsb hasText A || hasText l = true ->
  exists A',
    js_lines (trimStart s) =
    A' ++ (if existsb hasText A then l else trimStart l) :: B.
Proof.
  intros s. pattern s. apply lines_ind; clear s.
  - intros l0 Hl0 A B. cbv beta. rewrite js_lines_line by exact Hl0.
    destruct A as [|a A]; [|destruct A; discriminate].
    intros [= -> <-] _. exists []. cbn [existsb app].
    apply js_lines_line, noLT_trimStart, Hl0.
  - intros l0 t s Hl0 Ht IH A B. cbv beta in *.
    rewrite js_lines_cons by assumption. rewrite trimStart_app.
    destruct A as [|a A]; cbn [app existsb].
    + intros [= -> <-]. cbn [orb]. intros ->. exists []. cbn [app].
      apply js_lines_cons; [apply noLT_trimStart, Hl0 | exact Ht].
    + intros [= <- E]. destruct (hasText l0) eqn:T; cbn [orb].
      * intros _. exists (trimStart l0 :: A). cbn [app]. rewrite <- E.
        apply js_lines_cons; [apply noLT_trimStart, Hl0 | exact Ht].
      * intros H. cbn [trimStart]. unfold isTrimmed. rewrite Ht, orb_true_r.
        exact (IH A B E H).
Qed.

(** The lines of a text up to its last line with text. *)
Lemma lines_trimEnd l : forall s A B,
  js_lines s = A ++ l :: B ->
  existsb hasText B || hasText l = true ->
  exists B',
    js_lines (trimEnd s) =
    A ++ (if existsb hasText B then l else trimEnd l) :: B'.
Proof.
  intros s. pattern s. apply lines_ind; clear s.
  - intros l0 Hl0 A B. cbv beta. rewrite js_lines_line by exact Hl0.
    destruct A as [|a A]; [|destruct A; discriminate].
    intros [= -> <-] _. exists []. cbn [existsb app].
    apply js_lines_line, noLT_trimEnd, Hl0.
  - intros l0 t s Hl0 Ht IH A B. cbv beta in *.
    rewrite js_lines_cons by assumption.
    rewrite trimEnd_app, (hasText_cons_lt t s Ht), <- (hasText_lines s).
    destruct A as [|a A]; cbn [app existsb].
    + intros [= -> <-]. destruct (existsb hasText (js_lines s)) eqn:T.
      * intros _. change (t :: s) with ([t] ++ s).
        rewrite trimEnd_app, <- (hasText_lines s), T. cbn [app].
        exists (js_lines (trimEnd s)). apply js_lines_cons; assumption.
      * cbn [orb]. intros _. exists [].
        apply js_lines_line, noLT_trimEnd, Hl0.
    + intros [= <- E] H.
      assert (T : existsb hasText (js_lines s) = true).
      { rewrite E, existsb_app. cbn [existsb].
        destruct (existsb hasText A); [reflexivity|]. cbn [orb].
        rewrite orb_comm. exact H. }
      change (t :: s) with ([t] ++ s).
      rewrite T, trimEnd_app, <- (hasText_lines s), T. cbn [app].
      destruct (IH A B E H) as (B' & EB). exists B'.
      rewrite js_lines_cons by assumption. rewrite EB. reflexivity.
Qed.

(** What [trim] leaves of a line of a text. *)
Lemma In_kept_trim s A l B :
  js_lines s = A ++ l :: B ->
  hasText l = true \/ (existsb hasText A = true /\ existsb hasText B = true) ->
  In (keptLine (existsb hasText A) (existsb hasText B) l)
     (js_lines (String_trim s)).
Proof.
  intros E H. unfold String_trim, keptLine.
  destruct (lines_trimStart l s A B E) as (A' & E1).
  { destruct H as [->|[-> _]]; [apply orb_true_r | reflexivity]. }
  set (l1 := if existsb hasText A then l else trimStart l) in *.
  destruct (lines_trimEnd l1 (trimStart s) A' B E1) as (B' & E2).
  { destruct H as [H|[_ ->]]; [|reflexivity].
    subst l1. destruct (existsb hasText A);
      [|rewrite hasText_trimStart]; rewrite H; apply orb_true_r. }
  rewrite E2. apply in_or_app. right. left. reflexivity.
Qed.

(** ** Lines at their place under the two edits *)

Lemma js_lines_app t b : isLineTerminator t = true -> forall a,
  js_lines (a ++ t :: b) = js_lines a ++ js_lines b.
Proof.
  intros Ht a. pattern a. apply lines_ind; clear a.
  - intros l Hl. rewrite js_lines_cons, (js_lines_line l) by assumption.
    reflexivity.
  - intros l t0 a Hl Ht0 IH. cbv beta in *. rewrite <- app_assoc. cbn [app].
    rewrite (js_lines_cons l t0 (a ++ t :: b)) by assumption.
    rewrite (js_lines_cons l t0 a) by assumption.
    rewrite IH. reflexivity.
Qed.

Lemma hasText_colon k s : hasText (k ++ COLON :: s) = true.
Proof.
  rewrite hasText_app. unfold hasText at 2. cbn [allTrimmed forallb].
  change (isTrimmed COLON) with false. apply orb_true_r.
Qed.

Lemma named_hasText k l : named k l = true -> hasText l = true.
Proof.
  unfold named, startsWith.
  destruct (strip (k ++ [COLON]) l) as [r|] eqn:E; [|discriminate].
  intros _. apply strip_Some in E. rewrite E, <- app_assoc.
  apply hasText_colon.
Qed.

Lemma hasText_fieldText k v : hasText (fieldText k v) = true.
Proof. apply hasText_colon. Qed.

Lemma lines_replace_at k r l :
  noLT k = true -> named k l = false -> hasText r = true ->
  forall s A B,
    js_lines s = A ++ l :: B ->
    exists A' B',
      js_lines (fieldReplace k r s) = A' ++ l :: B' /\
      existsb hasText A' = existsb hasText A /\
      existsb hasText B' = existsb hasText B.
Proof.
  intros Hk Hl Hr s. pattern s. apply lines_ind; clear s.
  - intros l0 Hl0 A B. cbv beta. rewrite js_lines_line by exact Hl0.
    destruct A as [|a A]; [|destruct A; discriminate].
    intros [= -> <-]. rewrite replace_line, Hl by assumption.
    exists [], []. rewrite js_lines_line by exact Hl0. auto.
  - intros l0 t s Hl0 Ht IH A B. cbv beta in *.
    rewrite js_lines_cons, replace_cons by assumption.
    destruct A as [|a A]; cbn [app].
    + intros [= -> <-]. rewrite Hl. exists [], (js_lines (fieldReplace k r s)).
      rewrite js_lines_cons by assumption. split; [reflexivity|].
      split; [reflexivity|]. rewrite !hasText_lines.
      unfold fieldReplace.
      destruct (fieldLine k true s) as [[[p v] q]|] eqn:F; [|reflexivity].
      apply fieldLine_split in F. rewrite F, !hasText_app, Hr.
      change (hasText [COLON]) with true.
      destruct (hasText p), (hasText k); reflexivity.
    + intros [= <- E]. destruct (named k l0) eqn:N.
      * exists (js_lines r ++ A), B.
        rewrite (js_lines_app t s Ht), E, <- app_assoc.
        split; [reflexivity|]. split; [|reflexivity].
        rewrite existsb_app, hasText_lines, Hr. cbn [existsb].
        rewrite (named_hasText k l0 N). reflexivity.
      * destruct (IH A B E) as (A' & B' & E' & HA & HB).
        exists (l0 :: A'), B'. rewrite js_lines_cons by assumption.
        rewrite E'. cbn [app existsb]. rewrite HA. auto.
Qed.

Lemma lines_append_at k v S A l B :
  js_lines S = A ++ l :: B ->
  js_lines (S ++ js "\n" ++ fieldText k v) =
    A ++ l :: (B ++ js_lines (fieldText k v)) /\
  existsb hasText (B ++ js_lines (fieldText k v)) = true.
Proof.
  intros E. change (js "\n" ++ fieldText k v) with (10 :: fieldText k v).
  rewrite (js_lines_app 10 _ eq_refl), E, <- app_assoc. split; [reflexivity|].
  rewrite existsb_app, hasText_lines, hasText_fieldText. apply orb_true_r.
Qed.

(** A line that no key of the mapping names keeps its place through the
    loop, with text before it as before, and text after it as before or
    from an appended field. *)
Lemma forIn_line X l : forall data,
  Forall (fun kv => regexLiteral (fst kv) = true /\ noLT (fst kv) = true /\
                    noDollar (snd kv) = true) data ->
  (forall k v, In (k, v) data -> named k l = false) ->
  forall S A B,
    js_lines S = A ++ l :: B ->
    exists new A' B',
      forIn X data S = Some new /\
      js_lines new = A' ++ l :: B' /\
      existsb hasText A' = existsb hasText A /\
      existsb hasText B' =
        existsb hasText B ||
        existsb (fun kv => negb (fieldTest (fst kv) X)) data.
Proof.
  induction data as [|[k v] data IH]; intros Hd Hn S A B E.
  - exists S, A, B. cbn [existsb]. rewrite orb_false_r. auto.
  - inversion Hd as [|? ? (Hk & Hk' & Hv) Hd']; subst.
    cbn [fst snd] in Hk, Hk', Hv.
    assert (Hn' : forall k' v', In (k', v') data -> named k' l = false)
      by (intros k' v' Hin; apply (Hn k' v'); right; exact Hin).
    cbn [forIn existsb fst]. rewrite (upsertField_edit X S k v Hk Hv).
    destruct (fieldTest k X); cbn [negb orb].
    + destruct (lines_replace_at k (fieldText k v) l Hk'
                  (Hn k v (or_introl eq_refl)) (hasText_fieldText k v) S A B E)
        as (A1 & B1 & E1 & HA & HB).
      destruct (IH Hd' Hn' _ A1 B1 E1) as (new & A' & B' & F & E' & HA' & HB').
      exists new, A', B'. rewrite HA', HB', HA, HB. auto.
    + destruct (lines_append_at k v S A l B E) as [E1 HB].
      destruct (IH Hd' Hn' _ A _ E1) as (new & A' & B' & F & E' & HA' & HB').
      exists new, A', B'. rewrite HA', HB', HB, orb_true_r. auto.
Qed.

(** ** The loop on names that are literal as patterns *)

Lemma forIn_total X : forall data S,
  Forall (fun kv => regexLiteral (fst kv) = true) data ->
  exists new, forIn X data S = Some new.
Proof.
  induction data as [|[k v] data IH]; intros S Hd; [eexists; reflexivity|].
  inversion Hd as [|? ? Hk Hd']; subst. cbn [fst] in Hk.
  cbn [forIn]. unfold upsertField. rewrite (propertyRegex_literal k Hk).
  apply IH. exact Hd'.
Qed.

Lemma lacks_literal d k :
  regexLiteral k = true -> lacks d k = negb (fieldTest k (frontMatterOf d)).
Proof.
  intros Hk. unfold lacks. rewrite (hasTimeProperty_literal d k Hk).
  reflexivity.
Qed.

Lemma existsb_lacks d : forall data : list (jsstring * jsstring),
  Forall (fun kv => regexLiteral (fst kv) = true) data ->
  existsb (fun kv => lacks d (fst kv)) data =
  existsb (fun kv => negb (fieldTest (fst kv) (frontMatterOf d))) data.
Proof.
  induction 1 as [|kv data Hk _ IH]; [reflexivity|].
  cbn [existsb]. rewrite IH, (lacks_literal d _ Hk). reflexivity.
Qed.

(** * Specification claims *)

(** C1 as amended.  Upsert is idempotent for a non-empty mapping whose names
    are bare (literal as patterns, on one line, without a colon, not
    beginning with a code unit [trim] strips nor with [---]) and distinct,
    and whose values are on one line, when neither the values nor the
    header contents of the document hold a [$] and the first non-blank line
    of the header contents is not indented. *)
Theorem C1_idempotent d data :
  data <> [] -> NoDup (map fst data) ->
  Forall (fun kv => bareName (fst kv) = true /\ plainValue (snd kv) = true)
    data ->
  noDollar (frontMatterOf d) = true ->
  indented true (frontMatterOf d) = false ->
  exists out,
    insertFrontMatter d data = Some out /\
    insertFrontMatter out data = Some out.
Proof.
  intros Hne Hnd Hwf Hdol Hind.
  set (X := frontMatterOf d) in *.
  destruct (forIn_settles X data X [] Hnd Hwf (fun _ _ => eq_refl))
    as (new & F & Hset); [intros kv []|].
  destruct (forIn_keeps X data X Hwf Hdol Hind (frontMatterOf_hasMarker d))
    as (new' & F' & Hnew_dol & Hnew_ind & Hnew_m).
  rewrite F in F'. injection F' as <-.
  destruct (insert_shape d data new F Hnew_dol) as (tail & Hout).
  exists (js "---\n" ++ String_trim new ++ js "\n---" ++ tail).
  split; [exact Hout|].
  destruct (trimStart_split new) as (a & Ea & Ha & Hsa).
  destruct (trimEnd_split (trimStart new)) as (b & Eb & Hb & Hse).
  fold (String_trim new) in Eb, Hse.
  apply (insert_fixed (String_trim new) b tail data); try assumption.
  - rewrite Eb in Hsa. exact (startsTrimmed_prefix _ _ Hsa).
  - apply noDollar_trim, Hnew_dol.
  - apply (hasMarker_sub a (String_trim new) b).
    rewrite <- Eb, <- Ea. exact Hnew_m.
  - intros [k v] Hin. destruct (Hset (k, v) Hin) as [Ht Hr].
    cbn [fst snd] in *.
    pose proof (proj1 (Forall_forall _ _) Hwf _ Hin) as [Hk Hv].
    cbn [fst snd] in Hk, Hv.
    apply bareName_facts in Hk as (_ & Hk1 & _ & Hk4 & _).
    rewrite <- Eb.
    assert (Ht' : fieldTest k (trimStart new) = true)
      by (rewrite (test_flush k new Hk4 Hnew_ind); exact Ht).
    split; [split|]; cbn [fst snd].
    + exact Ht'.
    + exact (replace_flush k _ new Hk4 Hnew_ind Hr).
    + apply (test_trimmed_tail k b Hk1 Hb). rewrite <- Eb. exact Ht'.
Qed.

Lemma C1_witness :
  [(js "created", js "2024-01-01 00:00:00");
   (js "modified", js "2024-06-01 12:00:00")] <> [] /\
  NoDup (map fst [(js "created", js "2024-01-01 00:00:00");
                  (js "modified", js "2024-06-01 12:00:00")]) /\
  noDollar (frontMatterOf (js "---\ntitle: x\ncreated: old\n---\nbody")) = true /\
  indented true (frontMatterOf (js "---\ntitle: x\ncreated: old\n---\nbody"))
    = false /\
  exists out,
    insertFrontMatter (js "---\ntitle: x\ncreated: old\n---\nbody")
      [(js "created", js "2024-01-01 00:00:00");
       (js "modified", js "2024-06-01 12:00:00")] = Some out /\
    insertFrontMatter out
      [(js "created", js "2024-01-01 00:00:00");
       (js "modified", js "2024-06-01 12:00:00")] = Some out.
Proof.
  assert (Hnd : NoDup (map fst [(js "created", js "2024-01-01 00:00:00");
                                (js "modified", js "2024-06-01 12:00:00")])).
  { constructor; [intros [H|[]]; discriminate H|].
    constructor; [intros []|]. constructor. }
  split; [discriminate|]. split; [exact Hnd|].
  split; [reflexivity|]. split; [reflexivity|].
  apply (C1_idempotent (js "---\ntitle: x\ncreated: old\n---\nbody")).
  - discriminate.
  - exact Hnd.
  - repeat constructor.
  - reflexivity.
  - reflexivity.
Defined.

(** C1 as stated fails.  With the empty mapping every call puts one more
    empty header block in front of a document that has no contents in its
    header.  With [created] indented on the first line of the header, the
    first call appends a second [created] line and strips the indentation,
    and the second call then rewrites the line that was indented.  With a
    line feed and a marker in a value, the second call finds the block
    closed inside the value. *)
Lemma C1_counterexample :
  (insertFrontMatter (js "body") [] = Some (js "---\n\n---\n\nbody") /\
   insertFrontMatter (js "---\n\n---\n\nbody") [] =
     Some (js "---\n\n---\n\n---\n\n---\n\nbody") /\
   insertFrontMatter (js "---\n\n---\n\nbody") [] <>
     Some (js "---\n\n---\n\nbody")) /\
  (insertFrontMatter (js "---\n created: old\n---\nbody")
     [(js "created", js "2024-01-01 00:00:00")] =
     Some (js "---\ncreated: old\ncreated: 2024-01-01 00:00:00\n---\nbody") /\
   insertFrontMatter
     (js "---\ncreated: old\ncreated: 2024-01-01 00:00:00\n---\nbody")
     [(js "created", js "2024-01-01 00:00:00")] =
     Some (js "---\ncreated: 2024-01-01 00:00:00\ncreated: 2024-01-01 00:00:00\n---\nbody") /\
   insertFrontMatter
     (js "---\ncreated: old\ncreated: 2024-01-01 00:00:00\n---\nbody")
     [(js "created", js "2024-01-01 00:00:00")] <>
     Some (js "---\ncreated: old\ncreated: 2024-01-01 00:00:00\n---\nbody")) /\
  (insertFrontMatter (js "body") [(js "note", js "a\n---\nb")] =
     Some (js "---\nnote: a\n---\nb\n---\n\nbody") /\
   insertFrontMatter (js "---\nnote: a\n---\nb\n---\n\nbody")
     [(js "note", js "a\n---\nb")] =
     Some (js "---\nnote: a\n---\nb\n---\nb\n---\n\nbody") /\
   insertFrontMatter (js "---\nnote: a\n---\nb\n---\n\nbody")
     [(js "note", js "a\n---\nb")] <>
     Some (js "---\nnote: a\n---\nb\n---\n\nbody")).
Proof. repeat split; solve [reflexivity | discriminate]. Qed.

(** C2 as amended.  Field names are literal as patterns and on one line, and
    neither the header contents nor the values hold a [$].  Then upsert
    leaves what follows the header block as it is, or the whole document when
    it has no block; and a line of the header contents that no key of the
    mapping names is kept among the lines upsert writes between the markers
    as [trim] leaves it: as it is when a line before it and a line after it
    have text, a field that is appended counting as a line after it; without
    what [trim] strips at its start when no line before it has text, and
    without what [trim] strips at its end when no line after it has.  A
    line without text is kept between lines with text. *)
Theorem C2_non_interference d data :
  Forall (fun kv => regexLiteral (fst kv) = true /\ noLT (fst kv) = true /\
                    noDollar (snd kv) = true) data ->
  (String_match d frontMatterRegex = None ->
   exists new,
     forIn [] data [] = Some new /\
     insertFrontMatter d data =
       Some (js "---\n" ++ String_trim new ++ js "\n---\n\n" ++ d)) /\
  (forall m,
     String_match d frontMatterRegex = Some m ->
     capture m 1 <> [] -> noDollar (capture m 1) = true ->
     exists new,
       forIn (capture m 1) data (capture m 1) = Some new /\
       insertFrontMatter d data =
         Some (js "---\n" ++ String_trim new ++ js "\n---" ++ m_suffix m) /\
       forall A l B,
         js_lines (capture m 1) = A ++ l :: B ->
         (forall k v, In (k, v) data -> named k l = false) ->
         let before := existsb hasText A in
         let after :=
           existsb hasText B || existsb (fun kv => lacks d (fst kv)) data in
         hasText l = true \/ (before = true /\ after = true) ->
         In (keptLine before after l) (js_lines (String_trim new))).
Proof.
  intros Hd.
  assert (Hd' : Forall (fun kv => regexLiteral (fst kv) = true /\
                                  noDollar (snd kv) = true) data).
  { eapply Forall_impl; [|exact Hd]. intros kv (A & _ & B). auto. }
  assert (Hlit : Forall (fun kv => regexLiteral (fst kv) = true) data).
  { eapply Forall_impl; [|exact Hd]. intros kv (A & _). exact A. }
  split.
  - intros H. apply match_header_None in H.
    destruct (forIn_total [] data [] Hlit) as (new & F).
    exists new. split; [exact F|]. exact (insert_absent d data new H F).
  - intros m H Hx Hdol. apply match_header_Some in H.
    assert (HX : frontMatterOf d = capture m 1)
      by (rewrite frontMatterOf_header, H; reflexivity).
    set (X := capture m 1) in *.
    destruct (forIn_invariant (fun S => noDollar S = true) X data Hd')
      with (S := X) as (new & F & Hnew).
    + intros k v S Hin HS.
      pose proof (proj1 (Forall_forall _ _) Hd' _ Hin) as (Hk & Hv).
      apply noDollar_replace; [exact HS | apply noDollar_fieldText; assumption].
    + intros k v S Hin HS.
      pose proof (proj1 (Forall_forall _ _) Hd' _ Hin) as (Hk & Hv).
      apply noDollar_append; assumption.
    + exact Hdol.
    + exists new. split; [exact F|]. split.
      * apply (insert_present d data X (m_suffix m) new H Hx F).
        apply noDollar_trim. exact Hnew.
      * intros A l B E Hnamed before after Hkept. subst before after.
        destruct (forIn_line X l data Hd Hnamed X A B E)
          as (new' & A' & B' & F' & E' & HA & HB).
        rewrite F in F'. injection F' as <-.
        rewrite (existsb_lacks d data Hlit), HX in *.
        rewrite <- HA, <- HB in *.
        exact (In_kept_trim new A' l B' E' Hkept).
Qed.

Lemma C2_witness :
  Forall (fun kv => regexLiteral (fst kv) = true /\ noLT (fst kv) = true /\
                    noDollar (snd kv) = true)
    [(js "created", js "2024-01-01 00:00:00")] /\
  exists new,
    forIn (js "title: x \n  - a\ncreated: old")
      [(js "created", js "2024-01-01 00:00:00")]
      (js "title: x \n  - a\ncreated: old") = Some new /\
    insertFrontMatter (js "---\ntitle: x \n  - a\ncreated: old\n---\nbody")
      [(js "created", js "2024-01-01 00:00:00")] =
      Some (js "---\n" ++ String_trim new ++ js "\n---" ++ js "\nbody") /\
    In (js "title: x ") (js_lines (String_trim new)) /\
    In (js "  - a") (js_lines (String_trim new)).
Proof.
  assert (Hd : Forall (fun kv => regexLiteral (fst kv) = true /\
                 noLT (fst kv) = true /\ noDollar (snd kv) = true)
                 [(js "created", js "2024-01-01 00:00:00")])
    by (repeat constructor).
  split; [exact Hd|].
  destruct (proj2 (C2_non_interference
                     (js "---\ntitle: x \n  - a\ncreated: old\n---\nbody") _ Hd)
              {| m_prefix := [];
                 m_matched := js "---\ntitle: x \n  - a\ncreated: old\n---";
                 m_suffix := js "\nbody";
                 m_captures := [Some (js "title: x \n  - a\ncreated: old")] |}
              eq_refl) as (new & F & E & Hl); [discriminate | reflexivity |].
  exists new. split; [exact F|]. split; [exact E|]. split.
  - apply (Hl [] (js "title: x ") [js "  - a"; js "created: old"] eq_refl).
    + intros k v [[= <- <-]|[]]. reflexivity.
    + left. reflexivity.
  - apply (Hl [js "title: x "] (js "  - a") [js "created: old"] eq_refl).
    + intros k v [[= <- <-]|[]]. reflexivity.
    + left. reflexivity.
Defined.

(** C2 as stated fails: the line [title: x ], with a space at its end, is a
    line of the header that [created] does not name, and it is not a line of
    the result; being the last line of the contents, it lost the space. *)
Lemma C2_counterexample :
  In (js "title: x ")
     (js_lines (frontMatterOf (js "---\ncreated: old\ntitle: x \n---\nbody"))) /\
  named (js "created") (js "title: x ") = false /\
  insertFrontMatter (js "---\ncreated: old\ntitle: x \n---\nbody")
    [(js "created", js "2024-01-01 00:00:00")] =
    Some (js "---\ncreated: 2024-01-01 00:00:00\ntitle: x\n---\nbody") /\
  ~ In (js "title: x ")
      (js_lines (js "---\ncreated: 2024-01-01 00:00:00\ntitle: x\n---\nbody")).
Proof.
  split; [right; left; reflexivity|]. split; [reflexivity|].
  split; [reflexivity|]. intros H. vm_compute in H.
  repeat (destruct H as [H|H]; [discriminate H|]). exact H.
Qed.

(** C3 fails on the code.  A document whose header block is empty gets a
    second header block in front of the one it has: the empty capture is
    taken for a missing block.  And where the block is replaced in place,
    the new block is read as a replacement pattern: a [$1] in the header
    contents is expanded to the old contents. *)
Theorem C3_block_not_replaced_in_place :
  (String_match (js "---\n\n---\nbody") frontMatterRegex =
     Some {| m_prefix := []; m_matched := js "---\n\n---";
             m_suffix := js "\nbody"; m_captures := [Some []] |} /\
   insertFrontMatter (js "---\n\n---\nbody")
     [(js "created", js "2024-01-01 00:00:00")] =
     Some (js "---\ncreated: 2024-01-01 00:00:00\n---\n\n---\n\n---\nbody")) /\
  insertFrontMatter (js "---\nprice: $1\n---\nbody")
    [(js "modified", js "2024-01-01 00:00:00")] =
    Some (js "---\nprice: price: $1\nmodified: 2024-01-01 00:00:00\n---\nbody").
Proof. repeat split; reflexivity. Qed.

(** C4 as amended.  With the empty mapping, a document without a header
    block gets an empty header block [---\n\n---\n\n] in front of it; a
    header block with non-empty contents free of [$] stays in place with its
    contents trimmed, and the document is returned as it is when the contents
    neither begin nor end with a code unit that [trim] strips. *)
Theorem C4_empty_mapping d :
  (String_match d frontMatterRegex = None ->
   insertFrontMatter d [] = Some (js "---\n\n---\n\n" ++ d)) /\
  (forall m,
     String_match d frontMatterRegex = Some m ->
     capture m 1 <> [] ->
     noDollar (String_trim (capture m 1)) = true ->
     insertFrontMatter d [] =
       Some (js "---\n" ++ String_trim (capture m 1) ++ js "\n---"
               ++ m_suffix m) /\
     (String_trim (capture m 1) = capture m 1 ->
      insertFrontMatter d [] = Some d)).
Proof.
  split.
  - intros H. apply match_header_None in H.
    rewrite (insert_absent d [] [] H eq_refl). reflexivity.
  - intros m H Hx Hd. apply match_header_Some in H.
    pose proof (insert_present d [] _ _ _ H Hx eq_refl Hd) as R.
    split; [exact R|]. intros Ht. rewrite R, Ht. f_equal.
    symmetry. apply header_Some. exact H.
Qed.

Lemma C4_witness :
  (String_match (js "body") frontMatterRegex = None /\
   insertFrontMatter (js "body") [] = Some (js "---\n\n---\n\nbody")) /\
  (insertFrontMatter (js "---\n\n title: x \n---\nbody") [] =
     Some (js "---\ntitle: x\n---\nbody")) /\
  (insertFrontMatter (js "---\ntitle: x\n---\nbody") [] =
     Some (js "---\ntitle: x\n---\nbody")).
Proof.
  split; [split; [reflexivity|]|split].
  - exact (proj1 (C4_empty_mapping (js "body")) eq_refl).
  - refine (proj1 (proj2 (C4_empty_mapping (js "---\n\n title: x \n---\nbody"))
                     _ eq_refl _ eq_refl)).
    discriminate.
  - refine (proj2 (proj2 (C4_empty_mapping (js "---\ntitle: x\n---\nbody"))
                     _ eq_refl _ eq_refl) eq_refl).
    discriminate.
Defined.

(** C4 as stated fails: with the empty mapping, a document without a header
    block does get one. *)
Lemma C4_counterexample :
  String_match (js "body") frontMatterRegex = None /\
  insertFrontMatter (js "body") [] = Some (js "---\n\n---\n\nbody") /\
  insertFrontMatter (js "body") [] <> Some (js "body").
Proof. split; [reflexivity|]. split; [reflexivity | discriminate]. Qed.

(** C5 as amended.  For names that are literal as patterns the loop runs to
    its end, and before reassembly the accumulated header contents lose
    every leading and trailing code unit that [trim] strips, WhiteSpace and
    LineTerminator alike, and nothing else: what is kept neither begins nor
    ends with such a code unit.  It is what stands between the markers of
    the result when the document has no header contents; and when the block
    is replaced in place it is, provided it holds no [$]. *)
Theorem C5_contents_are_trimmed d data :
  Forall (fun kv => regexLiteral (fst kv) = true) data ->
  exists new a b,
    forIn (frontMatterOf d) data (frontMatterOf d) = Some new /\
    new = a ++ String_trim new ++ b /\
    allTrimmed a = true /\ allTrimmed b = true /\
    startsTrimmed (String_trim new) = false /\
    endsTrimmed (String_trim new) = false /\
    (frontMatterOf d = [] ->
     insertFrontMatter d data =
       Some (js "---\n" ++ String_trim new ++ js "\n---\n\n" ++ d)) /\
    (forall m,
       String_match d frontMatterRegex = Some m ->
       capture m 1 <> [] ->
       noDollar (String_trim new) = true ->
       insertFrontMatter d data =
         Some (js "---\n" ++ String_trim new ++ js "\n---" ++ m_suffix m)).
Proof.
  intros Hd.
  destruct (forIn_total (frontMatterOf d) data (frontMatterOf d) Hd)
    as (new & F).
  destruct (trim_split new) as (a & b & E & Ha & Hb & Hs & He).
  exists new, a, b. repeat (split; [assumption|]). split.
  - intros H. rewrite H in F. exact (insert_absent d data new H F).
  - intros m H Hx Hdol. apply match_header_Some in H.
    rewrite frontMatterOf_header, H in F.
    exact (insert_present d data _ _ new H Hx F Hdol).
Qed.

Lemma C5_witness :
  Forall (fun kv => regexLiteral (fst kv) = true) [(js "modified", js "T ")] /\
  exists new,
    forIn (frontMatterOf (js "---\n\n  title: x\n---\nbody"))
      [(js "modified", js "T ")]
      (frontMatterOf (js "---\n\n  title: x\n---\nbody")) = Some new /\
    new = js "\n" ++ js "  " ++ String_trim new ++ js " " /\
    String_trim new = js "title: x\nmodified: T" /\
    insertFrontMatter (js "---\n\n  title: x\n---\nbody")
      [(js "modified", js "T ")] =
      Some (js "---\n" ++ String_trim new ++ js "\n---" ++ js "\nbody").
Proof.
  assert (Hd : Forall (fun kv => regexLiteral (fst kv) = true)
                 [(js "modified", js "T ")]) by (repeat constructor).
  split; [exact Hd|].
  destruct (C5_contents_are_trimmed (js "---\n\n  title: x\n---\nbody")
              [(js "modified", js "T ")] Hd)
    as (new & a & b & F & _ & _ & _ & _ & _ & _ & Hin).
  exists new. split; [exact F|].
  assert (En : new = js "\n  title: x\nmodified: T ").
  { vm_compute in F. injection F as <-. reflexivity. }
  subst new. split; [reflexivity|]. split; [reflexivity|].
  apply (Hin {| m_prefix := []; m_matched := js "---\n\n  title: x\n---";
                m_suffix := js "\nbody";
                m_captures := [Some (js "\n  title: x")] |});
    [reflexivity | discriminate | reflexivity].
Defined.

(** C5 as stated fails: the two spaces in front of [title] and the space
    after [T], which are on the first and on the last non-blank line of the
    accumulated contents, are not in the result. *)
Lemma C5_counterexample :
  forIn (js "\n  title: x") [(js "modified", js "T ")] (js "\n  title: x")
    = Some (js "\n  title: x\nmodified: T ") /\
  insertFrontMatter (js "---\n\n  title: x\n---\nbody")
    [(js "modified", js "T ")] =
    Some (js "---\ntitle: x\nmodified: T\n---\nbody") /\
  insertFrontMatter (js "---\n\n  title: x\n---\nbody")
    [(js "modified", js "T ")] <>
    Some (js "---\n  title: x\nmodified: T \n---\nbody").
Proof. split; [reflexivity|]. split; [reflexivity | discriminate]. Qed.

(** C6.  Extraction is non-greedy: the block found by [frontMatterRegex]
    starts with the opening marker and ends at the nearest [\n---] after it,
    so no split of the document around a closing marker has a shorter
    interior than the capture; and for the document
    [---\nfoo\n---\nmore\n---\n] the capture is exactly [foo]. *)
Theorem C6_extraction_is_non_greedy :
  (forall content r,
     String_match content frontMatterRegex = Some r ->
     exists x,
       m_captures r = [Some x] /\
       content = js "---\n" ++ x ++ js "\n---" ++ m_suffix r /\
       forall x' rest',
         content = js "---\n" ++ x' ++ js "\n---" ++ rest' ->
         (length x <= length x')%nat) /\
  frontMatterOf (js "---\nfoo\n---\nmore\n---\n") = js "foo" /\
  frontMatterOf (js "---\nfoo\n---\nmore\n---\n") <> js "foo\n---\nmore".
Proof.
  split; [|split; [reflexivity | discriminate]].
  intros content r. rewrite match_header.
  destruct (header content) as [[x rst]|] eqn:H; [|discriminate].
  intros [= <-]. exists x. cbn [m_captures m_suffix].
  split; [reflexivity|]. split; [apply header_Some; exact H|].
  intros x' rest' E. unfold header in H.
  rewrite E, strip_app in H. eapply find_nearest; [exact H | reflexivity].
Qed.

Lemma C6_witness :
  String_match (js "---\nfoo\n---\nmore\n---\n") frontMatterRegex =
    Some {| m_prefix := []; m_matched := js "---\nfoo\n---";
            m_suffix := js "\nmore\n---\n"; m_captures := [Some (js "foo")] |}
  /\ exists x,
       [Some (js "foo")] = [Some x] /\
       js "---\nfoo\n---\nmore\n---\n" =
         js "---\n" ++ x ++ js "\n---" ++ js "\nmore\n---\n" /\
       forall x' rest',
         js "---\nfoo\n---\nmore\n---\n" =
           js "---\n" ++ x' ++ js "\n---" ++ rest' ->
         (length x <= length x')%nat.
Proof.
  split; [reflexivity|].
  exact (proj1 C6_extraction_is_non_greedy
           (js "---\nfoo\n---\nmore\n---\n") _ eq_refl).
Defined.



(** C8 as amended.  The presence test is exact and anchored to line starts
    for a field name that is literal as a pattern and has no line
    terminator: it answers true exactly when some line of the header
    contents starts with the name followed by a colon.  Lines are the lines
    of the [m] flag. *)
Theorem C8_presence_test_is_line_anchored d name :
  regexLiteral name = true -> noLT name = true ->
  hasTimeProperty d name =
  Some (existsb (fun l => startsWith (name ++ [COLON]) l)
          (js_lines (frontMatterOf d))).
Proof.
  intros Hr Hn.
  rewrite (hasTimeProperty_literal d name Hr), (test_lines name Hn).
  reflexivity.
Qed.

Lemma C8_witness :
  regexLiteral (js "created") = true /\ noLT (js "created") = true /\
  hasTimeProperty (js "---\ncreatedAt: x\nnote created: y\nCreated: z\n---\n")
    (js "created") = Some false /\
  hasTimeProperty (js "---\ntitle: t\ncreated: x\n---\n") (js "created")
    = Some true.
Proof.
  split; [reflexivity|]. split; [reflexivity|]. split.
  - rewrite (C8_presence_test_is_line_anchored _ (js "created") eq_refl eq_refl).
    reflexivity.
  - rewrite (C8_presence_test_is_line_anchored _ (js "created") eq_refl eq_refl).
    reflexivity.
Defined.

(** C8 as stated fails: the name is read as a pattern.  No line of the header
    starts with [c.eated:], yet the test answers true for the name
    [c.eated], whose [.] matches the [r] of [created]; and for the name
    [created.*] it answers true on the line [createdAt: x]. *)
Lemma C8_counterexample :
  existsb (fun l => startsWith (js "c.eated" ++ [COLON]) l)
    (js_lines (frontMatterOf (js "---\ncreated: x\n---\n"))) = false /\
  hasTimeProperty (js "---\ncreated: x\n---\n") (js "c.eated") = Some true /\
  existsb (fun l => startsWith (js "created.*" ++ [COLON]) l)
    (js_lines (frontMatterOf (js "---\ncreatedAt: x\n---\n"))) = false /\
  hasTimeProperty (js "---\ncreatedAt: x\n---\n") (js "created.*") = Some true.
Proof. repeat split; vm_compute; reflexivity. Qed.

(** C9 as amended.  Extraction recognizes a block exactly when the document
    starts with the line [---] (the text begins with [---\n]) and a line
    feed followed by [---] occurs after it; what follows those three hyphens
    on their line plays no part, so a line that merely begins with [---]
    closes the block. *)
Theorem C9_markers content :
  (exists r, String_match content frontMatterRegex = Some r) <->
  (exists x rest', content = js "---\n" ++ x ++ js "\n---" ++ rest').
Proof.
  rewrite match_header. split.
  - intros [r H]. destruct (header content) as [[x rst]|] eqn:E;
      [|discriminate].
    exists x, rst. apply header_Some. exact E.
  - intros (x & rst & E). unfold header. rewrite E, strip_app.
    destruct (find (js "\n---") (x ++ js "\n---" ++ rst)) as [[y ry]|] eqn:F.
    + eexists. reflexivity.
    + exfalso. exact (find_None _ _ x rst F eq_refl).
Qed.

Lemma C9_witness :
  exists r, String_match (js "---\nfoo\n---bar\nbaz") frontMatterRegex = Some r.
Proof.
  apply (proj2 (C9_markers (js "---\nfoo\n---bar\nbaz"))).
  exists (js "foo"), (js "bar\nbaz"). reflexivity.
Defined.

(** C9 as stated fails: in [---\nfoo\n---bar\nbaz] no line after the first
    is exactly [---], yet a block is recognized, closed by the line
    [---bar]. *)
Lemma C9_counterexample :
  js_lines (js "---\nfoo\n---bar\nbaz") =
    [js "---"; js "foo"; js "---bar"; js "baz"] /\
  String_match (js "---\nfoo\n---bar\nbaz") frontMatterRegex =
    Some {| m_prefix := []; m_matched := js "---\nfoo\n---";
            m_suffix := js "bar\nbaz"; m_captures := [Some (js "foo")] |}.
Proof. split; reflexivity. Qed.

(** C10 as amended.  When extraction finds no header block, the presence
    test answers false for every field name that is literal as a pattern,
    whatever lines the text has: the test reads the captured interior
    only. *)
Theorem C10_no_header_no_field d name :
  String_match d frontMatterRegex = None ->
  regexLiteral name = true ->
  hasTimeProperty d name = Some false.
Proof.
  intros H Hn. rewrite (hasTimeProperty_literal d name Hn).
  unfold frontMatterOf. rewrite H.
  unfold fieldTest. cbn [fieldLine].
  destruct (strip (name ++ [COLON]) []) eqn:E; [|reflexivity].
  apply strip_Some in E. destruct name; discriminate.
Qed.

Lemma C10_witness :
  String_match (js "created: 2024-01-01 00:00:00\nbody") frontMatterRegex = None /\
  regexLiteral (js "created") = true /\
  hasTimeProperty (js "created: 2024-01-01 00:00:00\nbody") (js "created") =
    Some false.
Proof.
  split; [reflexivity|]. split; [reflexivity|].
  exact (C10_no_header_no_field (js "created: 2024-01-01 00:00:00\nbody")
           (js "created") eq_refl eq_refl).
Defined.

(** C10 as stated fails: the name [|created] gives the pattern
    [^|created:.*$], whose first alternative matches the empty text, so the
    test answers true on a document without a header block. *)
Lemma C10_counterexample :
  String_match (js "body") frontMatterRegex = None /\
  hasTimeProperty (js "body") (js "|created") = Some true.
Proof. split; vm_compute; reflexivity. Qed.

(** * Further properties of the two methods *)

(** For a mapping whose names are literal as patterns, whatever the
    document and the values hold, [$]-patterns included,
    [insertFrontMatter] returns a text that starts with a header block that
    [frontMatterRegex] finds, and ends with the text that followed the
    block of the document, or with a blank line and the whole document when
    it had no block or an empty one. *)
Theorem result_has_header_and_tail d data :
  Forall (fun kv => regexLiteral (fst kv) = true) data ->
  exists out g m',
    insertFrontMatter d data = Some out /\
    out = js "---\n" ++ g ++ js "\n---" ++
          match String_match d frontMatterRegex with
          | Some m => if isEmpty (capture m 1) then js "\n\n" ++ d
                      else m_suffix m
          | None => js "\n\n" ++ d
          end /\
    String_match out frontMatterRegex = Some m'.
Proof.
  intros Hd. destruct (insert_total d data Hd) as (out & Hout).
  exists out.
  assert (Hgo : forall g tail, exists g0 m',
            js "---\n" ++ g ++ js "\n---" ++ tail =
            js "---\n" ++ g0 ++ js "\n---" ++ tail /\
            String_match (js "---\n" ++ g ++ js "\n---" ++ tail)
              frontMatterRegex = Some m').
  { intros g tail. destruct (match_of_shape g tail) as (m' & E).
    exists g, m'. auto. }
  assert (Hshape : exists g m',
    out = js "---\n" ++ g ++ js "\n---" ++
          match String_match d frontMatterRegex with
          | Some m => if isEmpty (capture m 1) then js "\n\n" ++ d
                      else m_suffix m
          | None => js "\n\n" ++ d
          end /\
    String_match out frontMatterRegex = Some m').
  { revert Hout. unfold insertFrontMatter. rewrite frontMatterOf_header.
    rewrite match_header.
    destruct (header d) as [[x r]|] eqn:H.
    - destruct (forIn x data x) as [new|]; [|discriminate].
      intros [= <-]. cbn [capture m_captures nth_error Nat.sub m_suffix].
      destruct x as [|c x]; cbn [isEmpty negb].
      + apply (Hgo (String_trim new) (js "\n\n" ++ d)).
      + unfold String_replace.
        change (RegExp_exec frontMatterRegex d)
          with (String_match d frontMatterRegex).
        rewrite match_header, H. cbn [m_prefix m_suffix].
        assert (E : forall res, exists g,
                  GetSubstitution res
                    (js "---\n" ++ String_trim new ++ js "\n---") =
                  js "---\n" ++ g ++ js "\n---").
        { intros res. rewrite GetSubstitution_marker_open.
          destruct (GetSubstitution_marker_close res _ (String_trim new)
                      (le_n _)) as (g & ->).
          exists g. reflexivity. }
        match goal with
        | |- context [GetSubstitution ?res ?t] =>
            destruct (E res) as (g & Eg);
            change t with (js "---\n" ++ String_trim new ++ js "\n---");
            rewrite Eg
        end.
        cbn [app]. rewrite <- !app_assoc. apply (Hgo g r).
    - destruct (forIn [] data []) as [new|]; [|discriminate].
      intros [= <-]. apply (Hgo (String_trim new) (js "\n\n" ++ d)). }
  destruct Hshape as (g & m' & E1 & E2). exists g, m'. auto.
Qed.

Lemma result_has_header_and_tail_witness :
  Forall (fun kv => regexLiteral (fst kv) = true)
    [(js "modified", js "2024-01-01 00:00:00")] /\
  insertFrontMatter (js "---\nprice: $1\n---\nbody")
    [(js "modified", js "2024-01-01 00:00:00")] =
    Some (js "---\nprice: price: $1\nmodified: 2024-01-01 00:00:00\n---\nbody") /\
  exists out g m',
    insertFrontMatter (js "---\nprice: $1\n---\nbody")
      [(js "modified", js "2024-01-01 00:00:00")] = Some out /\
    out = js "---\n" ++ g ++ js "\n---" ++ js "\nbody" /\
    String_match out frontMatterRegex = Some m'.
Proof.
  assert (Hd : Forall (fun kv => regexLiteral (fst kv) = true)
                 [(js "modified", js "2024-01-01 00:00:00")])
    by (repeat constructor).
  split; [exact Hd|]. split; [reflexivity|].
  exact (result_has_header_and_tail (js "---\nprice: $1\n---\nbody")
           [(js "modified", js "2024-01-01 00:00:00")] Hd).
Defined.

(** A document without a header block gets, for any mapping whose names are
    literal as patterns, a block with one line per entry in the order of the
    mapping, trimmed as a whole, then a blank line and the document.  The
    values are written as they are, [$] and line feeds included. *)
Theorem insertion_without_header d data :
  String_match d frontMatterRegex = None ->
  Forall (fun kv => regexLiteral (fst kv) = true) data ->
  insertFrontMatter d data =
  Some (js "---\n" ++ String_trim (appended data) ++ js "\n---\n\n" ++ d).
Proof.
  intros H Hd. pose proof (match_header_None d H) as E.
  apply (insert_absent d data (appended data) E).
  apply (forIn_missing [] data []). intros kv Hin. split.
  - exact (proj1 (Forall_forall _ _) Hd kv Hin).
  - apply test_empty.
Qed.

Lemma insertion_without_header_witness :
  String_match (js "# Title\n") frontMatterRegex = None /\
  Forall (fun kv => regexLiteral (fst kv) = true)
    [(js "created", js "2024-01-01 00:00:00"); (js "price", js "$1 ")] /\
  insertFrontMatter (js "# Title\n")
    [(js "created", js "2024-01-01 00:00:00"); (js "price", js "$1 ")] =
  Some (js "---\ncreated: 2024-01-01 00:00:00\nprice: $1\n---\n\n# Title\n").
Proof.
  assert (Hd : Forall (fun kv => regexLiteral (fst kv) = true)
            [(js "created", js "2024-01-01 00:00:00"); (js "price", js "$1 ")])
    by (repeat constructor).
  split; [reflexivity|]. split; [exact Hd|].
  exact (insertion_without_header (js "# Title\n") _ eq_refl Hd).
Defined.

(** Fields that the presence test does not find in a document with a
    non-empty header are appended after the header contents, one line each
    in the order of the mapping, and nothing of the contents is replaced:
    the new contents are the old ones and the appended lines, trimmed. *)
Theorem missing_fields_are_appended d data m :
  String_match d frontMatterRegex = Some m ->
  capture m 1 <> [] ->
  (forall k v, In (k, v) data -> hasTimeProperty d k = Some false) ->
  noDollar (String_trim (capture m 1 ++ appended data)) = true ->
  insertFrontMatter d data =
  Some (js "---\n" ++ String_trim (capture m 1 ++ appended data)
          ++ js "\n---" ++ m_suffix m).
Proof.
  intros H Hx Hmiss Hdol. apply match_header_Some in H.
  apply (insert_present d data _ _ _ H Hx); [|exact Hdol].
  pose proof (forIn_absent d data (capture m 1)) as F.
  rewrite frontMatterOf_header, H in F. apply F.
  intros [k v] Hin. exact (Hmiss k v Hin).
Qed.

Lemma missing_fields_are_appended_witness :
  insertFrontMatter (js "---\ntitle: x\n---\nbody")
    [(js "created", js "2024-01-01 00:00:00");
     (js "modified", js "2024-06-01 12:00:00")] =
  Some (js "---\n" ++
        String_trim (js "title: x" ++
                     appended [(js "created", js "2024-01-01 00:00:00");
                               (js "modified", js "2024-06-01 12:00:00")])
        ++ js "\n---" ++ js "\nbody") /\
  String_trim (js "title: x" ++
               appended [(js "created", js "2024-01-01 00:00:00");
                         (js "modified", js "2024-06-01 12:00:00")]) =
  js "title: x\ncreated: 2024-01-01 00:00:00\nmodified: 2024-06-01 12:00:00".
Proof.
  split; [|reflexivity].
  apply (missing_fields_are_appended (js "---\ntitle: x\n---\nbody") _
           {| m_prefix := []; m_matched := js "---\ntitle: x\n---";
              m_suffix := js "\nbody"; m_captures := [Some (js "title: x")] |}
           eq_refl).
  - discriminate.
  - intros k v [[= <- <-]|[[= <- <-]|[]]]; reflexivity.
  - reflexivity.
Defined.

(** A field whose first line in the header is [k:...] is updated in place:
    that whole line becomes [k: v], what is before and after it in the
    contents stays, and the text after the block stays.  Here [p] is the
    contents before the line (empty or ending a line, with no line starting
    with [k:]), [v0] the old rest of the line and [q] what follows it. *)
Theorem field_is_updated_in_place d m k v p v0 q :
  String_match d frontMatterRegex = Some m ->
  capture m 1 = p ++ k ++ [COLON] ++ v0 ++ q ->
  regexLiteral k = true -> noLT k = true ->
  atLineStart (rev p) = true -> existsb (named k) (js_lines p) = false ->
  noLT v0 = true -> atLineStart q = true ->
  noDollar v = true ->
  noDollar (String_trim (p ++ fieldText k v ++ q)) = true ->
  insertFrontMatter d [(k, v)] =
  Some (js "---\n" ++ String_trim (p ++ fieldText k v ++ q) ++ js "\n---"
          ++ m_suffix m).
Proof.
  intros H EX Hlit Hk Hp Hnone Hv0 Hq Hv Hdol. apply match_header_Some in H.
  pose proof (fieldLine_found k p v0 q Hk Hp Hnone Hv0 Hq) as F.
  rewrite <- EX in F.
  apply (insert_present d _ _ _ _ H); [| |exact Hdol].
  - rewrite EX. destruct p; [destruct k|]; discriminate.
  - cbn [forIn]. rewrite (upsertField_edit _ _ k v Hlit Hv).
    unfold fieldTest, fieldReplace. rewrite F. reflexivity.
Qed.

Lemma field_is_updated_in_place_witness :
  insertFrontMatter
    (js "---\ntitle: x\ncreated: 2023-01-01 00:00:00\ntags: a\n---\nbody")
    [(js "created", js "2024-06-01 12:00:00")] =
  Some (js "---\n" ++
        String_trim (js "title: x\n" ++
                     fieldText (js "created") (js "2024-06-01 12:00:00") ++
                     js "\ntags: a")
        ++ js "\n---" ++ js "\nbody") /\
  String_trim (js "title: x\n" ++
               fieldText (js "created") (js "2024-06-01 12:00:00") ++
               js "\ntags: a") =
  js "title: x\ncreated: 2024-06-01 12:00:00\ntags: a".
Proof.
  split; [|reflexivity].
  apply (field_is_updated_in_place
           (js "---\ntitle: x\ncreated: 2023-01-01 00:00:00\ntags: a\n---\nbody")
           {| m_prefix := [];
              m_matched :=
                js "---\ntitle: x\ncreated: 2023-01-01 00:00:00\ntags: a\n---";
              m_suffix := js "\nbody";
              m_captures :=
                [Some (js "title: x\ncreated: 2023-01-01 00:00:00\ntags: a")] |}
           (js "created") (js "2024-06-01 12:00:00")
           (js "title: x\n") (js " 2023-01-01 00:00:00") (js "\ntags: a"));
    reflexivity.
Defined.

(** After an upsert every field of the mapping is there: the presence test
    finds it in the result, and when its line [k: v] does not end with a
    code unit [trim] strips, that line is a line of the header contents of
    the result.  This holds for distinct bare names and plain values, on a
    document whose header contents hold no [$]. *)
Theorem upsert_then_present d data :
  NoDup (map fst data) ->
  Forall (fun kv => bareName (fst kv) = true /\ plainValue (snd kv) = true)
    data ->
  noDollar (frontMatterOf d) = true ->
  exists out,
    insertFrontMatter d data = Some out /\
    forall k v, In (k, v) data ->
      hasTimeProperty out k = Some true /\
      (endsTrimmed (fieldText k v) = false ->
       In (fieldText k v) (js_lines (frontMatterOf out))).
Proof.
  intros Hnd Hwf Hdol.
  destruct (upsert_result d data Hnd Hwf Hdol) as (new & tail & Hout & HX & Hset).
  exists (js "---\n" ++ String_trim new ++ js "\n---" ++ tail).
  split; [exact Hout|]. intros k v Hin.
  pose proof (proj1 (Forall_forall _ _) Hwf _ Hin) as [Hk _].
  cbn [fst] in Hk.
  destruct (settled_trim new k v Hk (Hset _ Hin)) as [Ht Hl].
  rewrite HX. split; [|exact Hl].
  apply hasTimeProperty_test; [|rewrite HX; exact Ht].
  apply bareName_facts in Hk. exact (proj1 Hk).
Qed.

Lemma upsert_then_present_witness :
  exists out,
    insertFrontMatter (js "---\n created: old\ntitle: x\n---\nbody")
      [(js "created", js "2024-01-01 00:00:00");
       (js "modified", js "2024-06-01 12:00:00")] = Some out /\
    forall k v,
      In (k, v) [(js "created", js "2024-01-01 00:00:00");
                 (js "modified", js "2024-06-01 12:00:00")] ->
      hasTimeProperty out k = Some true /\
      (endsTrimmed (fieldText k v) = false ->
       In (fieldText k v) (js_lines (frontMatterOf out))).
Proof.
  apply (upsert_then_present (js "---\n created: old\ntitle: x\n---\nbody")).
  - constructor; [intros [H|[]]; discriminate H|].
    constructor; [intros []|]. constructor.
  - repeat constructor.
  - reflexivity.
Defined.

(** The presence test reads the header contents only: for a document with a
    header block, the answer is the same whatever text follows the block. *)
Theorem presence_test_ignores_tail d m tail k :
  String_match d frontMatterRegex = Some m ->
  hasTimeProperty (js "---\n" ++ capture m 1 ++ js "\n---" ++ tail) k =
  hasTimeProperty d k.
Proof.
  intros H. apply match_header_Some in H.
  unfold hasTimeProperty.
  rewrite (frontMatterOf_shape _ tail (header_hasMarker d _ _ H)).
  rewrite frontMatterOf_header, H. reflexivity.
Qed.

Lemma presence_test_ignores_tail_witness :
  hasTimeProperty (js "---\n" ++ js "title: x" ++ js "\n---"
                     ++ js "\ncreated: 2024-01-01 00:00:00\n") (js "created") =
  hasTimeProperty (js "---\ntitle: x\n---\nbody") (js "created") /\
  hasTimeProperty (js "---\ntitle: x\n---\nbody") (js "created") = Some false.
Proof.
  split; [|reflexivity].
  exact (presence_test_ignores_tail (js "---\ntitle: x\n---\nbody")
           {| m_prefix := []; m_matched := js "---\ntitle: x\n---";
              m_suffix := js "\nbody"; m_captures := [Some (js "title: x")] |}
           (js "\ncreated: 2024-01-01 00:00:00\n") (js "created") eq_refl).
Defined.

(** Updates do not depend on the order of the mapping: when the presence
    test finds every field of a mapping of distinct bare names and plain
    values, any reordering of the mapping gives the same result. *)
Theorem updates_commute d data data' :
  Permutation data data' ->
  NoDup (map fst data) ->
  Forall (fun kv => bareName (fst kv) = true /\ plainValue (snd kv) = true)
    data ->
  (forall k v, In (k, v) data -> hasTimeProperty d k = Some true) ->
  insertFrontMatter d data' = insertFrontMatter d data.
Proof.
  intros HP Hnd Hwf Hall.
  assert (Hpresent : forall kv, In kv data ->
            fieldTest (fst kv) (frontMatterOf d) = true).
  { intros [k v] Hin. cbn [fst].
    pose proof (proj1 (Forall_forall _ _) Hwf _ Hin) as [Hk _].
    cbn [fst] in Hk. apply bareName_facts in Hk.
    exact (proj1 (hasTimeProperty_test d k true (proj1 Hk)) (Hall k v Hin)). }
  unfold insertFrontMatter.
  rewrite (forIn_present _ data _ Hwf Hpresent).
  rewrite (forIn_present _ data' _).
  - rewrite (replaceAll_perm data data' HP Hnd Hwf). reflexivity.
  - apply (Permutation_Forall HP). exact Hwf.
  - intros kv Hin. apply Hpresent.
    apply (Permutation_in _ (Permutation_sym HP)). exact Hin.
Qed.

Lemma updates_commute_witness :
  insertFrontMatter (js "---\ncreated: a\ntitle: x\nmodified: b\n---\nbody")
    [(js "modified", js "2024-06-01 12:00:00");
     (js "created", js "2024-01-01 00:00:00")] =
  insertFrontMatter (js "---\ncreated: a\ntitle: x\nmodified: b\n---\nbody")
    [(js "created", js "2024-01-01 00:00:00");
     (js "modified", js "2024-06-01 12:00:00")] /\
  insertFrontMatter (js "---\ncreated: a\ntitle: x\nmodified: b\n---\nbody")
    [(js "created", js "2024-01-01 00:00:00");
     (js "modified", js "2024-06-01 12:00:00")] =
  Some (js "---\ncreated: 2024-01-01 00:00:00\ntitle: x\nmodified: 2024-06-01 12:00:00\n---\nbody").
Proof.
  split; [|reflexivity].
  apply updates_commute.
  - apply perm_swap.
  - constructor; [intros [H|[]]; discriminate H|].
    constructor; [intros []|]. constructor.
  - repeat constructor.
  - intros k v [[= <- <-]|[[= <- <-]|[]]]; reflexivity.
Defined.

(** * Properties of the event handlers *)

(** Opening a file a second time changes nothing more: after
    [handleFileOpen] the document lacks no enabled field, so the same event
    again leaves the plugin and the vault as the first left them.  The
    formatted times are plain values and the header of the file holds no
    [$]. *)
Theorem handleFileOpen_twice format file p v :
  (forall t, plainValue (format t) = true) ->
  (forall f content, file = Some f -> v (ref f) = Some content ->
     noDollar (frontMatterOf content) = true) ->
  handleFileOpen format file (handleFileOpen format file (p, v)) =
  handleFileOpen format file (p, v).
Proof.
  intros Hf Hdol. destruct file as [f|]; [|reflexivity].
  destruct (isInitializing p || negb (isMarkdown f)) eqn:G.
  - assert (E : handleFileOpen format (Some f) (p, v) = (p, v))
      by (unfold handleFileOpen; rewrite G; reflexivity).
    rewrite E. exact E.
  - rewrite (handleFileOpen_run format f p v G).
    rewrite handleFileOpen_run by exact G.
    f_equal. cbn [settings setProcessing setActiveFile].
    destruct (v (ref f)) as [content|] eqn:R; [|rewrite R; reflexivity].
    destruct (dataToAdd format (settings p) f content) as [|kv data] eqn:D.
    { rewrite R, D. reflexivity. }
    destruct (insertFrontMatter content (kv :: data)) as [out|] eqn:I.
    + rewrite modify_same.
      rewrite <- D in I.
      rewrite (dataToAdd_after format (settings p) f content out Hf
                 (Hdol f content eq_refl R) I).
      reflexivity.
    + rewrite R, D, I. reflexivity.
Qed.

Lemma handleFileOpen_twice_witness :
  let format := fun _ : Z => js "2024-01-01 00:00:00" in
  let f := {| ref := 0; extension := js "md"; ctime := 0; mtime := 0 |} in
  let p := {| settings := DEFAULT_SETTINGS; lastModifiedTime := 0;
              activeFile := None; processingFile := false;
              isInitializing := false |} in
  let v := fun r => if Nat.eqb r 0 then Some (js "---\ntitle: x\n---\nbody")
                    else None in
  snd (handleFileOpen format (Some f) (p, v)) 0%nat =
    Some (js "---\ntitle: x\ncreated: 2024-01-01 00:00:00\nmodified: 2024-01-01 00:00:00\n---\nbody") /\
  handleFileOpen format (Some f) (handleFileOpen format (Some f) (p, v)) =
  handleFileOpen format (Some f) (p, v).
Proof.
  intros format f p v. split; [reflexivity|].
  apply handleFileOpen_twice.
  - intros t. reflexivity.
  - intros f0 content [= <-]. subst v. cbn [ref f Nat.eqb].
    intros [= <-]. reflexivity.
Defined.

(** Opening a file never rewrites a field the file has: when the file
    lacks enabled fields, [handleFileOpen] writes the header contents it
    found followed by one line for each field it lacks, trimmed, and leaves
    the text after the block as it is. *)
Theorem handleFileOpen_only_appends format f p v content m :
  isInitializing p = false -> isMarkdown f = true ->
  v (ref f) = Some content ->
  String_match content frontMatterRegex = Some m ->
  capture m 1 <> [] ->
  dataToAdd format (settings p) f content <> [] ->
  noDollar (String_trim (capture m 1 ++
              appended (dataToAdd format (settings p) f content))) = true ->
  snd (handleFileOpen format (Some f) (p, v)) (ref f) =
  Some (js "---\n" ++
        String_trim (capture m 1 ++
                     appended (dataToAdd format (settings p) f content))
        ++ js "\n---" ++ m_suffix m).
Proof.
  intros Hi Hmd R H Hx Hdata Hdol. apply match_header_Some in H.
  rewrite handleFileOpen_run by (rewrite Hi, Hmd; reflexivity).
  cbn [snd]. rewrite R.
  assert (I : insertFrontMatter content (dataToAdd format (settings p) f content)
              = Some (js "---\n" ++
                      String_trim (capture m 1 ++
                        appended (dataToAdd format (settings p) f content))
                      ++ js "\n---" ++ m_suffix m)).
  { apply (insert_present content _ _ _ _ H Hx); [|exact Hdol].
    pose proof (forIn_absent content
                  (dataToAdd format (settings p) f content) (capture m 1)) as F.
    rewrite frontMatterOf_header, H in F. apply F.
    intros kv Hin. apply lacks_true.
    exact (proj2 (dataToAdd_missing _ _ _ _ _ Hin)). }
  destruct (dataToAdd format (settings p) f content) as [|kv data] eqn:D;
    [contradiction|].
  rewrite I. apply modify_same.
Qed.

Lemma handleFileOpen_only_appends_witness :
  let format := fun t : Z => if (t =? 0)%Z then js "2023-01-01 00:00:00"
                             else js "2024-06-01 12:00:00" in
  let f := {| ref := 0; extension := js "md"; ctime := 0; mtime := 1 |} in
  let p := {| settings := DEFAULT_SETTINGS; lastModifiedTime := 0;
              activeFile := None; processingFile := false;
              isInitializing := false |} in
  let v := fun r => if Nat.eqb r 0
                    then Some (js "---\ncreated: 1999-12-31\ntitle: x\n---\nbody")
                    else None in
  dataToAdd format (settings p) f
    (js "---\ncreated: 1999-12-31\ntitle: x\n---\nbody") =
    [(js "modified", js "2024-06-01 12:00:00")] /\
  snd (handleFileOpen format (Some f) (p, v)) (ref f) =
  Some (js "---\n" ++
        String_trim (js "created: 1999-12-31\ntitle: x" ++
                     appended [(js "modified", js "2024-06-01 12:00:00")])
        ++ js "\n---" ++ js "\nbody").
Proof.
  intros format f p v. split; [reflexivity|].
  apply (handleFileOpen_only_appends format f p v
           (js "---\ncreated: 1999-12-31\ntitle: x\n---\nbody")
           {| m_prefix := [];
              m_matched := js "---\ncreated: 1999-12-31\ntitle: x\n---";
              m_suffix := js "\nbody";
              m_captures := [Some (js "created: 1999-12-31\ntitle: x")] |});
    solve [reflexivity | discriminate].
Defined.

(** A created Markdown file that the vault can read gets every enabled
    field, and all of them with the one current time: after
    [handleFileCreate] the presence test finds each enabled field in the
    file, and its line is the name, a colon, a space and that time. *)
Theorem handleFileCreate_stamps file currentTime p v content :
  isInitializing p = false -> isMarkdown file = true ->
  v (ref file) = Some content ->
  plainValue currentTime = true ->
  currentTime <> [] -> endsTrimmed currentTime = false ->
  noDollar (frontMatterOf content) = true ->
  exists out,
    snd (handleFileCreate file currentTime (p, v)) (ref file) = Some out /\
    forall k t, In (k, t) (createData (settings p) currentTime) ->
      t = currentTime /\
      hasTimeProperty out k = Some true /\
      In (k ++ js ": " ++ currentTime) (js_lines (frontMatterOf out)).
Proof.
  intros Hi Hmd R Hplain Hne Hend Hdol.
  unfold handleFileCreate. rewrite Hi, Hmd, R. cbn [orb negb].
  pose proof (createData_wellFormed (settings p) currentTime Hplain) as Hwf.
  destruct (upsert_result content _ (createData_NoDup (settings p) currentTime)
              Hwf Hdol) as (new & tail & Hout & HX & Hset).
  destruct (createData (settings p) currentTime) as [|kv data] eqn:D.
  - exists content. split; [exact R|]. intros k t [].
  - rewrite Hout. cbn [snd]. rewrite modify_same. eexists.
    split; [reflexivity|]. intros k t Hin.
    assert (Et : t = currentTime).
    { apply (createData_value (settings p) currentTime k). rewrite D.
      exact Hin. }
    subst t. split; [reflexivity|].
    pose proof (proj1 (Forall_forall _ _) Hwf _ Hin) as [Hk _].
    cbn [fst] in Hk.
    destruct (settled_trim new k currentTime Hk (Hset _ Hin)) as [Ht Hl].
    rewrite HX. split.
    + apply hasTimeProperty_test; [|rewrite HX; exact Ht].
      apply bareName_facts in Hk. exact (proj1 Hk).
    + apply Hl. apply endsTrimmed_fieldText; assumption.
Qed.

Lemma handleFileCreate_stamps_witness :
  let f := {| ref := 0; extension := js "md"; ctime := 0; mtime := 0 |} in
  let p := {| settings := DEFAULT_SETTINGS; lastModifiedTime := 5;
              activeFile := None; processingFile := false;
              isInitializing := false |} in
  let v := fun r => if Nat.eqb r 0 then Some (js "") else None in
  snd (handleFileCreate f (js "2024-01-01 00:00:00") (p, v)) 0%nat =
    Some (js "---\ncreated: 2024-01-01 00:00:00\nmodified: 2024-01-01 00:00:00\n---\n\n") /\
  exists out,
    snd (handleFileCreate f (js "2024-01-01 00:00:00") (p, v)) (ref f)
      = Some out /\
    forall k t,
      In (k, t) (createData (settings p) (js "2024-01-01 00:00:00")) ->
      t = js "2024-01-01 00:00:00" /\
      hasTimeProperty out k = Some true /\
      In (k ++ js ": " ++ js "2024-01-01 00:00:00")
         (js_lines (frontMatterOf out)).
Proof.
  intros f p v. split; [reflexivity|].
  apply (handleFileCreate_stamps f (js "2024-01-01 00:00:00") p v (js ""));
    solve [reflexivity | discriminate].
Defined.

(** The modified time is rewritten at most once per interval: after a
    [handleFileModify] that has updated the file at time [t1], a
    [handleFileModify] at a time [t2] no more than [modifyInterval] seconds
    later leaves the plugin and the vault as they are. *)
Theorem handleFileModify_throttled file t1 s1 t2 s2 p v content :
  isInitializing p = false -> processingFile p = false ->
  isMarkdown file = true -> isActive p file = true ->
  enableModifiedTime (settings p) = true ->
  (modifyInterval (settings p) * 1000 < t1 - lastModifiedTime p)%Z ->
  v (ref file) = Some content ->
  (t2 - t1 <= modifyInterval (settings p) * 1000)%Z ->
  lastModifiedTime (fst (handleFileModify file t1 s1 (p, v))) = t1 /\
  handleFileModify file t2 s2 (handleFileModify file t1 s1 (p, v)) =
  handleFileModify file t1 s1 (p, v).
Proof.
  intros Hi Hp Hmd Ha He Hlt R Hle.
  destruct (modified_total content s1) as (out & Hout).
  assert (E : handleFileModify file t1 s1 (p, v) =
              (setProcessing false (setLastModifiedTime t1 p),
               modify v file out)).
  { unfold handleFileModify. rewrite Hi, Hp, Hmd, Ha, He, R, Hout.
    cbn [orb negb andb]. apply Z.ltb_lt in Hlt. rewrite Hlt. reflexivity. }
  rewrite E. split; [reflexivity|].
  unfold handleFileModify.
  cbn [isInitializing processingFile setProcessing setLastModifiedTime
       settings lastModifiedTime].
  unfold isActive in *. cbn [activeFile setProcessing setLastModifiedTime].
  rewrite Hi, Hmd, Ha, He. cbn [orb negb andb].
  assert (Hn : (modifyInterval (settings p) * 1000 <? t2 - t1)%Z = false)
    by (apply Z.ltb_ge; exact Hle).
  rewrite Hn. reflexivity.
Qed.

Lemma handleFileModify_throttled_witness :
  let f := {| ref := 0; extension := js "md"; ctime := 0; mtime := 0 |} in
  let p := {| settings := DEFAULT_SETTINGS; lastModifiedTime := 0;
              activeFile := Some f; processingFile := false;
              isInitializing := false |} in
  let v := fun r => if Nat.eqb r 0 then Some (js "---\nmodified: old\n---\nbody")
                    else None in
  snd (handleFileModify f 50000 (js "2024-01-01 00:00:50") (p, v)) 0%nat =
    Some (js "---\nmodified: 2024-01-01 00:00:50\n---\nbody") /\
  lastModifiedTime
    (fst (handleFileModify f 50000 (js "2024-01-01 00:00:50") (p, v)))
    = 50000%Z /\
  handleFileModify f 60000 (js "2024-01-01 00:01:00")
    (handleFileModify f 50000 (js "2024-01-01 00:00:50") (p, v)) =
  handleFileModify f 50000 (js "2024-01-01 00:00:50") (p, v).
Proof.
  intros f p v. split; [reflexivity|].
  apply (handleFileModify_throttled f 50000 (js "2024-01-01 00:00:50") 60000
           (js "2024-01-01 00:01:00") p v (js "---\nmodified: old\n---\nbody"));
    solve [reflexivity | (cbn; lia)].
Defined.

(** The first edit of a newly created file is stamped at once: when the
    created file is the active one and the modified time is enabled,
    [handleFileCreate] sets [lastModifiedTime] to 0, so a
    [handleFileModify] at any time later than the interval rewrites the
    modified time, whatever [lastModifiedTime] was before. *)
Theorem first_edit_after_create_is_stamped file s1 t2 s2 p v content :
  isInitializing p = false -> processingFile p = false ->
  isMarkdown file = true -> isActive p file = true ->
  enableModifiedTime (settings p) = true ->
  v (ref file) = Some content ->
  (modifyInterval (settings p) * 1000 < t2)%Z ->
  let pv1 := handleFileCreate file s1 (p, v) in
  let pv2 := handleFileModify file t2 s2 pv1 in
  lastModifiedTime (fst pv1) = 0%Z /\
  lastModifiedTime (fst pv2) = t2 /\
  exists c1 c2,
    snd pv1 (ref file) = Some c1 /\
    insertFrontMatter c1 [(js "modified", s2)] = Some c2 /\
    snd pv2 (ref file) = Some c2.
Proof.
  intros Hi Hp Hmd Ha He R Hlt.
  assert (Hd : exists kv data, createData (settings p) s1 = kv :: data).
  { unfold createData. rewrite He.
    destruct (enableCreatedTime (settings p)); eexists; eexists; reflexivity. }
  destruct Hd as (kv & data & D).
  destruct (insert_total content (createData (settings p) s1)) as (c1 & Hc1).
  { apply createData_literal. }
  assert (E1 : handleFileCreate file s1 (p, v) =
               (setProcessing false (setLastModifiedTime 0 p),
                modify v file c1)).
  { unfold handleFileCreate. rewrite Hi, Hmd, R. cbn [orb negb].
    rewrite D in *. rewrite Hc1, Ha, He. reflexivity. }
  destruct (modified_total c1 s2) as (c2 & Hc2).
  intros pv1 pv2. subst pv2 pv1. rewrite E1.
  assert (E2 : handleFileModify file t2 s2
                 (setProcessing false (setLastModifiedTime 0 p),
                  modify v file c1) =
               (setProcessing false
                  (setLastModifiedTime t2
                     (setProcessing false (setLastModifiedTime 0 p))),
                modify (modify v file c1) file c2)).
  { unfold handleFileModify.
    cbn [isInitializing processingFile setProcessing setLastModifiedTime
         settings lastModifiedTime].
    unfold isActive in *. cbn [activeFile setProcessing setLastModifiedTime].
    rewrite Hi, Hmd, Ha, He, modify_same, Hc2. cbn [orb negb andb].
    rewrite Z.sub_0_r. apply Z.ltb_lt in Hlt. rewrite Hlt. reflexivity. }
  rewrite E2. split; [reflexivity|]. split; [reflexivity|].
  exists c1, c2. cbn [snd]. rewrite !modify_same. auto.
Qed.

Lemma first_edit_after_create_is_stamped_witness :
  let f := {| ref := 0; extension := js "md"; ctime := 0; mtime := 0 |} in
  let p := {| settings := DEFAULT_SETTINGS; lastModifiedTime := 1700000000000;
              activeFile := Some f; processingFile := false;
              isInitializing := false |} in
  let v := fun r => if Nat.eqb r 0 then Some (js "") else None in
  let pv1 := handleFileCreate f (js "2024-01-01 00:00:00") (p, v) in
  let pv2 := handleFileModify f 1700000000001 (js "2024-01-01 00:00:01") pv1 in
  snd pv2 0%nat =
    Some (js "---\ncreated: 2024-01-01 00:00:00\nmodified: 2024-01-01 00:00:01\n---\n\n") /\
  lastModifiedTime (fst pv1) = 0%Z /\
  lastModifiedTime (fst pv2) = 1700000000001%Z /\
  exists c1 c2,
    snd pv1 (ref f) = Some c1 /\
    insertFrontMatter c1 [(js "modified", js "2024-01-01 00:00:01")] = Some c2 /\
    snd pv2 (ref f) = Some c2.
Proof.
  intros f p v. split; [reflexivity|].
  apply (first_edit_after_create_is_stamped f (js "2024-01-01 00:00:00")
           1700000000001 (js "2024-01-01 00:00:01") p v (js ""));
    solve [reflexivity | (cbn; lia)].
Defined.
